(** * kometa-overseerr-bridge: a shallow embedding of [app/app.py]

    The shim impersonates the Radarr and Sonarr REST APIs and redirects
    "add" and "import" calls to Overseerr, bridging TVDB identifiers to
    TMDb identifiers through the TMDb "find" endpoint.

    The development follows the source file top to bottom:
    - [Json]: the values [request.json()] and [r.json()] produce, with
      Python's truthiness, [or], [dict.get] and [int()];
    - [Eff]: the effects of a handler, an error monad over the trace of
      outbound HTTP calls;
    - [App]: the module globals, the three helpers and every route;
    - the properties of the gate, the forwarder, the bridge, the payload
      normalizer and the import loops. *)

From Stdlib Require Import ZArith List String Ascii Bool Lia DecimalString.
Import ListNotations.
Open Scope string_scope.
Open Scope list_scope.
Open Scope Z_scope.

(** ** JSON values as Python sees them *)

#[local] Set Warnings "-register-all".

Module Json.

(** A decoded JSON document.  Integers are Python's unbounded [int].  A
    finite [float] is kept as the pair [(m, e)] standing for [m * 2^e]; the
    program only tests floats for truth and truncates them with [int()].
    A [dict] keeps its insertion order, as Python's does. *)
Inductive json : Type :=
| JNull
| JBool (b : bool)
| JInt (z : Z)
| JFloat (m e : Z)
| JStr (s : string)
| JList (l : list json)
| JDict (d : list (string * json)).

Definition dict := list (string * json).

(** [bool(v)]: [None], [False], zero, the empty string, list and dict are
    falsy; everything else is truthy. *)
Definition truthy (v : json) : bool :=
  match v with
  | JNull => false
  | JBool b => b
  | JInt z => negb (z =? 0)
  | JFloat m _ => negb (m =? 0)
  | JStr s => negb (s =? "")%string
  | JList l => match l with [] => false | _ => true end
  | JDict d => match d with [] => false | _ => true end
  end.

(** [a or b]: [a] when it is truthy, [b] otherwise. *)
Definition py_or (a b : json) : json := if truthy a then a else b.

Definition is_none (v : json) : bool :=
  match v with JNull => true | _ => false end.

Definition is_dict (v : json) : bool :=
  match v with JDict _ => true | _ => false end.

Definition is_list (v : json) : bool :=
  match v with JList _ => true | _ => false end.

(** Key lookup in a dict. *)
Fixpoint find (d : dict) (k : string) : option json :=
  match d with
  | [] => None
  | (k', v) :: d' => if (k' =? k)%string then Some v else find d' k
  end.

(** [d.get(k)]: the value, [None] when the key is absent. *)
Definition get (d : dict) (k : string) : json :=
  match find d k with Some v => v | None => JNull end.

(** [d.get(k, default)]. *)
Definition get_default (d : dict) (k : string) (dflt : json) : json :=
  match find d k with Some v => v | None => dflt end.

(** [d[k] = v]: an existing key keeps its place, a new one goes last. *)
Fixpoint set (d : dict) (k : string) (v : json) : dict :=
  match d with
  | [] => [(k, v)]
  | (k', v') :: d' =>
      if (k' =? k)%string then (k', v) :: d' else (k', v') :: set d' k v
  end.

(** [{**d, **more}]: the entries of [more] assigned into [d] in order. *)
Definition update (d more : dict) : dict :=
  fold_left (fun acc kv => set acc (fst kv) (snd kv)) more d.

Definition keys (d : dict) : list string := map fst d.

(** A Python dict holds each key once. *)
Definition wf_dict (d : dict) : Prop := NoDup (keys d).

(** Truncation of the float [m * 2^e] toward zero, as [int()] does. *)
Definition trunc_float (m e : Z) : Z :=
  if 0 <=? e then m * 2 ^ e else Z.quot m (2 ^ (- e)).

End Json.
Export Json.

(** Decimal rendering of an integer, as an f-string interpolates it. *)
Definition str_of_Z (z : Z) : string := NilZero.string_of_int (Z.to_int z).

(** ** Effects: exceptions and outbound HTTP calls *)

Module Eff.

(** The exceptions the program can raise.  [HTTPException] is FastAPI's;
    [HTTPStatusError] is what httpx's [raise_for_status] raises,
    [TransportError] what the client raises when no response arrives
    (connection refused, timeout); the others are Python's own.  All of
    them derive from [Exception]. *)
Inductive exn : Type :=
| HTTPException (status_code : Z) (detail : string)
| HTTPStatusError (status_code : Z)
| TransportError (msg : string)
| JSONDecodeError
| ValueError
| TypeError
| KeyError
| IndexError
| AttributeError.

Inductive res (A : Type) : Type :=
| Ret (a : A)
| Raise (e : exn).
Arguments Ret {A} a.
Arguments Raise {A} e.

(** An outbound request: [client.get(url, params=...)] or
    [client.post(url, json=..., headers=...)]. *)
Inductive call : Type :=
| Get (url : string) (params : list (string * string))
| Post (url : string) (payload : json) (headers : list (string * string)).

(** An httpx response: [r.status_code], [r.text], and what [r.json()]
    gives ([None] when the text is not a JSON document). *)
Record response : Type := mkResponse {
  status_code : Z;
  text : string;
  parsed : option json
}.

Inductive outcome : Type :=
| NoResponse (msg : string)
| Reply (r : response).

(** The calls made so far, oldest first. *)
Definition trace := list call.

(** The outside world: what a call is answered with, given the calls that
    went before it. *)
Definition network := trace -> call -> outcome.

(** A computation that may raise and that may talk to the network. *)
Definition M (A : Type) : Type := trace -> res A * trace.

Definition ret {A} (a : A) : M A := fun tr => (Ret a, tr).

Definition raise {A} (e : exn) : M A := fun tr => (Raise e, tr).

Definition bind {A B} (m : M A) (k : A -> M B) : M B :=
  fun tr =>
    match m tr with
    | (Ret a, tr') => k a tr'
    | (Raise e, tr') => (Raise e, tr')
    end.

(** [try: m  except Exception as e: h(e)]. *)
Definition try_except {A} (m : M A) (h : exn -> M A) : M A :=
  fun tr =>
    match m tr with
    | (Ret a, tr') => (Ret a, tr')
    | (Raise e, tr') => h e tr'
    end.

(** A pure step that may raise. *)
Definition lift {A} (r : res A) : M A := fun tr => (r, tr).

(** One request through an [httpx.AsyncClient]. *)
Definition send (net : network) (c : call) : M response :=
  fun tr =>
    match net tr c with
    | NoResponse msg => (Raise (TransportError msg), tr ++ [c])
    | Reply r => (Ret r, tr ++ [c])
    end.

(** [r.raise_for_status()]: raises unless the status is 2xx. *)
Definition is_success (r : response) : bool :=
  (200 <=? status_code r) && (status_code r <? 300).

Definition raise_for_status (r : response) : M unit :=
  if is_success r then ret tt else raise (HTTPStatusError (status_code r)).

(** [r.json()]. *)
Definition json_of (r : response) : M json :=
  match parsed r with
  | Some v => ret v
  | None => raise JSONDecodeError
  end.

(** What FastAPI answers: 200 with the returned value, the status of a
    raised [HTTPException], 500 for any other exception. *)
Definition status_of {A} (r : res A) : Z :=
  match r with
  | Ret _ => 200
  | Raise (HTTPException s _) => s
  | Raise _ => 500
  end.

End Eff.
Export Eff.

Declare Scope eff_scope.
Delimit Scope eff_scope with eff.
Notation "x <- m ;; k" := (bind m (fun x => k))
  (at level 61, m at next level, right associativity) : eff_scope.
Notation "m ;;; k" := (bind m (fun _ => k))
  (at level 61, right associativity) : eff_scope.
Open Scope eff_scope.

(** ** Python built-ins the program leans on *)

Module Py.

(** [x or y] on the optional strings FastAPI hands to a route: the header
    when it is a non-empty string, the query parameter otherwise. *)
Definition or_str (a b : option string) : option string :=
  match a with
  | Some s => if (s =? "")%string then b else a
  | None => b
  end.

(** [provided != secret], where [provided] may be [None]. *)
Definition differs (provided : option string) (secret : string) : bool :=
  match provided with
  | Some s => negb (s =? secret)%string
  | None => true
  end.

Definition lower_ascii (c : ascii) : ascii :=
  let n := N_of_ascii c in
  if ((65 <=? n) && (n <=? 90))%N then ascii_of_N (n + 32) else c.

(** [s.lower()] on the ASCII letters.  The program only uses it to test a
    prefix against ["tmdb:"] and ["tvdb:"], which no other letter lowers
    into. *)
Fixpoint lower (s : string) : string :=
  match s with
  | EmptyString => EmptyString
  | String c s' => String (lower_ascii c) (lower s')
  end.

(** [s.startswith(p)]. *)
Definition startswith (s p : string) : bool := String.prefix p s.

(** [s.split(sep, 1)]: the part before the first separator, and the part
    after it when there is one. *)
Fixpoint split1 (sep : ascii) (s : string) : string * option string :=
  match s with
  | EmptyString => (EmptyString, None)
  | String c s' =>
      if Ascii.eqb c sep then (EmptyString, Some s')
      else let (a, b) := split1 sep s' in (String c a, b)
  end.

(** The built-ins whose full definition lies outside the program:
    [int(s)] on a string ([None] for a [ValueError]), [str(e)] on an
    exception, and the text an f-string gives a JSON value. *)
Record builtins : Type := mkBuiltins {
  int_of_str : string -> option Z;
  str_of_exn : exn -> string;
  str_of_json : json -> string
}.

(** [int(v)]. *)
Definition py_int (py : builtins) (v : json) : res Z :=
  match v with
  | JNull => Raise TypeError
  | JBool b => Ret (if b then 1 else 0)
  | JInt z => Ret z
  | JFloat m e => Ret (trunc_float m e)
  | JStr s =>
      match int_of_str py s with
      | Some z => Ret z
      | None => Raise ValueError
      end
  | JList _ => Raise TypeError
  | JDict _ => Raise TypeError
  end.

(** [v.get]: only a dict has the method. *)
Definition as_dict (v : json) : res dict :=
  match v with
  | JDict d => Ret d
  | _ => Raise AttributeError
  end.

(** [**v]: only a mapping unpacks. *)
Definition as_mapping (v : json) : res dict :=
  match v with
  | JDict d => Ret d
  | _ => Raise TypeError
  end.

(** [v.split]: only a string has the method. *)
Definition as_str (v : json) : res string :=
  match v with
  | JStr s => Ret s
  | _ => Raise AttributeError
  end.

(** [v[0]]. *)
Definition index0 (v : json) : res json :=
  match v with
  | JList (x :: _) => Ret x
  | JList [] => Raise IndexError
  | JDict _ => Raise KeyError
  | JStr (String c _) => Ret (JStr (String c EmptyString))
  | JStr EmptyString => Raise IndexError
  | _ => Raise TypeError
  end.

(** [v[k]] for a string key. *)
Definition subscript (v : json) (k : string) : res json :=
  match v with
  | JDict d =>
      match find d k with
      | Some x => Ret x
      | None => Raise KeyError
      end
  | _ => Raise TypeError
  end.

End Py.
Export Py.

(** ** The application *)

(** The module globals, as they stand once the module is loaded: [MODE]
    and [DEFAULT_TV_SEASONS] already lower-cased, [OVERSEERR_URL] already
    stripped of trailing slashes, [DRY_RUN] already a boolean. *)
Record config : Type := mkConfig {
  MODE : string;
  SHIM_API_KEY : string;
  OVERSEERR_URL : string;
  OVERSEERR_API_KEY : string;
  OVERSEERR_USER_ID : Z;
  TMDB_API_KEY : string;
  DEFAULT_TV_SEASONS : string;
  DRY_RUN : bool
}.

(** The clock: [int(time.time())] and the text of
    [time.strftime("%Y-%m-%dT%H:%M:%SZ", time.gmtime())]. *)
Record clock : Type := mkClock {
  time_s : Z;
  gmtime_iso : string
}.

(** What a route receives once FastAPI has bound its parameters: the
    [X-Api-Key] header, the [apikey] and [term] query parameters, and the
    decoded body ([None] when [request.json()] cannot decode it).  A
    lookup without its required [term] never reaches the route. *)
Record request : Type := mkRequest {
  x_api_key : option string;
  apikey : option string;
  term : string;
  body : option json
}.

Inductive endpoint : Type :=
| Health
| Status
| RootFolders
| RootFoldersAlias
| QualityProfiles
| QualityProfilesAlias
| ListTags
| CreateTag
| GetExclusions
| AddExclusion
| MovieImport
| ListSeries
| SeriesLookup
| SeriesImport
| GetImportListExclusions
| AddImportListExclusion
| ListMovies
| MovieLookup
| AddMovie
| AddSeries.

Section App.

Variable cfg : config.
Variable py : builtins.
Variable net : network.
Variable clk : clock.

(** [await request.json()]. *)
Definition request_json (req : request) : M json :=
  match body req with
  | Some v => ret v
  | None => raise JSONDecodeError
  end.

Definition require_api_key (x_api_key apikey : option string) : M unit :=
  let provided := or_str x_api_key apikey in
  if negb (SHIM_API_KEY cfg =? "")%string && differs provided (SHIM_API_KEY cfg)
  then raise (HTTPException 401 "Invalid API key")
  else ret tt.

(** The [payload] dict of [overseerr_request], once the season directive
    has been set. *)
Definition request_payload (media_type : string) (tmdb_id : Z) : dict :=
  let payload :=
    [("mediaType", JStr media_type);
     ("mediaId", JInt tmdb_id);
     ("userId", JInt (OVERSEERR_USER_ID cfg))] in
  if (media_type =? "tv")%string then
    if (DEFAULT_TV_SEASONS cfg =? "all")%string then
      set payload "seasons" (JStr "all")
    else if (DEFAULT_TV_SEASONS cfg =? "first")%string then
      set payload "seasons" (JList [JInt 1])
    else payload
  else payload.

Definition overseerr_headers : list (string * string) :=
  [("X-Api-Key", OVERSEERR_API_KEY cfg);
   ("Content-Type", "application/json");
   ("Accept", "application/json")].

Definition overseerr_call (payload : dict) : call :=
  Post (OVERSEERR_URL cfg ++ "/api/v1/request")%string
       (JDict payload) overseerr_headers.

Definition overseerr_request (media_type : string) (tmdb_id : Z) : M json :=
  if (OVERSEERR_URL cfg =? "")%string || (OVERSEERR_API_KEY cfg =? "")%string
  then raise (HTTPException 500
         "Overseerr not configured (OVERSEERR_URL/OVERSEERR_API_KEY)")
  else
    let payload := request_payload media_type tmdb_id in
    if DRY_RUN cfg then
      ret (JDict [("dry_run", JBool true); ("would_request", JDict payload)])
    else
      r <- send net (overseerr_call payload) ;;
      if (200 <=? status_code r) && (status_code r <? 300) then
        if (text r =? "")%string then ret (JDict [("ok", JBool true)])
        else json_of r
      else
        raise (HTTPException 502
                 ("Overseerr error " ++ str_of_Z (status_code r)
                    ++ ": " ++ text r)%string).

Definition find_call (tvdb_id : Z) : call :=
  Get ("https://api.themoviedb.org/3/find/" ++ str_of_Z tvdb_id)%string
      [("api_key", TMDB_API_KEY cfg); ("external_source", "tvdb_id")].

Definition tmdb_from_tvdb (tvdb_id : Z) : M (option Z) :=
  if (TMDB_API_KEY cfg =? "")%string then ret None
  else
    r <- send net (find_call tvdb_id) ;;
    raise_for_status r ;;;
    data <- json_of r ;;
    d <- lift (as_dict data) ;;
    let tv_results := py_or (get d "tv_results") (JList []) in
    if negb (truthy tv_results) then ret None
    else
      first <- lift (index0 tv_results) ;;
      id <- lift (subscript first "id") ;;
      n <- lift (py_int py id) ;;
      ret (Some n).

Definition health : M json :=
  ret (JDict [("ok", JBool true); ("mode", JStr (MODE cfg))]).

Definition status (req : request) : M json :=
  require_api_key (x_api_key req) (apikey req) ;;;
  ret (JDict
         [("version", JStr "5.0.0.0");
          ("buildTime", JStr "2026-01-01T00:00:00Z");
          ("isDebug", JBool false);
          ("isProduction", JBool true);
          ("isAdmin", JBool true);
          ("appName", JStr "kometa-arr-shim");
          ("instanceName", JStr ("kometa-" ++ MODE cfg ++ "-shim")%string)]).

Definition rootfolders (req : request) : M json :=
  require_api_key (x_api_key req) (apikey req) ;;;
  if (MODE cfg =? "radarr")%string
  then ret (JList [JDict [("id", JInt 1); ("path", JStr "/movies")]])
  else ret (JList [JDict [("id", JInt 1); ("path", JStr "/tv")]]).

Definition rootfolders_alias (req : request) : M json := rootfolders req.

Definition qualityprofiles (req : request) : M json :=
  require_api_key (x_api_key req) (apikey req) ;;;
  ret (JList [JDict [("id", JInt 1); ("name", JStr "Any")]]).

Definition qualityprofiles_alias (req : request) : M json :=
  qualityprofiles req.

Definition list_tags (req : request) : M json :=
  require_api_key (x_api_key req) (apikey req) ;;;
  ret (JList []).

Definition create_tag (req : request) : M json :=
  require_api_key (x_api_key req) (apikey req) ;;;
  body <- request_json req ;;
  d <- lift (as_dict body) ;;
  let label := get_default d "label" (JStr "kometa") in
  ret (JDict [("id", JInt 1); ("label", label)]).

Definition get_exclusions (req : request) : M json :=
  require_api_key (x_api_key req) (apikey req) ;;;
  ret (JList []).

Definition add_exclusion (req : request) : M json :=
  require_api_key (x_api_key req) (apikey req) ;;;
  body <- request_json req ;;
  d <- lift (as_mapping body) ;;
  ret (JDict (update [("id", JInt (time_s clk))] d)).

(** The [items] of [movie_import], from the decoded body. *)
Definition movie_items (body : json) : list json :=
  let items :=
    match body with
    | JDict d =>
        let items :=
          py_or (py_or (py_or (get d "movies") (get d "movie"))
                       (get d "importListMovies"))
                (JList []) in
        if negb (truthy items) then JList [body] else items
    | _ => body
    end in
  match items with
  | JList l => l
  | _ => [items]
  end.

(** The [tmdb_id] the loop of [movie_import] finds in one item: the direct
    spellings joined by [or], then, when that is [None] and
    [it.get("movie")] is a dict, the nested spellings joined by [or]. *)
Definition movie_tmdb_id (it : json) : json :=
  match it with
  | JDict d =>
      let tmdb_id := py_or (get d "tmdbId") (get d "tmdb_id") in
      match get d "movie" with
      | JDict m =>
          if is_none tmdb_id
          then py_or (get m "tmdbId") (get m "tmdb_id")
          else tmdb_id
      | _ => tmdb_id
      end
  | _ => JNull
  end.

Definition missing (field : string) (it : json) : json :=
  JDict [("ok", JBool false);
         ("msg", JStr ("missing " ++ field)%string);
         ("item", it)].

(** One turn of the loop of [movie_import]: the results list after the
    item has been handled. *)
Definition movie_import_item (it : json) (results : list json)
  : M (list json) :=
  let tmdb_id := movie_tmdb_id it in
  if negb (truthy tmdb_id) then ret (results ++ [missing "tmdbId" it])
  else
    try_except
      (n <- lift (py_int py tmdb_id) ;;
       overseerr_request "movie" n ;;;
       n' <- lift (py_int py tmdb_id) ;;
       ret (results ++ [JDict [("ok", JBool true); ("tmdbId", JInt n')]]))
      (fun e =>
         n <- lift (py_int py tmdb_id) ;;
         ret (results ++
                [JDict [("ok", JBool false);
                        ("tmdbId", JInt n);
                        ("msg", JStr (str_of_exn py e))]])).

Fixpoint movie_import_loop (items results : list json) : M (list json) :=
  match items with
  | [] => ret results
  | it :: rest =>
      results' <- movie_import_item it results ;;
      movie_import_loop rest results'
  end.

(** [r.get("ok")] on one of the result dicts. *)
Definition result_ok (r : json) : bool :=
  match r with
  | JDict d => truthy (get d "ok")
  | _ => false
  end.

Definition count (p : json -> bool) (l : list json) : Z :=
  Z.of_nat (List.length (filter p l)).

(** The dict both import routes return. *)
Definition import_summary (results : list json) : json :=
  JDict [("imported", JInt (count result_ok results));
         ("failed", JInt (count (fun r => negb (result_ok r)) results));
         ("results", JList results)].

Definition movie_import (req : request) : M json :=
  require_api_key (x_api_key req) (apikey req) ;;;
  if negb (MODE cfg =? "radarr")%string
  then raise (HTTPException 404 "Not in radarr mode")
  else
    body <- request_json req ;;
    results <- movie_import_loop (movie_items body) [] ;;
    ret (import_summary results).

(** [list_series] is defined twice in the source, with the same body. *)
Definition list_series (req : request) : M json :=
  require_api_key (x_api_key req) (apikey req) ;;;
  if negb (MODE cfg =? "sonarr")%string then ret (JList [])
  else ret (JList []).

Definition tv_details_call (tmdb_id : Z) : call :=
  Get ("https://api.themoviedb.org/3/tv/" ++ str_of_Z tmdb_id)%string
      [("api_key", TMDB_API_KEY cfg)].

Definition movie_details_call (tmdb_id : Z) : call :=
  Get ("https://api.themoviedb.org/3/movie/" ++ str_of_Z tmdb_id)%string
      [("api_key", TMDB_API_KEY cfg)].

(** [int(term.split(":", 1)[1])]. *)
Definition term_id (term : string) : M Z :=
  match snd (split1 ":" term) with
  | None => raise IndexError
  | Some s =>
      match int_of_str py s with
      | Some z => ret z
      | None => raise ValueError
      end
  end.

(** [int(date.split("-")[0]) if date else 0]. *)
Definition year_of (date : json) : M Z :=
  if truthy date then
    s <- lift (as_str date) ;;
    match int_of_str py (fst (split1 "-" s)) with
    | Some z => ret z
    | None => raise ValueError
    end
  else ret 0.

Definition images_of (poster_path : json) : json :=
  if truthy poster_path then
    JList [JDict [("coverType", JStr "poster");
                  ("url", JStr ("https://image.tmdb.org/t/p/original"
                                  ++ str_of_json py poster_path)%string)]]
  else JList [].

Definition series_lookup (req : request) : M json :=
  require_api_key (x_api_key req) (apikey req) ;;;
  if negb (MODE cfg =? "sonarr")%string then ret (JList [])
  else if negb (startswith (lower (term req)) "tvdb:") then ret (JList [])
  else if (TMDB_API_KEY cfg =? "")%string then
    raise (HTTPException 400 "TMDB_API_KEY is required for /series/lookup")
  else
    tvdb_id <- term_id (term req) ;;
    tmdb <- tmdb_from_tvdb tvdb_id ;;
    match tmdb with
    | None => ret (JList [])
    | Some tmdb_id =>
        r <- send net (tv_details_call tmdb_id) ;;
        if status_code r =? 404 then ret (JList [])
        else
          raise_for_status r ;;;
          s <- json_of r ;;
          d <- lift (as_dict s) ;;
          let title :=
            py_or (py_or (get d "name") (get d "original_name"))
                  (JStr "Unknown") in
          let first_air_date := py_or (get d "first_air_date") (JStr "") in
          year <- year_of first_air_date ;;
          let poster_path := get d "poster_path" in
          ret (JList
                 [JDict [("title", title);
                         ("tvdbId", JInt tvdb_id);
                         ("year", JInt year);
                         ("titleSlug",
                          JStr ("tvdb-" ++ str_of_Z tvdb_id)%string);
                         ("images", images_of poster_path);
                         ("seasonFolder", JBool true);
                         ("seriesType", JStr "standard")]])
    end.

(** The [items] of [series_import], from the decoded body. *)
Definition series_items (body : json) : list json :=
  let items :=
    match body with
    | JDict d =>
        let items :=
          py_or (py_or (py_or (py_or (get d "series") (get d "shows"))
                              (get d "importListSeries"))
                       (get d "importListItems"))
                (JList []) in
        if negb (truthy items) then JList [body] else items
    | _ => body
    end in
  match items with
  | JList l => l
  | _ => [items]
  end.

(** The [tvdb_id] the loop of [series_import] finds in one item. *)
Definition series_tvdb_id (it : json) : json :=
  match it with
  | JDict d =>
      let tvdb_id := py_or (get d "tvdbId") (get d "tvdb_id") in
      match get d "series" with
      | JDict m =>
          if is_none tvdb_id
          then py_or (get m "tvdbId") (get m "tvdb_id")
          else tvdb_id
      | _ => tvdb_id
      end
  | _ => JNull
  end.

(** One turn of the loop of [series_import].  The bridge is called before
    the [try] block opens; only the forwarder is called inside it. *)
Definition series_import_item (it : json) (results : list json)
  : M (list json) :=
  let tvdb_id := series_tvdb_id it in
  if negb (truthy tvdb_id) then ret (results ++ [missing "tvdbId" it])
  else
    tv <- lift (py_int py tvdb_id) ;;
    tmdb <- tmdb_from_tvdb tv ;;
    match tmdb with
    | None =>
        tv' <- lift (py_int py tvdb_id) ;;
        ret (results ++
               [JDict [("ok", JBool false);
                       ("tvdbId", JInt tv');
                       ("msg", JStr "tvdb->tmdb conversion failed")]])
    | Some tmdb_id =>
        try_except
          (overseerr_request "tv" tmdb_id ;;;
           tv' <- lift (py_int py tvdb_id) ;;
           ret (results ++
                  [JDict [("ok", JBool true);
                          ("tvdbId", JInt tv');
                          ("tmdbId", JInt tmdb_id)]]))
          (fun e =>
             tv' <- lift (py_int py tvdb_id) ;;
             ret (results ++
                    [JDict [("ok", JBool false);
                            ("tvdbId", JInt tv');
                            ("tmdbId", JInt tmdb_id);
                            ("msg", JStr (str_of_exn py e))]]))
    end.

Fixpoint series_import_loop (items results : list json) : M (list json) :=
  match items with
  | [] => ret results
  | it :: rest =>
      results' <- series_import_item it results ;;
      series_import_loop rest results'
  end.

Definition series_import (req : request) : M json :=
  require_api_key (x_api_key req) (apikey req) ;;;
  if negb (MODE cfg =? "sonarr")%string
  then raise (HTTPException 404 "Not in sonarr mode")
  else
    body <- request_json req ;;
    results <- series_import_loop (series_items body) [] ;;
    ret (import_summary results).

Definition get_import_list_exclusions (req : request) : M json :=
  require_api_key (x_api_key req) (apikey req) ;;;
  ret (JList []).

Definition add_import_list_exclusion (req : request) : M json :=
  require_api_key (x_api_key req) (apikey req) ;;;
  body <- request_json req ;;
  d <- lift (as_mapping body) ;;
  ret (JDict (update [("id", JInt (time_s clk))] d)).

Definition list_movies (req : request) : M json :=
  require_api_key (x_api_key req) (apikey req) ;;;
  if negb (MODE cfg =? "radarr")%string then ret (JList [])
  else ret (JList []).

Definition movie_lookup (req : request) : M json :=
  require_api_key (x_api_key req) (apikey req) ;;;
  if negb (MODE cfg =? "radarr")%string then ret (JList [])
  else if negb (startswith (lower (term req)) "tmdb:") then ret (JList [])
  else if (TMDB_API_KEY cfg =? "")%string then
    raise (HTTPException 400 "TMDB_API_KEY is required for /movie/lookup")
  else
    tmdb_id <- term_id (term req) ;;
    r <- send net (movie_details_call tmdb_id) ;;
    if status_code r =? 404 then ret (JList [])
    else
      raise_for_status r ;;;
      m <- json_of r ;;
      d <- lift (as_dict m) ;;
      let title :=
        py_or (py_or (get d "title") (get d "original_title"))
              (JStr "Unknown") in
      let release_date := py_or (get d "release_date") (JStr "") in
      year <- year_of release_date ;;
      let poster_path := get d "poster_path" in
      ret (JList
             [JDict [("title", title);
                     ("year", JInt year);
                     ("tmdbId", JInt tmdb_id);
                     ("titleSlug", JStr ("tmdb-" ++ str_of_Z tmdb_id)%string);
                     ("images", images_of poster_path)]]).

Definition add_movie (req : request) : M json :=
  require_api_key (x_api_key req) (apikey req) ;;;
  if negb (MODE cfg =? "radarr")%string
  then raise (HTTPException 404 "Not in radarr mode")
  else
    body <- request_json req ;;
    d <- lift (as_dict body) ;;
    let tmdb_id := py_or (get d "tmdbId") (get d "tmdb_id") in
    if negb (truthy tmdb_id)
    then raise (HTTPException 400 "Missing tmdbId in Radarr add payload")
    else
      n <- lift (py_int py tmdb_id) ;;
      overseerr_request "movie" n ;;;
      n' <- lift (py_int py tmdb_id) ;;
      ret (JDict [("id", JInt (time_s clk));
                  ("title", get_default d "title" (JStr "Unknown"));
                  ("tmdbId", JInt n');
                  ("monitored", get_default d "monitored" (JBool true));
                  ("path", get_default d "path" (JStr ""));
                  ("added", JStr (gmtime_iso clk))]).

Definition add_series (req : request) : M json :=
  require_api_key (x_api_key req) (apikey req) ;;;
  if negb (MODE cfg =? "sonarr")%string
  then raise (HTTPException 404 "Not in sonarr mode")
  else
    body <- request_json req ;;
    d <- lift (as_dict body) ;;
    let tvdb_id := py_or (get d "tvdbId") (get d "tvdb_id") in
    if negb (truthy tvdb_id)
    then raise (HTTPException 400 "Missing tvdbId in Sonarr add payload")
    else
      tv <- lift (py_int py tvdb_id) ;;
      tmdb <- tmdb_from_tvdb tv ;;
      match tmdb with
      | None =>
          raise (HTTPException 400
                   "Could not convert tvdbId -> tmdbId (set TMDB_API_KEY)")
      | Some tmdb_id =>
          overseerr_request "tv" tmdb_id ;;;
          tv' <- lift (py_int py tvdb_id) ;;
          ret (JDict [("id", JInt (time_s clk));
                      ("title", get_default d "title" (JStr "Unknown"));
                      ("tvdbId", JInt tv');
                      ("monitored", get_default d "monitored" (JBool true));
                      ("path", get_default d "path" (JStr ""));
                      ("added", JStr (gmtime_iso clk))])
      end.

(** The route table. *)
Definition handle (e : endpoint) (req : request) : M json :=
  match e with
  | Health => health
  | Status => status req
  | RootFolders => rootfolders req
  | RootFoldersAlias => rootfolders_alias req
  | QualityProfiles => qualityprofiles req
  | QualityProfilesAlias => qualityprofiles_alias req
  | ListTags => list_tags req
  | CreateTag => create_tag req
  | GetExclusions => get_exclusions req
  | AddExclusion => add_exclusion req
  | MovieImport => movie_import req
  | ListSeries => list_series req
  | SeriesLookup => series_lookup req
  | SeriesImport => series_import req
  | GetImportListExclusions => get_import_list_exclusions req
  | AddImportListExclusion => add_import_list_exclusion req
  | ListMovies => list_movies req
  | MovieLookup => movie_lookup req
  | AddMovie => add_movie req
  | AddSeries => add_series req
  end.

End App.

(** ** What a computation can raise *)

Definition exn_status (e : exn) : Z :=
  match e with
  | HTTPException s _ => s
  | _ => 500
  end.

(** An exception other than FastAPI's own. *)
Definition plain (e : exn) : Prop :=
  match e with
  | HTTPException _ _ => False
  | _ => True
  end.

Definition raises_only {A} (P : exn -> Prop) (m : M A) : Prop :=
  forall tr e tr', m tr = (Raise e, tr') -> P e.

(** The key the gate compares: the header when it is a non-empty string,
    the query parameter otherwise. *)
Definition provided (req : request) : option string :=
  or_str (x_api_key req) (apikey req).

Definition rejection : exn := HTTPException 401 "Invalid API key".

(** The statuses a route can still raise once the gate has let the
    request through. *)
Definition past_gate (e : exn) : Prop :=
  In (exn_status e) [400; 404; 500; 502].

(** ** Statements from the specification *)

(** "When a non-empty shared secret is configured, a request is accepted
    if and only if the value supplied equals the secret, and is otherwise
    rejected with 401; when no secret is configured, every request is
    accepted": the statement for one route and one request. *)
Definition gate_applies (cfg : config) (py : builtins) (net : network)
    (clk : clock) (e : endpoint) (req : request) : Prop :=
  forall tr,
    let answer := handle cfg py net clk e req tr in
    (SHIM_API_KEY cfg <> "" ->
       (status_of (fst answer) <> 401 <->
          provided req = Some (SHIM_API_KEY cfg)) /\
       (provided req <> Some (SHIM_API_KEY cfg) ->
          answer = (Raise rejection, tr))) /\
    (SHIM_API_KEY cfg = "" -> status_of (fst answer) <> 401).

(** The same configuration with the dry-run toggle set to [b]. *)
Definition set_dry_run (b : bool) (cfg : config) : config :=
  mkConfig (MODE cfg) (SHIM_API_KEY cfg) (OVERSEERR_URL cfg)
           (OVERSEERR_API_KEY cfg) (OVERSEERR_USER_ID cfg)
           (TMDB_API_KEY cfg) (DEFAULT_TV_SEASONS cfg) b.

(** Overseerr's address and credential are both set. *)
Definition overseerr_configured (cfg : config) : Prop :=
  OVERSEERR_URL cfg <> "" /\ OVERSEERR_API_KEY cfg <> "".

(** The answer of the forwarder in dry-run mode. *)
Definition dry_run_echo (payload : dict) : json :=
  JDict [("dry_run", JBool true); ("would_request", JDict payload)].

(** The lookup reached TMDb and the answer is one the bridge can read: a
    2xx whose body is a dict in which [tv_results] is absent or falsy, or
    is a list whose first element is a dict with an [id] that [int()]
    accepts. *)
Definition readable_find_reply (py : builtins) (r : response) : bool :=
  is_success r &&
  match parsed r with
  | Some (JDict d) =>
      match get d "tv_results" with
      | JList (JDict first :: _) =>
          match find first "id" with
          | Some id =>
              match py_int py id with
              | Ret _ => true
              | Raise _ => false
              end
          | None => false
          end
      | v => negb (truthy v)
      end
  | _ => false
  end.

(** "A fatal error only on unexpected transport or protocol failures
    (non-2xx other than not-found, connection failure)": if the bridge
    raises, the lookup got no response, or a response that is not a
    not-found. *)
Definition fatal_only_on_unexpected (cfg : config) (py : builtins)
    (net : network) (tvdb_id : Z) (tr : trace) : Prop :=
  forall e tr',
    tmdb_from_tvdb cfg py net tvdb_id tr = (Raise e, tr') ->
    match net tr (find_call cfg tvdb_id) with
    | NoResponse _ => True
    | Reply r => status_code r <> 404
    end.

(** The wrapper keys of the two import routes, in order of precedence. *)
Definition movie_wrappers : list string :=
  ["movies"; "movie"; "importListMovies"].

Definition series_wrappers : list string :=
  ["series"; "shows"; "importListSeries"; "importListItems"].

Definition nonempty_list (v : json) : bool :=
  match v with
  | JList (_ :: _) => true
  | _ => false
  end.

(** The value of the first key of [ks] whose value in [d] passes [p]. *)
Fixpoint first_where (p : json -> bool) (d : dict) (ks : list string)
  : option json :=
  match ks with
  | [] => None
  | k :: ks' => if p (get d k) then Some (get d k) else first_where p d ks'
  end.

(** The payload normalizer in the specification's words, for a test [p]
    on wrapper values: a plain sequence is its elements; a mapping is the
    value of the first wrapper key that passes [p], a singleton of that
    value when it is not a sequence, and a singleton of the whole mapping
    when no wrapper key passes; anything else is a singleton.  The
    specification's test is [nonempty_list]. *)
Definition normalize_by (p : json -> bool) (wrappers : list string)
    (body : json) : list json :=
  match body with
  | JList l => l
  | JDict d =>
      match first_where p d wrappers with
      | Some (JList l) => l
      | Some v => [v]
      | None => [body]
      end
  | _ => [body]
  end.

(** The places an identifier is looked for in one item, in the order of
    the specification: the two direct spellings, then the same two under
    the media-type key when that holds a mapping. *)
Definition candidates (camel snake nested : string) (it : json)
  : list json :=
  match it with
  | JDict d =>
      [get d camel; get d snake] ++
      match get d nested with
      | JDict m => [get m camel; get m snake]
      | _ => []
      end
  | _ => []
  end.

(** "The first non-null match wins"; [None] when nothing matches. *)
Definition first_non_null (l : list json) : json :=
  match List.find (fun v => negb (is_none v)) l with
  | Some v => v
  | None => JNull
  end.

Definition extract_spec (camel snake nested : string) (it : json) : json :=
  first_non_null (candidates camel snake nested it).

(** Every identifier value the item supplies is truthy: none is [0],
    [false], an empty string, list or mapping. *)
Definition supplied_ids_truthy (camel snake nested : string) (it : json)
  : bool :=
  forallb (fun v => is_none v || truthy v) (candidates camel snake nested it).

(** [int()] accepts the identifier found in the item, when one is found. *)
Definition convertible (py : builtins) (id : json) : Prop :=
  truthy id = true -> exists n, py_int py id = Ret n.

(** The bridge never raises in this world. *)
Definition bridge_never_raises (cfg : config) (py : builtins)
    (net : network) : Prop :=
  forall tvdb_id tr e, fst (tmdb_from_tvdb cfg py net tvdb_id tr) <> Raise e.

(** "Echo back the submitted body merged with a freshly generated
    numeric id derived from the current time": the answer to a create
    call is a mapping that holds the clock's reading under [id] and every
    other entry of the submitted body. *)
Definition echoes_with_time_id (cfg : config) (py : builtins)
    (net : network) (clk : clock) (e : endpoint) (req : request) : Prop :=
  forall d tr,
    body req = Some (JDict d) ->
    exists out,
      fst (handle cfg py net clk e req tr) = Ret (JDict out) /\
      find out "id" = Some (JInt (time_s clk)) /\
      forall k v, k <> "id" -> find d k = Some v -> find out k = Some v.

(** The routes that belong to one impersonation mode only. *)
Definition movie_routes : list endpoint :=
  [MovieImport; ListMovies; MovieLookup; AddMovie].

Definition series_routes : list endpoint :=
  [SeriesImport; ListSeries; SeriesLookup; AddSeries].

(** The route is invoked while the shim runs in the other mode. *)
Definition in_other_mode (cfg : config) (e : endpoint) : Prop :=
  (In e movie_routes /\ MODE cfg <> "radarr") \/
  (In e series_routes /\ MODE cfg <> "sonarr").



(** The identifier a single-item add reads from its body. *)
Definition add_id (camel snake : string) (d : dict) : json :=
  py_or (get d camel) (get d snake).

(** ** Outbound calls of a computation *)

(** Whatever the trace it starts from, the computation only appends to it,
    and every call it appends satisfies [Q]. *)
Definition calls_only {A} (Q : call -> Prop) (m : M A) : Prop :=
  forall tr, exists ext, snd (m tr) = tr ++ ext /\ Forall Q ext.

(** As [calls_only], and at most [n] calls are appended. *)
Definition emits {A} (n : nat) (Q : call -> Prop) (m : M A) : Prop :=
  forall tr,
    exists ext,
      snd (m tr) = tr ++ ext /\ Forall Q ext /\ (List.length ext <= n)%nat.

Definition no_call (c : call) : Prop := False.

Definition is_get (c : call) : Prop :=
  match c with
  | Get _ _ => True
  | Post _ _ _ => False
  end.

Definition is_post (c : call) : Prop :=
  match c with
  | Get _ _ => False
  | Post _ _ _ => True
  end.

(** The four calls the program is written to make: the create-request
    POST to Overseerr with the canonical payload of a movie or a series,
    the TMDb find lookup, and the two TMDb details fetches. *)
Definition known_call (cfg : config) (c : call) : Prop :=
  (exists media_type n,
      (media_type = "movie" \/ media_type = "tv") /\
      c = overseerr_call cfg (request_payload cfg media_type n)) \/
  (exists id, c = find_call cfg id) \/
  (exists id, c = tv_details_call cfg id) \/
  (exists id, c = movie_details_call cfg id).

(** Overseerr cannot be reached: dry-run is on, or its address or its
    credential is unset. *)
Definition forwarding_off (cfg : config) : Prop :=
  DRY_RUN cfg = true \/ OVERSEERR_URL cfg = "" \/ OVERSEERR_API_KEY cfg = "".

(** The routes that are written without any outbound call. *)
Definition quiet_routes : list endpoint :=
  [Health; Status; RootFolders; RootFoldersAlias; QualityProfiles;
   QualityProfilesAlias; ListTags; CreateTag; GetExclusions; AddExclusion;
   GetImportListExclusions; AddImportListExclusion; ListMovies; ListSeries].

Definition any_call (c : call) : Prop := True.

(** The most outbound calls a route is written to make for a request: one
    per item of a movie import, two per item of a series import, one for a
    movie lookup or add, two for a series lookup or add, none elsewhere. *)
Definition call_budget (e : endpoint) (req : request) : nat :=
  match e with
  | MovieImport =>
      match body req with
      | Some b => List.length (movie_items b)
      | None => 0
      end
  | SeriesImport =>
      match body req with
      | Some b => 2 * List.length (series_items b)
      | None => 0
      end
  | MovieLookup | AddMovie => 1
  | SeriesLookup | AddSeries => 2
  | _ => 0
  end%nat.

(** The POSTs a live movie import makes: one per item that holds a truthy
    identifier, in the order of the items. *)
Definition movie_forwards (cfg : config) (py : builtins)
    (items : list json) : list call :=
  flat_map
    (fun it =>
       if truthy (movie_tmdb_id it) then
         match py_int py (movie_tmdb_id it) with
         | Ret n => [overseerr_call cfg (request_payload cfg "movie" n)]
         | Raise _ => []
         end
       else [])
    items.

(** The result [r] is the one an import loop can give for an item whose
    identifier it finds under [id]: the [missing] record holding the item
    when the identifier is falsy, and otherwise a dict with a boolean [ok]
    and [int()] of the identifier under [key]. *)
Definition result_for (py : builtins) (field key : string)
    (id : json -> json) (it r : json) : Prop :=
  if truthy (id it) then
    exists n d b,
      py_int py (id it) = Ret n /\ r = JDict d /\
      find d "ok" = Some (JBool b) /\ find d key = Some (JInt n)
  else r = missing field it.

(** The result of a movie import for one item when the forwarder
    succeeds. *)
Definition movie_imported (py : builtins) (it : json) : json :=
  if truthy (movie_tmdb_id it) then
    match py_int py (movie_tmdb_id it) with
    | Ret n => JDict [("ok", JBool true); ("tmdbId", JInt n)]
    | Raise _ => JNull
    end
  else missing "tmdbId" it.

(** The result of a series import for one item when the bridge gives no
    mapping. *)
Definition series_unbridged (py : builtins) (it : json) : json :=
  if truthy (series_tvdb_id it) then
    match py_int py (series_tvdb_id it) with
    | Ret n =>
        JDict [("ok", JBool false); ("tvdbId", JInt n);
               ("msg", JStr "tvdb->tmdb conversion failed")]
    | Raise _ => JNull
    end
  else missing "tvdbId" it.

(** The items of a batch that hold a truthy identifier. *)
Definition identified (id : json -> json) (items : list json) : list json :=
  filter (fun it => truthy (id it)) items.


(** TMDb's answer to a find lookup names [m] first: a 2xx whose body is a
    dict in which [tv_results] is a list headed by a dict whose [id]
    [int()] turns into [m]. *)
Definition find_reply_names (py : builtins) (r : response) (m : Z) : Prop :=
  is_success r = true /\
  exists d first rest id,
    parsed r = Some (JDict d) /\
    get d "tv_results" = JList (JDict first :: rest) /\
    find first "id" = Some id /\
    py_int py id = Ret m.


(** The record a movie lookup answers with, from the dict [d] of TMDb's
    details, for the searched id and the year read from the release
    date. *)
Definition movie_record (py : builtins) (d : dict) (tmdb_id year : Z)
  : json :=
  JDict [("title",
          py_or (py_or (get d "title") (get d "original_title"))
                (JStr "Unknown"));
         ("year", JInt year);
         ("tmdbId", JInt tmdb_id);
         ("titleSlug", JStr ("tmdb-" ++ str_of_Z tmdb_id)%string);
         ("images", images_of py (get d "poster_path"))].

(** The record a series lookup answers with, for the searched TVDB id. *)
Definition series_record (py : builtins) (d : dict) (tvdb_id year : Z)
  : json :=
  JDict [("title",
          py_or (py_or (get d "name") (get d "original_name"))
                (JStr "Unknown"));
         ("tvdbId", JInt tvdb_id);
         ("year", JInt year);
         ("titleSlug", JStr ("tvdb-" ++ str_of_Z tvdb_id)%string);
         ("images", images_of py (get d "poster_path"));
         ("seasonFolder", JBool true);
         ("seriesType", JStr "standard")].

(** The lookup [e] has accepted the request: the gate is open, the mode
    and the prefix of the term match, the TMDb credential is set and the
    term names the id [id]. *)
Definition lookup_accepts (cfg : config) (py : builtins) (req : request)
    (mode prefix : string) (id : Z) : Prop :=
  require_api_key cfg (x_api_key req) (apikey req) = ret tt /\
  MODE cfg = mode /\
  startswith (lower (term req)) prefix = true /\
  TMDB_API_KEY cfg <> "" /\
  term_id py (term req) = ret id.

(** The routes that read a body, with the mode each one needs. *)
Definition reads_body (cfg : config) (e : endpoint) : Prop :=
  In e [CreateTag; AddExclusion; AddImportListExclusion] \/
  (In e [MovieImport; AddMovie] /\ MODE cfg = "radarr") \/
  (In e [SeriesImport; AddSeries] /\ MODE cfg = "sonarr").

(** The routes that call [body.get] on the body as it comes. *)
Definition needs_dict (cfg : config) (e : endpoint) : Prop :=
  e = CreateTag \/
  (e = AddMovie /\ MODE cfg = "radarr") \/
  (e = AddSeries /\ MODE cfg = "sonarr").

(** ** Sample surroundings for the concrete runs *)

Module Sample.

Definition digit_of (c : ascii) : option Z :=
  let n := N_of_ascii c in
  if ((48 <=? n) && (n <=? 57))%N then Some (Z.of_N n - 48) else None.

Fixpoint digits (s : string) (acc : Z) : option Z :=
  match s with
  | EmptyString => Some acc
  | String c s' =>
      match digit_of c with
      | Some d => digits s' (10 * acc + d)
      | None => None
      end
  end.

(** [int(s)] on plain decimal numerals: an optional minus sign and ASCII
    digits. *)
Definition int_of_decimal (s : string) : option Z :=
  match s with
  | EmptyString => None
  | String "-" EmptyString => None
  | String "-" s' => option_map Z.opp (digits s' 0)
  | _ => digits s 0
  end.

Definition exn_text (e : exn) : string :=
  match e with
  | HTTPException s d => (str_of_Z s ++ ": " ++ d)%string
  | HTTPStatusError s => ("status " ++ str_of_Z s)%string
  | TransportError m => m
  | JSONDecodeError => "JSONDecodeError"
  | ValueError => "ValueError"
  | TypeError => "TypeError"
  | KeyError => "KeyError"
  | IndexError => "IndexError"
  | AttributeError => "AttributeError"
  end.

Definition json_text (v : json) : string :=
  match v with
  | JStr s => s
  | JInt z => str_of_Z z
  | _ => ""
  end.

Definition py : builtins := mkBuiltins int_of_decimal exn_text json_text.

Definition clk : clock := mkClock 1700000000 "2023-11-14T22:13:20Z".

(** A Radarr-mode shim with a shared secret and a live Overseerr. *)
Definition radarr : config :=
  mkConfig "radarr" "s3cret" "http://overseerr:5055" "ovkey" 1 "tmdbkey"
           "all" false.

(** The same shim in Sonarr mode. *)
Definition sonarr : config :=
  mkConfig "sonarr" "s3cret" "http://overseerr:5055" "ovkey" 1 "tmdbkey"
           "all" false.

(** The Sonarr-mode shim in dry-run mode, without a shared secret. *)
Definition sonarr_dry : config :=
  mkConfig "sonarr" "" "http://overseerr:5055" "ovkey" 7 "tmdbkey"
           "first" true.

(** The Radarr-mode shim in dry-run mode, without a shared secret. *)
Definition radarr_dry : config :=
  mkConfig "radarr" "" "http://overseerr:5055" "ovkey" 7 "tmdbkey"
           "all" true.

(** The Radarr-mode shim without a shared secret, Overseerr live. *)
Definition radarr_open : config :=
  mkConfig "radarr" "" "http://overseerr:5055" "ovkey" 1 "tmdbkey"
           "all" false.

(** The Sonarr-mode shim without a shared secret, Overseerr live. *)
Definition sonarr_open : config :=
  mkConfig "sonarr" "" "http://overseerr:5055" "ovkey" 1 "tmdbkey"
           "all" false.

(** A world in which every service answers [status] with body [v]. *)
Definition always (status : Z) (txt : string) (v : option json) : network :=
  fun _ _ => Reply (mkResponse status txt v).

(** A world in which nothing answers. *)
Definition down : network := fun _ _ => NoResponse "connection refused".

(** TMDb maps every TVDB id to TMDb id 1396; Overseerr accepts every
    request with an empty body. *)
Definition healthy : network :=
  fun _ c =>
    match c with
    | Get _ _ =>
        Reply (mkResponse 200 "{...}"
                 (Some (JDict [("tv_results",
                                JList [JDict [("id", JInt 1396)]])])))
    | Post _ _ _ => Reply (mkResponse 201 "" None)
    end.

(** TMDb answers every call with a server error; Overseerr is fine. *)
Definition tmdb_broken : network :=
  fun _ c =>
    match c with
    | Get _ _ => Reply (mkResponse 500 "Internal Server Error" None)
    | Post _ _ _ => Reply (mkResponse 201 "" None)
    end.

Definition req_body (v : json) : request := mkRequest None None "" (Some v).

Definition req_key (h q : option string) : request :=
  mkRequest h q "" (Some (JDict [])).

End Sample.

(** * Properties *)

Example str_of_Z_603 : str_of_Z 603 = "603".
Proof. reflexivity. Qed.

Example str_of_Z_neg : str_of_Z (-5) = "-5".
Proof. reflexivity. Qed.

Example str_of_Z_0 : str_of_Z 0 = "0".
Proof. reflexivity. Qed.

(** ** What a computation can raise: composition *)

Section RaisesOnly.

Context {A B : Type} (P : exn -> Prop).

Lemma ro_ret (a : A) : raises_only P (ret a).
Proof. intros tr e tr' H. discriminate H. Qed.

Lemma ro_raise (e : exn) : P e -> raises_only P (@raise A e).
Proof. intros He tr e' tr' H. injection H as <- _. exact He. Qed.

Lemma ro_lift (r : res A) :
  (forall e, r = Raise e -> P e) -> raises_only P (lift r).
Proof. intros Hr tr e tr' H. injection H as -> _. now apply Hr. Qed.

Lemma ro_bind (m : M A) (k : A -> M B) :
  raises_only P m -> (forall a, raises_only P (k a)) ->
  raises_only P (bind m k).
Proof.
  intros Hm Hk tr e tr'. unfold bind.
  destruct (m tr) as [[a | e0] tr0] eqn:E; intros H.
  - exact (Hk a _ _ _ H).
  - injection H as <- _. exact (Hm _ _ _ E).
Qed.

Lemma ro_try (m : M A) (h : exn -> M A) :
  (forall e, raises_only P (h e)) -> raises_only P (try_except m h).
Proof.
  intros Hh tr e tr'. unfold try_except.
  destruct (m tr) as [[a | e0] tr0]; intros H.
  - discriminate H.
  - exact (Hh e0 _ _ _ H).
Qed.

End RaisesOnly.

Lemma ro_weaken {A} (P Q : exn -> Prop) (m : M A) :
  (forall e, P e -> Q e) -> raises_only P m -> raises_only Q m.
Proof. intros HPQ Hm tr e tr' H. apply HPQ. exact (Hm _ _ _ H). Qed.

Lemma ro_send (net : network) (c : call) : raises_only plain (send net c).
Proof.
  intros tr e tr'. unfold send. destruct (net tr c); intros H.
  - injection H as <- _. exact I.
  - discriminate H.
Qed.

Lemma ro_raise_for_status (r : response) :
  raises_only plain (raise_for_status r).
Proof.
  unfold raise_for_status. destruct (is_success r).
  - apply ro_ret.
  - apply ro_raise. exact I.
Qed.

Lemma ro_json_of (r : response) : raises_only plain (json_of r).
Proof.
  unfold json_of. destruct (parsed r).
  - apply ro_ret.
  - apply ro_raise. exact I.
Qed.

Lemma py_int_plain py v e : py_int py v = Raise e -> plain e.
Proof.
  destruct v; simpl; try (intros H; injection H as <-; exact I);
    try discriminate.
  destruct (int_of_str py s); [discriminate |].
  intros H; injection H as <-; exact I.
Qed.

Lemma as_dict_plain v e : as_dict v = Raise e -> plain e.
Proof.
  destruct v; simpl; try discriminate; intros H; injection H as <-; exact I.
Qed.

Lemma as_mapping_plain v e : as_mapping v = Raise e -> plain e.
Proof.
  destruct v; simpl; try discriminate; intros H; injection H as <-; exact I.
Qed.

Lemma as_str_plain v e : as_str v = Raise e -> plain e.
Proof.
  destruct v; simpl; try discriminate; intros H; injection H as <-; exact I.
Qed.

Lemma index0_plain v e : index0 v = Raise e -> plain e.
Proof.
  destruct v as [| | | | s | l | d]; simpl;
    try (intros H; injection H as <-; exact I).
  - destruct s; [intros H; injection H as <-; exact I | discriminate].
  - destruct l; [intros H; injection H as <-; exact I | discriminate].
Qed.

Lemma subscript_plain v k e : subscript v k = Raise e -> plain e.
Proof.
  destruct v; simpl; try (intros H; injection H as <-; exact I).
  destruct (find d k); [discriminate |].
  intros H; injection H as <-; exact I.
Qed.

Lemma ro_request_json req : raises_only plain (request_json req).
Proof.
  unfold request_json. destruct (body req).
  - apply ro_ret.
  - apply ro_raise. exact I.
Qed.

Create HintDb plain.

#[local] Hint Resolve py_int_plain as_dict_plain as_mapping_plain as_str_plain
  index0_plain subscript_plain : plain.

(** One step of the syntax-directed proof that a computation raises only
    what [P] allows, for a [P] that every plain exception satisfies. *)
Ltac ro_step HP :=
  match goal with
  | |- raises_only _ (bind _ _) => apply ro_bind; [| intro]
  | |- raises_only _ (ret _) => apply ro_ret
  | |- raises_only _ (try_except _ _) => apply ro_try; intro
  | |- raises_only _ (send _ _) =>
      apply (ro_weaken plain); [exact HP | apply ro_send]
  | |- raises_only _ (raise_for_status _) =>
      apply (ro_weaken plain); [exact HP | apply ro_raise_for_status]
  | |- raises_only _ (json_of _) =>
      apply (ro_weaken plain); [exact HP | apply ro_json_of]
  | |- raises_only _ (request_json _) =>
      apply (ro_weaken plain); [exact HP | apply ro_request_json]
  | |- raises_only _ (lift _) =>
      apply ro_lift; intros ? ?; apply HP; eauto with plain
  | |- raises_only _ (raise _) => apply ro_raise
  | |- raises_only _ (if ?b then _ else _) => destruct b
  | |- raises_only _ (match ?x with _ => _ end) => destruct x
  end.

(** ** The authorization gate *)

Section Gate.

Context (cfg : config) (py : builtins) (net : network) (clk : clock).

Lemma differs_false (p : option string) (secret : string) :
  differs p secret = false <-> p = Some secret.
Proof.
  destruct p as [s |]; simpl.
  - rewrite negb_false_iff, String.eqb_eq. split; congruence.
  - split; discriminate.
Qed.

Lemma differs_true (p : option string) (secret : string) :
  differs p secret = true <-> p <> Some secret.
Proof.
  rewrite <- differs_false. destruct (differs p secret); split; congruence.
Qed.

Lemma gate_open (h q : option string) :
  SHIM_API_KEY cfg = "" \/ or_str h q = Some (SHIM_API_KEY cfg) ->
  require_api_key cfg h q = ret tt.
Proof.
  intros [H | H]; unfold require_api_key.
  - rewrite H. reflexivity.
  - apply differs_false in H. rewrite H, andb_false_r. reflexivity.
Qed.

Lemma gate_shut (h q : option string) :
  SHIM_API_KEY cfg <> "" -> or_str h q <> Some (SHIM_API_KEY cfg) ->
  require_api_key cfg h q = raise rejection.
Proof.
  intros Hs Hp. unfold require_api_key.
  apply String.eqb_neq in Hs. apply differs_true in Hp.
  rewrite Hs, Hp. reflexivity.
Qed.

(** A route behind the gate does nothing when the gate raises. *)
Lemma handle_rejected (e : endpoint) (req : request) (tr : trace) :
  e <> Health ->
  require_api_key cfg (x_api_key req) (apikey req) = raise rejection ->
  handle cfg py net clk e req tr = (Raise rejection, tr).
Proof.
  intros He Hg.
  destruct e; try congruence; simpl;
    unfold status, rootfolders_alias, rootfolders, qualityprofiles_alias,
      qualityprofiles, list_tags, create_tag, get_exclusions, add_exclusion,
      movie_import, list_series, series_lookup, series_import,
      get_import_list_exclusions, add_import_list_exclusion, list_movies,
      movie_lookup, add_movie, add_series, bind;
    rewrite Hg; reflexivity.
Qed.

Lemma plain_past_gate (e : exn) : plain e -> past_gate e.
Proof. destruct e; simpl; try tauto; intros _; unfold past_gate; simpl; tauto. Qed.

Lemma ro_tmdb_from_tvdb (tvdb_id : Z) :
  raises_only plain (tmdb_from_tvdb cfg py net tvdb_id).
Proof.
  unfold tmdb_from_tvdb.
  repeat ro_step (fun e (H : plain e) => H).
Qed.

Lemma ro_overseerr_request (media_type : string) (tmdb_id : Z) :
  raises_only past_gate (overseerr_request cfg net media_type tmdb_id).
Proof.
  unfold overseerr_request.
  repeat ro_step plain_past_gate; unfold past_gate; simpl; tauto.
Qed.

Lemma ro_movie_import_loop (items results : list json) :
  raises_only plain (movie_import_loop cfg py net items results).
Proof.
  revert results. induction items as [| it rest IH]; intros results; simpl.
  - apply ro_ret.
  - apply ro_bind; [| intro; apply IH].
    unfold movie_import_item.
    repeat ro_step (fun e (H : plain e) => H).
Qed.

Lemma ro_series_import_loop (items results : list json) :
  raises_only plain (series_import_loop cfg py net items results).
Proof.
  revert results. induction items as [| it rest IH]; intros results; simpl.
  - apply ro_ret.
  - apply ro_bind; [| intro; apply IH].
    unfold series_import_item.
    repeat first
      [ apply (ro_weaken plain _ _ (fun e H => H) (ro_tmdb_from_tvdb _))
      | ro_step (fun e (H : plain e) => H) ].
Qed.

Lemma ro_term_id (t : string) : raises_only plain (term_id py t).
Proof. unfold term_id. repeat ro_step (fun e (H : plain e) => H); exact I. Qed.

Lemma ro_year_of (d : json) : raises_only plain (year_of py d).
Proof. unfold year_of. repeat ro_step (fun e (H : plain e) => H); exact I. Qed.

Lemma handle_past_gate (e : endpoint) (req : request) :
  require_api_key cfg (x_api_key req) (apikey req) = ret tt ->
  raises_only past_gate (handle cfg py net clk e req).
Proof.
  intros Hg.
  destruct e; simpl;
    unfold health, status, rootfolders_alias, rootfolders,
      qualityprofiles_alias, qualityprofiles, list_tags, create_tag,
      get_exclusions, add_exclusion, movie_import, list_series,
      series_lookup, series_import, get_import_list_exclusions,
      add_import_list_exclusion, list_movies, movie_lookup, add_movie,
      add_series;
    try rewrite Hg;
    repeat first
      [ apply ro_overseerr_request
      | apply (ro_weaken plain _ _ plain_past_gate (ro_tmdb_from_tvdb _))
      | apply (ro_weaken plain _ _ plain_past_gate
                 (ro_movie_import_loop _ _))
      | apply (ro_weaken plain _ _ plain_past_gate
                 (ro_series_import_loop _ _))
      | apply (ro_weaken plain _ _ plain_past_gate (ro_term_id _))
      | apply (ro_weaken plain _ _ plain_past_gate (ro_year_of _))
      | ro_step plain_past_gate ];
    unfold past_gate; simpl; tauto.
Qed.

End Gate.

(** ** The gate, route by route *)

Lemma status_of_raise {A} (e : exn) : status_of (@Raise A e) = exn_status e.
Proof. destruct e; reflexivity. Qed.

Lemma past_gate_not_401 (e : exn) : past_gate e -> exn_status e <> 401.
Proof. unfold past_gate; simpl. intros H. lia. Qed.

(** Once the gate has let a request through, the answer is not a 401. *)
Lemma accepted_not_401 (cfg : config) (py : builtins) (net : network)
    (clk : clock) (e : endpoint) (req : request) (tr : trace) :
  require_api_key cfg (x_api_key req) (apikey req) = ret tt ->
  status_of (fst (handle cfg py net clk e req tr)) <> 401.
Proof.
  intros Hg.
  destruct (handle cfg py net clk e req tr) as [[v | ex] tr'] eqn:E; simpl.
  - discriminate.
  - change (status_of (@Raise json ex) <> 401). rewrite status_of_raise.
    apply past_gate_not_401.
    exact (handle_past_gate cfg py net clk e req Hg _ _ _ E).
Qed.

(** C7 (as amended): every route other than [/health] applies the gate.
    With a non-empty secret configured, the request is let through exactly
    when the supplied key (the header if it is a non-empty string, the
    query parameter otherwise) equals the secret, and is otherwise
    answered 401 before anything else happens; with no secret configured
    no request is answered 401. *)
Theorem gate_on_every_api_route (cfg : config) (py : builtins)
    (net : network) (clk : clock) (e : endpoint) (req : request) :
  e <> Health -> gate_applies cfg py net clk e req.
Proof.
  intros He tr. cbv zeta. split.
  - intros Hs. split.
    + split.
      * intros Hst.
        destruct (differs (provided req) (SHIM_API_KEY cfg)) eqn:D.
        -- apply differs_true in D.
           rewrite (handle_rejected cfg py net clk e req tr He
                      (gate_shut cfg _ _ Hs D)) in Hst.
           now elim Hst.
        -- now apply differs_false in D.
      * intros Hp. apply accepted_not_401.
        apply gate_open. now right.
    + intros Hp.
      exact (handle_rejected cfg py net clk e req tr He
               (gate_shut cfg _ _ Hs Hp)).
  - intros Hs. apply accepted_not_401. apply gate_open. now left.
Qed.

Lemma gate_on_every_api_route_witness :
  gate_applies Sample.radarr Sample.py Sample.healthy Sample.clk Status
    (Sample.req_key None (Some "s3cret")).
Proof.
  apply (gate_on_every_api_route Sample.radarr Sample.py Sample.healthy
           Sample.clk Status).
  discriminate.
Defined.

(** C7 (as stated) fails on [/health]: the route takes no key and answers
    200 whatever secret is configured. *)
Lemma health_is_not_gated :
  ~ gate_applies Sample.radarr Sample.py Sample.healthy Sample.clk Health
      (Sample.req_key None None).
Proof.
  intros H. destruct (H []) as [H1 _].
  destruct H1 as [[Hacc _] _]; [discriminate |].
  assert (Hp : provided (Sample.req_key None None) = Some "s3cret").
  { apply Hacc. simpl. discriminate. }
  discriminate Hp.
Qed.

(** C10: with a secret configured, a non-empty header is the only value
    the gate compares.  A non-empty header that differs from the secret is
    answered 401 whatever the query parameter carries, the secret itself
    included, by the gate and by every route behind it; a non-empty header
    is let through exactly when it equals the secret, whatever the query
    parameter carries, a wrong key included, and then no route answers
    401; an absent or empty header leaves the decision to the query
    parameter. *)
Theorem header_precedes_query (cfg : config) (py : builtins)
    (net : network) (clk : clock) :
  SHIM_API_KEY cfg <> "" ->
  (forall h q tr, h <> "" -> h <> SHIM_API_KEY cfg ->
     require_api_key cfg (Some h) q tr = (Raise rejection, tr)) /\
  (forall e req h tr,
     e <> Health ->
     x_api_key req = Some h -> h <> "" -> h <> SHIM_API_KEY cfg ->
     apikey req = Some (SHIM_API_KEY cfg) ->
     handle cfg py net clk e req tr = (Raise rejection, tr)) /\
  (forall q, require_api_key cfg (Some "") q = require_api_key cfg None q) /\
  (forall q tr,
     require_api_key cfg None q tr = (Ret tt, tr) <->
     q = Some (SHIM_API_KEY cfg)) /\
  (forall h q tr, h <> "" ->
     (require_api_key cfg (Some h) q tr = (Ret tt, tr) <->
      h = SHIM_API_KEY cfg)) /\
  (forall q tr,
     require_api_key cfg (Some (SHIM_API_KEY cfg)) q tr = (Ret tt, tr)) /\
  (forall e req tr,
     x_api_key req = Some (SHIM_API_KEY cfg) ->
     status_of (fst (handle cfg py net clk e req tr)) <> 401).
Proof.
  intros Hs.
  assert (Hhdr : forall h q, h <> "" -> h <> SHIM_API_KEY cfg ->
                   require_api_key cfg (Some h) q = raise rejection).
  { intros h q Hne Hw. apply gate_shut; [exact Hs |].
    simpl. apply String.eqb_neq in Hne. rewrite Hne. congruence. }
  assert (Hacc : forall q,
                   require_api_key cfg (Some (SHIM_API_KEY cfg)) q = ret tt).
  { intros q. apply gate_open. right. simpl.
    apply String.eqb_neq in Hs. now rewrite Hs. }
  split; [| split; [| split; [| split; [| split; [| split]]]]].
  - intros h q tr Hne Hw. now rewrite Hhdr.
  - intros e req h tr He Hx Hne Hw _.
    apply handle_rejected; [exact He |]. rewrite Hx. now apply Hhdr.
  - reflexivity.
  - intros q tr. split.
    + intros Hr.
      destruct (differs q (SHIM_API_KEY cfg)) eqn:D.
      * apply differs_true in D.
        rewrite (gate_shut cfg None q Hs D) in Hr. discriminate Hr.
      * now apply differs_false in D.
    + intros ->. rewrite gate_open; [reflexivity | now right].
  - intros h q tr Hne. split.
    + intros Hr.
      destruct (String.eqb_spec h (SHIM_API_KEY cfg)) as [E | Hw];
        [exact E |].
      rewrite (Hhdr h q Hne Hw) in Hr. discriminate Hr.
    + intros ->. now rewrite Hacc.
  - intros q tr. now rewrite Hacc.
  - intros e req tr Hx. apply accepted_not_401. rewrite Hx. apply Hacc.
Qed.

Lemma header_precedes_query_witness :
  handle Sample.radarr Sample.py Sample.healthy Sample.clk AddMovie
    (mkRequest (Some "wrong") (Some "s3cret") ""
       (Some (JDict [("tmdbId", JInt 603)]))) []
  = (Raise rejection, []) /\
  require_api_key Sample.radarr (Some "s3cret") (Some "wrong") []
  = (Ret tt, []).
Proof.
  split.
  - refine (proj1 (proj2 (header_precedes_query Sample.radarr Sample.py
                            Sample.healthy Sample.clk _))
              AddMovie
              (mkRequest (Some "wrong") (Some "s3cret") ""
                 (Some (JDict [("tmdbId", JInt 603)])))
              "wrong" [] _ eq_refl _ _ eq_refl);
      discriminate.
  - refine (proj1 (proj2 (proj2 (proj2 (proj2 (proj2
              (header_precedes_query Sample.radarr Sample.py
                 Sample.healthy Sample.clk _))))))
              (Some "wrong") []).
    discriminate.
Defined.

(** ** The request forwarder *)

Section Forwarder.

Context (cfg : config) (net : network).

Lemma configured_test :
  overseerr_configured cfg ->
  (OVERSEERR_URL cfg =? "")%string || (OVERSEERR_API_KEY cfg =? "")%string
  = false.
Proof.
  intros [Hu Hk]. apply String.eqb_neq in Hu, Hk. now rewrite Hu, Hk.
Qed.


(** Live, the forwarder sends the payload in one POST whatever the answer
    turns out to be. *)
Lemma forwarder_sends (media_type : string) (tmdb_id : Z) (tr : trace) :
  overseerr_configured cfg -> DRY_RUN cfg = false ->
  snd (overseerr_request cfg net media_type tmdb_id tr)
  = tr ++ [overseerr_call cfg (request_payload cfg media_type tmdb_id)].
Proof.
  intros Hc Hd. unfold overseerr_request, bind, send.
  rewrite (configured_test Hc), Hd.
  destruct (net tr _) as [msg | r]; [reflexivity |].
  destruct ((200 <=? status_code r) && (status_code r <? 300));
    [| reflexivity].
  destruct (text r =? "")%string; [reflexivity |].
  unfold json_of. destruct (parsed r); reflexivity.
Qed.

(** A 2xx answer is the result, a synthetic [{"ok": true}] when its text
    is empty. *)
Lemma forwarder_success (media_type : string) (tmdb_id : Z) (tr : trace)
    (r : response) :
  overseerr_configured cfg -> DRY_RUN cfg = false ->
  net tr (overseerr_call cfg (request_payload cfg media_type tmdb_id))
  = Reply r ->
  200 <= status_code r < 300 ->
  fst (overseerr_request cfg net media_type tmdb_id tr)
  = if (text r =? "")%string then Ret (JDict [("ok", JBool true)])
    else match parsed r with
         | Some v => Ret v
         | None => Raise JSONDecodeError
         end.
Proof.
  intros Hc Hd Hn Hs. unfold overseerr_request, bind, send.
  rewrite (configured_test Hc), Hd, Hn.
  replace ((200 <=? status_code r) && (status_code r <? 300)) with true
    by (symmetry; apply andb_true_iff; split;
        [apply Z.leb_le | apply Z.ltb_lt]; lia).
  destruct (text r =? "")%string; [reflexivity |].
  unfold json_of. destruct (parsed r); reflexivity.
Qed.

(** Any other answer is a 502 carrying the status and the raw text. *)
Lemma forwarder_bad_gateway (media_type : string) (tmdb_id : Z)
    (tr : trace) (r : response) :
  overseerr_configured cfg -> DRY_RUN cfg = false ->
  net tr (overseerr_call cfg (request_payload cfg media_type tmdb_id))
  = Reply r ->
  ~ 200 <= status_code r < 300 ->
  fst (overseerr_request cfg net media_type tmdb_id tr)
  = Raise (HTTPException 502
             ("Overseerr error " ++ str_of_Z (status_code r)
                ++ ": " ++ text r)%string).
Proof.
  intros Hc Hd Hn Hs. unfold overseerr_request, bind, send.
  rewrite (configured_test Hc), Hd, Hn.
  replace ((200 <=? status_code r) && (status_code r <? 300)) with false;
    [reflexivity |].
  symmetry. apply andb_false_iff.
  destruct (Z.leb_spec 200 (status_code r)); [right | now left].
  apply Z.ltb_ge. lia.
Qed.

End Forwarder.

(** C5: the body of a forwarded series request carries [seasons: "all"]
    when the season policy is ["all"], [seasons: [1]] when it is
    ["first"], and no [seasons] field under any other policy; the body of
    a request of any other kind, a movie request in particular, never
    carries the field; and that body is what the live forwarder posts. *)
Theorem season_directive (cfg : config) (net : network) (tmdb_id : Z)
    (tr : trace) :
  (DEFAULT_TV_SEASONS cfg = "all" ->
     request_payload cfg "tv" tmdb_id
     = [("mediaType", JStr "tv"); ("mediaId", JInt tmdb_id);
        ("userId", JInt (OVERSEERR_USER_ID cfg));
        ("seasons", JStr "all")]) /\
  (DEFAULT_TV_SEASONS cfg = "first" ->
     request_payload cfg "tv" tmdb_id
     = [("mediaType", JStr "tv"); ("mediaId", JInt tmdb_id);
        ("userId", JInt (OVERSEERR_USER_ID cfg));
        ("seasons", JList [JInt 1])]) /\
  (DEFAULT_TV_SEASONS cfg <> "all" -> DEFAULT_TV_SEASONS cfg <> "first" ->
     find (request_payload cfg "tv" tmdb_id) "seasons" = None) /\
  (forall media_type, media_type <> "tv" ->
     find (request_payload cfg media_type tmdb_id) "seasons" = None) /\
  (forall media_type,
     overseerr_configured cfg -> DRY_RUN cfg = false ->
     snd (overseerr_request cfg net media_type tmdb_id tr)
     = tr ++ [overseerr_call cfg (request_payload cfg media_type tmdb_id)]).
Proof.
  repeat split.
  - intros H. unfold request_payload. rewrite H. reflexivity.
  - intros H. unfold request_payload. rewrite H. reflexivity.
  - intros Ha Hf. unfold request_payload.
    apply String.eqb_neq in Ha, Hf. rewrite Ha, Hf. reflexivity.
  - intros media_type H. unfold request_payload.
    apply String.eqb_neq in H. rewrite H. reflexivity.
  - intros media_type Hc Hd. now apply forwarder_sends.
Qed.

Lemma season_directive_witness :
  find (request_payload Sample.sonarr_dry "tv" 1396) "seasons"
  = Some (JList [JInt 1]) /\
  find (request_payload Sample.sonarr "movie" 603) "seasons" = None /\
  snd (overseerr_request Sample.sonarr Sample.healthy "tv" 1396 [])
  = [overseerr_call Sample.sonarr
       [("mediaType", JStr "tv"); ("mediaId", JInt 1396);
        ("userId", JInt 1); ("seasons", JStr "all")]].
Proof.
  split; [| split].
  - rewrite (proj1 (proj2 (season_directive Sample.sonarr_dry Sample.healthy
                             1396 [])) eq_refl).
    reflexivity.
  - apply (proj1 (proj2 (proj2 (proj2
             (season_directive Sample.sonarr Sample.healthy 603 []))))).
    discriminate.
  - rewrite (proj2 (proj2 (proj2 (proj2
               (season_directive Sample.sonarr Sample.healthy 1396 []))))
               "tv").
    + rewrite (proj1 (season_directive Sample.sonarr Sample.healthy 1396 [])
                 eq_refl).
      reflexivity.
    + split; discriminate.
    + reflexivity.
Defined.

(** C6: with dry-run enabled and Overseerr configured, the forwarder
    leaves the trace of outbound calls untouched, whatever the network
    would have answered, and returns the dry-run echo of the payload; that
    payload is the body the same configuration posts once dry-run is
    switched off; and for a movie request with id 603 it holds the media
    type, the id and the configured user id. *)
Theorem dry_run_makes_no_call (cfg : config) (net : network)
    (media_type : string) (tmdb_id : Z) (tr : trace) :
  overseerr_configured cfg -> DRY_RUN cfg = true ->
  overseerr_request cfg net media_type tmdb_id tr
  = (Ret (dry_run_echo (request_payload cfg media_type tmdb_id)), tr) /\
  snd (overseerr_request (set_dry_run false cfg) net media_type tmdb_id tr)
  = tr ++ [overseerr_call cfg (request_payload cfg media_type tmdb_id)] /\
  request_payload cfg "movie" 603
  = [("mediaType", JStr "movie"); ("mediaId", JInt 603);
     ("userId", JInt (OVERSEERR_USER_ID cfg))].
Proof.
  intros Hc Hd. split; [| split].
  - unfold overseerr_request. rewrite (configured_test cfg Hc), Hd.
    reflexivity.
  - rewrite forwarder_sends; [reflexivity | exact Hc | reflexivity].
  - reflexivity.
Qed.

Lemma dry_run_makes_no_call_witness :
  overseerr_request Sample.radarr_dry Sample.down "movie" 603 []
  = (Ret (JDict [("dry_run", JBool true);
                 ("would_request",
                  JDict [("mediaType", JStr "movie"); ("mediaId", JInt 603);
                         ("userId", JInt 7)])]), []).
Proof.
  refine (proj1 (dry_run_makes_no_call Sample.radarr_dry Sample.down
                   "movie" 603 [] _ eq_refl)).
  split; discriminate.
Defined.

(** ** The identifier bridge *)

Section Bridge.

Context (cfg : config) (py : builtins) (net : network).

Lemma bridge_unconfigured (tvdb_id : Z) (tr : trace) :
  TMDB_API_KEY cfg = "" ->
  tmdb_from_tvdb cfg py net tvdb_id tr = (Ret None, tr).
Proof. intros H. unfold tmdb_from_tvdb. rewrite H. reflexivity. Qed.

(** Configured, the bridge makes its one lookup whatever comes of it. *)
Lemma bridge_one_lookup (tvdb_id : Z) (tr : trace) :
  TMDB_API_KEY cfg <> "" ->
  snd (tmdb_from_tvdb cfg py net tvdb_id tr) = tr ++ [find_call cfg tvdb_id].
Proof.
  intros H. apply String.eqb_neq in H.
  unfold tmdb_from_tvdb, bind, send, raise_for_status, json_of, lift.
  rewrite H.
  destruct (net tr _) as [msg | r]; [reflexivity |].
  destruct (is_success r); [| reflexivity]. simpl.
  destruct (parsed r) as [data |]; [| reflexivity]. simpl.
  destruct (as_dict data) as [d | e]; [| reflexivity].
  destruct (negb _); [reflexivity |].
  destruct (index0 _) as [first | e]; [| reflexivity].
  destruct (subscript first "id") as [id | e]; [| reflexivity].
  destruct (py_int py id); reflexivity.
Qed.

Lemma bridge_no_response (tvdb_id : Z) (tr : trace) (msg : string) :
  TMDB_API_KEY cfg <> "" ->
  net tr (find_call cfg tvdb_id) = NoResponse msg ->
  fst (tmdb_from_tvdb cfg py net tvdb_id tr) = Raise (TransportError msg).
Proof.
  intros H Hn. apply String.eqb_neq in H.
  unfold tmdb_from_tvdb, bind, send. rewrite H, Hn. reflexivity.
Qed.

Lemma bridge_bad_status (tvdb_id : Z) (tr : trace) (r : response) :
  TMDB_API_KEY cfg <> "" ->
  net tr (find_call cfg tvdb_id) = Reply r ->
  is_success r = false ->
  fst (tmdb_from_tvdb cfg py net tvdb_id tr)
  = Raise (HTTPStatusError (status_code r)).
Proof.
  intros H Hn Hs. apply String.eqb_neq in H.
  unfold tmdb_from_tvdb, bind, send, raise_for_status.
  rewrite H, Hn, Hs. reflexivity.
Qed.

Lemma bridge_no_match (tvdb_id : Z) (tr : trace) (r : response) (d : dict) :
  TMDB_API_KEY cfg <> "" ->
  net tr (find_call cfg tvdb_id) = Reply r ->
  is_success r = true ->
  parsed r = Some (JDict d) ->
  truthy (get d "tv_results") = false ->
  fst (tmdb_from_tvdb cfg py net tvdb_id tr) = Ret None.
Proof.
  intros H Hn Hs Hp Ht. apply String.eqb_neq in H.
  unfold tmdb_from_tvdb, bind, send, raise_for_status, json_of, py_or.
  rewrite H, Hn, Hs. simpl. rewrite Hp. simpl. rewrite Ht. reflexivity.
Qed.

Lemma bridge_match (tvdb_id : Z) (tr : trace) (r : response)
    (d first : dict) (rest : list json) (id : json) (n : Z) :
  TMDB_API_KEY cfg <> "" ->
  net tr (find_call cfg tvdb_id) = Reply r ->
  is_success r = true ->
  parsed r = Some (JDict d) ->
  get d "tv_results" = JList (JDict first :: rest) ->
  find first "id" = Some id ->
  py_int py id = Ret n ->
  fst (tmdb_from_tvdb cfg py net tvdb_id tr) = Ret (Some n).
Proof.
  intros H Hn Hs Hp Ht Hi Hz. apply String.eqb_neq in H.
  unfold tmdb_from_tvdb, bind, send, raise_for_status, json_of, py_or.
  rewrite H, Hn, Hs. simpl. rewrite Hp. simpl. rewrite Ht. simpl.
  unfold lift. simpl. rewrite Hi, Hz. reflexivity.
Qed.

(** A readable answer never makes the bridge raise. *)
Lemma bridge_readable (tvdb_id : Z) (tr : trace) (r : response) (e : exn) :
  net tr (find_call cfg tvdb_id) = Reply r ->
  readable_find_reply py r = true ->
  fst (tmdb_from_tvdb cfg py net tvdb_id tr) <> Raise e.
Proof.
  intros Hn Hr. unfold readable_find_reply in Hr.
  apply andb_true_iff in Hr as [Hs Hr].
  unfold tmdb_from_tvdb.
  destruct (TMDB_API_KEY cfg =? "")%string; [discriminate |].
  unfold bind, send, raise_for_status, json_of, py_or.
  rewrite Hn, Hs. simpl.
  destruct (parsed r) as [[| | | | | | d] |]; try discriminate Hr. simpl.
  destruct (get d "tv_results") as [| b | z | m x | s | l | d'];
    simpl in Hr |- *; try discriminate.
  - apply negb_true_iff in Hr. rewrite Hr. discriminate.
  - apply negb_true_iff in Hr. rewrite Hr. discriminate.
  - apply negb_true_iff in Hr. rewrite Hr. discriminate.
  - apply negb_true_iff in Hr. rewrite Hr. discriminate.
  - destruct l as [| [| | | | | | first] rest]; simpl in Hr |- *;
      try discriminate.
    unfold lift. simpl.
    destruct (find first "id") as [id |]; [| discriminate Hr].
    destruct (py_int py id); [discriminate | discriminate Hr].
  - destruct d'; [discriminate | discriminate Hr].
Qed.

End Bridge.

(** C4 (as amended): the bridge returns "no mapping" without any outbound
    call when the TMDb credential is unset, and otherwise makes exactly one
    lookup; a 2xx answer whose [tv_results] is absent or empty gives "no
    mapping"; every non-2xx answer, not-found included, and every missing
    answer is raised to the caller; and the bridge raises in no other case
    than a missing answer or an answer it cannot read. *)
Theorem bridge_contract (cfg : config) (py : builtins) (net : network)
    (tvdb_id : Z) (tr : trace) :
  (TMDB_API_KEY cfg = "" ->
     tmdb_from_tvdb cfg py net tvdb_id tr = (Ret None, tr)) /\
  (TMDB_API_KEY cfg <> "" ->
     snd (tmdb_from_tvdb cfg py net tvdb_id tr)
     = tr ++ [find_call cfg tvdb_id]) /\
  (forall r d,
     TMDB_API_KEY cfg <> "" ->
     net tr (find_call cfg tvdb_id) = Reply r ->
     is_success r = true ->
     parsed r = Some (JDict d) ->
     truthy (get d "tv_results") = false ->
     fst (tmdb_from_tvdb cfg py net tvdb_id tr) = Ret None) /\
  (forall r,
     TMDB_API_KEY cfg <> "" ->
     net tr (find_call cfg tvdb_id) = Reply r ->
     is_success r = false ->
     fst (tmdb_from_tvdb cfg py net tvdb_id tr)
     = Raise (HTTPStatusError (status_code r))) /\
  (forall msg,
     TMDB_API_KEY cfg <> "" ->
     net tr (find_call cfg tvdb_id) = NoResponse msg ->
     fst (tmdb_from_tvdb cfg py net tvdb_id tr)
     = Raise (TransportError msg)) /\
  (forall e,
     fst (tmdb_from_tvdb cfg py net tvdb_id tr) = Raise e ->
     TMDB_API_KEY cfg <> "" /\
     match net tr (find_call cfg tvdb_id) with
     | NoResponse msg => e = TransportError msg
     | Reply r => readable_find_reply py r = false
     end).
Proof.
  split; [| split; [| split; [| split; [| split]]]].
  - apply bridge_unconfigured.
  - apply bridge_one_lookup.
  - intros r d. apply bridge_no_match.
  - intros r. apply bridge_bad_status.
  - intros msg. apply bridge_no_response.
  - intros e He.
    assert (Hk : TMDB_API_KEY cfg <> "").
    { intros Hk. rewrite (bridge_unconfigured cfg py net _ _ Hk) in He.
      discriminate He. }
    split; [exact Hk |].
    destruct (net tr (find_call cfg tvdb_id)) as [msg | r] eqn:Hn.
    + rewrite (bridge_no_response cfg py net _ _ _ Hk Hn) in He.
      now injection He as <-.
    + destruct (readable_find_reply py r) eqn:Hr; [| reflexivity].
      now elim (bridge_readable cfg py net _ _ _ e Hn Hr).
Qed.

Lemma bridge_contract_witness :
  tmdb_from_tvdb Sample.sonarr Sample.py Sample.healthy 81189 []
  = (Ret (Some 1396), [find_call Sample.sonarr 81189]) /\
  fst (tmdb_from_tvdb Sample.sonarr Sample.py Sample.tmdb_broken 81189 [])
  = Raise (HTTPStatusError 500).
Proof.
  split; [reflexivity |].
  refine (proj1 (proj2 (proj2 (proj2
            (bridge_contract Sample.sonarr Sample.py Sample.tmdb_broken
               81189 []))))
            (mkResponse 500 "Internal Server Error" None) _ eq_refl eq_refl).
  discriminate.
Defined.

(** C4 (as stated) fails on a not-found answer: the bridge has no special
    case for 404 and raises it like any other non-2xx status. *)
Lemma bridge_raises_on_not_found :
  ~ fatal_only_on_unexpected Sample.sonarr Sample.py
      (Sample.always 404 "Not Found" None) 81189 [].
Proof.
  intros H.
  specialize (H (HTTPStatusError 404) [find_call Sample.sonarr 81189] eq_refl).
  simpl in H. now apply H.
Qed.

(** ** The payload normalizer *)

Lemma py_or_l (a b : json) : truthy a = true -> py_or a b = a.
Proof. intros H. unfold py_or. now rewrite H. Qed.

Lemma py_or_r (a b : json) : truthy a = false -> py_or a b = b.
Proof. intros H. unfold py_or. now rewrite H. Qed.

Lemma normalize_found (d : dict) (v : json) :
  truthy v = true ->
  match (if negb (truthy v) then JList [JDict d] else v) with
  | JList l => l
  | _ => [if negb (truthy v) then JList [JDict d] else v]
  end
  = match v with JList l => l | _ => [v] end.
Proof. intros H. rewrite H. reflexivity. Qed.

Lemma movie_items_by_truthy (body : json) :
  movie_items body = normalize_by truthy movie_wrappers body.
Proof.
  destruct body as [| b | z | m e | s | l | d]; try reflexivity.
  unfold movie_items, normalize_by, movie_wrappers, first_where.
  destruct (truthy (get d "movies")) eqn:E1.
  { rewrite !(py_or_l _ _ E1). apply (normalize_found d _ E1). }
  rewrite (py_or_r _ _ E1).
  destruct (truthy (get d "movie")) eqn:E2.
  { rewrite !(py_or_l _ _ E2). apply (normalize_found d _ E2). }
  rewrite (py_or_r _ _ E2).
  destruct (truthy (get d "importListMovies")) eqn:E3.
  { rewrite !(py_or_l _ _ E3). apply (normalize_found d _ E3). }
  rewrite (py_or_r _ _ E3). reflexivity.
Qed.

Lemma series_items_by_truthy (body : json) :
  series_items body = normalize_by truthy series_wrappers body.
Proof.
  destruct body as [| b | z | m e | s | l | d]; try reflexivity.
  unfold series_items, normalize_by, series_wrappers, first_where.
  destruct (truthy (get d "series")) eqn:E1.
  { rewrite !(py_or_l _ _ E1). apply (normalize_found d _ E1). }
  rewrite (py_or_r _ _ E1).
  destruct (truthy (get d "shows")) eqn:E2.
  { rewrite !(py_or_l _ _ E2). apply (normalize_found d _ E2). }
  rewrite (py_or_r _ _ E2).
  destruct (truthy (get d "importListSeries")) eqn:E3.
  { rewrite !(py_or_l _ _ E3). apply (normalize_found d _ E3). }
  rewrite (py_or_r _ _ E3).
  destruct (truthy (get d "importListItems")) eqn:E4.
  { rewrite !(py_or_l _ _ E4). apply (normalize_found d _ E4). }
  rewrite (py_or_r _ _ E4). reflexivity.
Qed.

(** C3 (as amended): on a mapping, each import route takes the value of
    the first wrapper key, in the fixed order of precedence, whose value
    is truthy; a sequence found there is used element by element, any
    other truthy value found there becomes the single item; when no
    wrapper key holds a truthy value the whole mapping is the single
    item; a payload that is a plain sequence is used element by element
    in order. *)
Theorem normalizer_takes_first_truthy_wrapper (body : json) :
  movie_items body = normalize_by truthy movie_wrappers body /\
  series_items body = normalize_by truthy series_wrappers body.
Proof.
  split; [apply movie_items_by_truthy | apply series_items_by_truthy].
Qed.

(** C3 (as stated) fails when a wrapper key holds a truthy value that is
    not a sequence: [{"movie": {"tmdbId": 5}}] is normalized to the inner
    mapping, not to the whole payload. *)
Lemma wrapped_single_movie_is_unwrapped :
  movie_items (JDict [("movie", JDict [("tmdbId", JInt 5)])])
  = [JDict [("tmdbId", JInt 5)]] /\
  normalize_by nonempty_list movie_wrappers
    (JDict [("movie", JDict [("tmdbId", JInt 5)])])
  = [JDict [("movie", JDict [("tmdbId", JInt 5)])]] /\
  movie_items (JDict [("movie", JDict [("tmdbId", JInt 5)])])
  <> normalize_by nonempty_list movie_wrappers
       (JDict [("movie", JDict [("tmdbId", JInt 5)])]).
Proof. repeat split. discriminate. Qed.

Lemma first_where_agree (p q : json -> bool) (d : dict) (ks : list string) :
  (forall k, In k ks -> p (get d k) = q (get d k)) ->
  first_where p d ks = first_where q d ks.
Proof.
  induction ks as [| k ks IH]; intros H; simpl; [reflexivity |].
  rewrite (H k (or_introl eq_refl)), IH; [reflexivity |].
  intros k' Hk'. apply H. now right.
Qed.

(** When every wrapper key holds a sequence or nothing truthy, the
    normalizer is the one the specification words. *)
Lemma normalizer_on_sequence_wrappers (d : dict) :
  (forall k, In k movie_wrappers ->
     truthy (get d k) = nonempty_list (get d k)) ->
  movie_items (JDict d) = normalize_by nonempty_list movie_wrappers (JDict d).
Proof.
  intros H.
  rewrite movie_items_by_truthy.
  unfold normalize_by. now rewrite (first_where_agree truthy nonempty_list).
Qed.

(** ** Identifier extraction *)

Lemma none_or_truthy (v : json) :
  is_none v || truthy v = true ->
  v = JNull \/ (is_none v = false /\ truthy v = true).
Proof.
  destruct v; simpl; intros H; try (now left); right; split;
    try reflexivity; exact H.
Qed.

(** The [or] of two spellings and the [is None] test that follows, against
    "first non-null", on values that are null or truthy. *)
Lemma direct_then_nested (a b : json) (under : json)
    (inner : dict -> list json) (pick : dict -> json) :
  is_none a || truthy a = true ->
  is_none b || truthy b = true ->
  (forall m, under = JDict m -> pick m = first_non_null (inner m)) ->
  match under with
  | JDict m => if is_none (py_or a b) then pick m else py_or a b
  | _ => py_or a b
  end
  = first_non_null
      ([a; b] ++ match under with JDict m => inner m | _ => [] end).
Proof.
  intros Ha Hb Hin.
  destruct (none_or_truthy a Ha) as [-> | [Na Ta]];
    destruct (none_or_truthy b Hb) as [-> | [Nb Tb]].
  - destruct under; try reflexivity. simpl. now apply Hin.
  - rewrite (py_or_r JNull b eq_refl). unfold first_non_null. simpl.
    rewrite Nb. simpl. destruct under; reflexivity.
  - rewrite (py_or_l a JNull Ta). unfold first_non_null. simpl.
    rewrite Na. simpl. destruct under; reflexivity.
  - rewrite (py_or_l a b Ta). unfold first_non_null. simpl.
    rewrite Na. simpl. destruct under; reflexivity.
Qed.

Lemma nested_pair (c d : json) :
  is_none c || truthy c = true ->
  is_none d || truthy d = true ->
  py_or c d = first_non_null [c; d].
Proof.
  intros Hc Hd.
  destruct (none_or_truthy c Hc) as [-> | [Nc Tc]];
    destruct (none_or_truthy d Hd) as [-> | [Nd Td]];
    unfold first_non_null; simpl.
  - reflexivity.
  - rewrite (py_or_r JNull d eq_refl), Nd. reflexivity.
  - rewrite (py_or_l c JNull Tc), Nc. reflexivity.
  - rewrite (py_or_l c d Tc), Nc. reflexivity.
Qed.

Lemma extraction_agrees (camel snake nested : string) (it : json)
    (code : json) :
  supplied_ids_truthy camel snake nested it = true ->
  code
  = match it with
    | JDict d =>
        match get d nested with
        | JDict m =>
            if is_none (py_or (get d camel) (get d snake))
            then py_or (get m camel) (get m snake)
            else py_or (get d camel) (get d snake)
        | _ => py_or (get d camel) (get d snake)
        end
    | _ => JNull
    end ->
  code = extract_spec camel snake nested it.
Proof.
  intros H ->. unfold extract_spec.
  destruct it as [| | | | | | d]; try reflexivity.
  unfold supplied_ids_truthy, candidates in H |- *.
  simpl in H. apply andb_true_iff in H as [Ha H].
  apply andb_true_iff in H as [Hb H].
  apply (direct_then_nested (get d camel) (get d snake) (get d nested)
           (fun m => [get m camel; get m snake])
           (fun m => py_or (get m camel) (get m snake)) Ha Hb).
  intros m Hm. rewrite Hm in H. simpl in H.
  apply andb_true_iff in H as [Hc H].
  apply andb_true_iff in H as [Hd _].
  now apply nested_pair.
Qed.

(** An item in which no spelling matches is clean in the sense above. *)
Lemma no_match_is_clean (camel snake nested : string) (it : json) :
  Forall (fun v => v = JNull) (candidates camel snake nested it) ->
  supplied_ids_truthy camel snake nested it = true.
Proof.
  unfold supplied_ids_truthy. intros H.
  apply forallb_forall. intros v Hv.
  rewrite Forall_forall in H. now rewrite (H v Hv).
Qed.

(** Whatever the item holds, a falsy identifier is reported and the loop
    goes on. *)
Lemma falsy_id_is_reported (cfg : config) (py : builtins) (net : network)
    (it : json) (rest results : list json) (tr : trace) :
  (truthy (movie_tmdb_id it) = false ->
   movie_import_loop cfg py net (it :: rest) results tr
   = movie_import_loop cfg py net rest
       (results ++ [missing "tmdbId" it]) tr) /\
  (truthy (series_tvdb_id it) = false ->
   series_import_loop cfg py net (it :: rest) results tr
   = series_import_loop cfg py net rest
       (results ++ [missing "tvdbId" it]) tr).
Proof.
  split; intros H; simpl; unfold movie_import_item, series_import_item, bind;
    rewrite H; reflexivity.
Qed.

(** C2 (as amended): for an item whose supplied identifier values are all
    truthy, the identifier is the first non-null one among the camel-case
    direct key, the snake-case direct key, and the same two spellings
    under the media-type key; and when no spelling matches, the item is
    reported with the message "missing tmdbId" (or "missing tvdbId") and
    the loop goes on with the rest of the batch. *)
Theorem identifier_is_first_non_null (cfg : config) (py : builtins)
    (net : network) (it : json) (rest results : list json) (tr : trace) :
  (supplied_ids_truthy "tmdbId" "tmdb_id" "movie" it = true ->
     movie_tmdb_id it = extract_spec "tmdbId" "tmdb_id" "movie" it /\
     (extract_spec "tmdbId" "tmdb_id" "movie" it = JNull ->
        movie_import_loop cfg py net (it :: rest) results tr
        = movie_import_loop cfg py net rest
            (results ++
               [JDict [("ok", JBool false); ("msg", JStr "missing tmdbId");
                       ("item", it)]]) tr)) /\
  (supplied_ids_truthy "tvdbId" "tvdb_id" "series" it = true ->
     series_tvdb_id it = extract_spec "tvdbId" "tvdb_id" "series" it /\
     (extract_spec "tvdbId" "tvdb_id" "series" it = JNull ->
        series_import_loop cfg py net (it :: rest) results tr
        = series_import_loop cfg py net rest
            (results ++
               [JDict [("ok", JBool false); ("msg", JStr "missing tvdbId");
                       ("item", it)]]) tr)).
Proof.
  split; intros H.
  - assert (E : movie_tmdb_id it = extract_spec "tmdbId" "tmdb_id" "movie" it)
      by (apply extraction_agrees; [exact H | reflexivity]).
    split; [exact E |]. intros Hn.
    simpl. unfold movie_import_item, bind. rewrite E, Hn. reflexivity.
  - assert (E : series_tvdb_id it
                = extract_spec "tvdbId" "tvdb_id" "series" it)
      by (apply extraction_agrees; [exact H | reflexivity]).
    split; [exact E |]. intros Hn.
    simpl. unfold series_import_item, bind. rewrite E, Hn. reflexivity.
Qed.

Lemma identifier_is_first_non_null_witness :
  movie_tmdb_id (JDict [("title", JStr "The Matrix");
                        ("movie", JDict [("tmdb_id", JInt 603)])])
  = JInt 603 /\
  fst (series_import_loop Sample.sonarr_open Sample.py Sample.healthy
         [JDict [("foo", JStr "bar")]; JDict [("tvdb_id", JInt 81189)]]
         [] [])
  = Ret [JDict [("ok", JBool false); ("msg", JStr "missing tvdbId");
                ("item", JDict [("foo", JStr "bar")])];
         JDict [("ok", JBool true); ("tvdbId", JInt 81189);
                ("tmdbId", JInt 1396)]].
Proof.
  split.
  - rewrite (proj1 (proj1 (identifier_is_first_non_null Sample.radarr_open
                             Sample.py Sample.healthy
                             (JDict [("title", JStr "The Matrix");
                                     ("movie",
                                      JDict [("tmdb_id", JInt 603)])])
                             [] [] [])
                      eq_refl)).
    reflexivity.
  - rewrite (proj2 (proj2 (identifier_is_first_non_null Sample.sonarr_open
                             Sample.py Sample.healthy
                             (JDict [("foo", JStr "bar")])
                             [JDict [("tvdb_id", JInt 81189)]] [] [])
                      eq_refl)
               eq_refl).
    reflexivity.
Defined.

(** C2 (as stated) fails when a spelling holds a falsy value: with
    [{"tmdbId": 0, "tmdb_id": 5}] the first non-null match is [0], and the
    loop takes [5]. *)
Lemma falsy_direct_value_is_skipped :
  movie_tmdb_id (JDict [("tmdbId", JInt 0); ("tmdb_id", JInt 5)])
  <> extract_spec "tmdbId" "tmdb_id" "movie"
       (JDict [("tmdbId", JInt 0); ("tmdb_id", JInt 5)]).
Proof. discriminate. Qed.

(** ** The import loops *)

Section Imports.

Context (cfg : config) (py : builtins) (net : network) (clk : clock).

(** A turn of the movie loop adds one result, whatever the forwarder
    does, as long as [int()] accepts the identifier. *)
Lemma movie_import_item_returns (it : json) (results : list json)
    (tr : trace) :
  convertible py (movie_tmdb_id it) ->
  exists r tr',
    movie_import_item cfg py net it results tr = (Ret (results ++ [r]), tr').
Proof.
  intros Hc. unfold movie_import_item.
  destruct (truthy (movie_tmdb_id it)) eqn:T; simpl.
  - destruct (Hc T) as [n Hn].
    unfold try_except, bind, lift. rewrite Hn.
    destruct (overseerr_request cfg net "movie" n tr) as [[v | e] tr'];
      eexists; eexists; reflexivity.
  - eexists; eexists; reflexivity.
Qed.

Lemma movie_import_loop_returns (items results : list json) (tr : trace) :
  Forall (fun it => convertible py (movie_tmdb_id it)) items ->
  exists out tr',
    movie_import_loop cfg py net items results tr
    = (Ret (results ++ out), tr') /\
    List.length out = List.length items.
Proof.
  intros H. revert results tr.
  induction H as [| it rest Hit Hrest IH]; intros results tr; simpl.
  - exists [], tr. now rewrite app_nil_r.
  - destruct (movie_import_item_returns it results tr Hit) as (r & tr1 & E).
    unfold bind. rewrite E.
    destruct (IH (results ++ [r]) tr1) as (out & tr2 & E2 & L).
    exists (r :: out), tr2. split.
    + rewrite E2. now rewrite <- app_assoc.
    + simpl. now rewrite L.
Qed.



(** The two counts of the summary add up to the number of results. *)
Lemma counts_add_up (results : list json) :
  count result_ok results + count (fun r => negb (result_ok r)) results
  = Z.of_nat (List.length results).
Proof.
  unfold count. induction results as [| r rs IH]; [reflexivity |].
  simpl. destruct (result_ok r); simpl List.length; lia.
Qed.



End Imports.

Lemma series_item_bridge_error (cfg : config) (py : builtins)
    (net : network) (it : json) (results : list json) (tv : Z)
    (r : response) (tr : trace) :
  TMDB_API_KEY cfg <> "" ->
  series_tvdb_id it = JInt tv -> tv <> 0 ->
  net tr (find_call cfg tv) = Reply r ->
  is_success r = false ->
  series_import_item cfg py net it results tr
  = (Raise (HTTPStatusError (status_code r)), tr ++ [find_call cfg tv]).
Proof.
  intros Hk Hid Hz Hn Hs. unfold series_import_item. rewrite Hid.
  apply Z.eqb_neq in Hz. unfold truthy. rewrite Hz.
  unfold bind, lift. cbn -[tmdb_from_tvdb overseerr_request].
  pose proof (bridge_bad_status cfg py net tv tr r Hk Hn Hs) as Hf.
  pose proof (bridge_one_lookup cfg py net tv tr Hk) as Ht.
  destruct (tmdb_from_tvdb cfg py net tv tr) as [res tr1].
  simpl in Hf, Ht. subst res tr1. reflexivity.
Qed.

Lemma loop_stops_at_raise (cfg : config) (py : builtins) (net : network)
    (it : json) (rest results : list json) (e : exn) (tr tr' : trace) :
  series_import_item cfg py net it results tr = (Raise e, tr') ->
  series_import_loop cfg py net (it :: rest) results tr = (Raise e, tr').
Proof.
  intros H.
  change (series_import_loop cfg py net (it :: rest) results)
    with (bind (series_import_item cfg py net it results)
            (fun results' => series_import_loop cfg py net rest results')).
  unfold bind. rewrite H. reflexivity.
Qed.

(** C1: where the code departs from the claim.  In [series_import] the
    bridge is called outside the [try] block, so a lookup that TMDb
    answers with a non-2xx status raises out of the loop: the call is
    answered 500, no summary is returned, and the rest of the batch is
    never looked at. *)
Theorem bridge_error_aborts_series_import (cfg : config) (py : builtins)
    (net : network) (clk : clock) (req : request) (it : json)
    (rest : list json) (tv : Z) (r : response) (tr : trace) :
  require_api_key cfg (x_api_key req) (apikey req) = ret tt ->
  MODE cfg = "sonarr" ->
  TMDB_API_KEY cfg <> "" ->
  body req = Some (JList (it :: rest)) ->
  series_tvdb_id it = JInt tv -> tv <> 0 ->
  net tr (find_call cfg tv) = Reply r ->
  is_success r = false ->
  handle cfg py net clk SeriesImport req tr
  = (Raise (HTTPStatusError (status_code r)), tr ++ [find_call cfg tv]) /\
  status_of (fst (handle cfg py net clk SeriesImport req tr)) = 500.
Proof.
  intros Hg Hm Hk Hb Hid Hz Hn Hs.
  assert (E : handle cfg py net clk SeriesImport req tr
              = (Raise (HTTPStatusError (status_code r)),
                 tr ++ [find_call cfg tv])).
  { change (handle cfg py net clk SeriesImport req)
      with (series_import cfg py net req).
    unfold series_import. rewrite Hg, Hm.
    unfold request_json. rewrite Hb.
    change (series_items (JList (it :: rest))) with (it :: rest).
    unfold bind, ret. cbn -[series_import_loop].
    rewrite (loop_stops_at_raise cfg py net it rest [] _ tr _
               (series_item_bridge_error cfg py net it [] tv r tr
                  Hk Hid Hz Hn Hs)).
    reflexivity. }
  split; [exact E |]. rewrite E. reflexivity.
Qed.

Lemma bridge_error_aborts_series_import_witness :
  handle Sample.sonarr_open Sample.py Sample.tmdb_broken Sample.clk
    SeriesImport
    (Sample.req_body
       (JList [JDict [("tvdbId", JInt 81189)]; JDict [("foo", JStr "bar")]]))
    []
  = (Raise (HTTPStatusError 500), [find_call Sample.sonarr_open 81189]).
Proof.
  refine (proj1 (bridge_error_aborts_series_import Sample.sonarr_open
                   Sample.py Sample.tmdb_broken Sample.clk
                   (Sample.req_body
                      (JList [JDict [("tvdbId", JInt 81189)];
                              JDict [("foo", JStr "bar")]]))
                   (JDict [("tvdbId", JInt 81189)])
                   [JDict [("foo", JStr "bar")]] 81189
                   (mkResponse 500 "Internal Server Error" None) []
                   eq_refl eq_refl _ eq_refl eq_refl _ eq_refl eq_refl));
    discriminate.
Defined.

(** The same batch goes through when TMDb is healthy, and when the
    forwarder fails instead of the bridge: the failure is then one
    item's. *)
Example series_import_isolates_forwarder_failure :
  fst (handle Sample.sonarr_open Sample.py
         (fun _ c =>
            match c with
            | Get _ _ => Sample.healthy [] c
            | Post _ _ _ => Reply (mkResponse 503 "busy" None)
            end)
         Sample.clk SeriesImport
         (Sample.req_body
            (JList [JDict [("tvdbId", JInt 81189)];
                    JDict [("foo", JStr "bar")]]))
         [])
  = Ret (JDict
           [("imported", JInt 0); ("failed", JInt 2);
            ("results",
             JList
               [JDict [("ok", JBool false); ("tvdbId", JInt 81189);
                       ("tmdbId", JInt 1396);
                       ("msg", JStr "502: Overseerr error 503: busy")];
                JDict [("ok", JBool false); ("msg", JStr "missing tvdbId");
                       ("item", JDict [("foo", JStr "bar")])]])]).
Proof. reflexivity. Qed.

(** In [movie_import] the [except] handler calls [int()] on the
    identifier again, so an identifier [int()] rejects raises out of the
    loop as well. *)
Example unconvertible_id_aborts_movie_import :
  handle Sample.radarr_open Sample.py Sample.healthy Sample.clk MovieImport
    (Sample.req_body
       (JList [JDict [("tmdbId", JStr "abc")]; JDict [("tmdbId", JInt 5)]]))
    []
  = (Raise ValueError, []).
Proof. reflexivity. Qed.

(** ** The create routes *)

Lemma find_app_none (d d' : dict) (k : string) :
  find d k = None -> find (d ++ d') k = find d' k.
Proof.
  induction d as [| [k' v'] d IH]; simpl; [reflexivity |].
  destruct (k' =? k)%string; [discriminate | exact IH].
Qed.

Lemma set_fresh (d : dict) (k : string) (v : json) :
  find d k = None -> set d k v = d ++ [(k, v)].
Proof.
  induction d as [| [k' v'] d IH]; simpl; [reflexivity |].
  destruct (k' =? k)%string; [discriminate |].
  intros H. now rewrite IH.
Qed.

Lemma find_absent (d : dict) (k : string) :
  ~ In k (keys d) -> find d k = None.
Proof.
  induction d as [| [k' v'] d IH]; simpl; [reflexivity |].
  intros H. destruct (String.eqb_spec k' k) as [-> | Hne].
  - elim H. now left.
  - apply IH. intros Hin. apply H. now right.
Qed.

(** Unpacking a dict into one that shares no key with it appends it. *)
Lemma update_disjoint (acc more : dict) :
  wf_dict more ->
  (forall k, In k (keys more) -> find acc k = None) ->
  update acc more = acc ++ more.
Proof.
  unfold update, wf_dict. revert acc.
  induction more as [| [k v] more IH]; intros acc Hnd Hdis; simpl.
  - now rewrite app_nil_r.
  - simpl in Hnd. inversion Hnd as [| ? ? Hk Hnd']; subst.
    rewrite set_fresh by (apply Hdis; now left).
    rewrite IH; [now rewrite <- app_assoc | exact Hnd' |].
    intros k' Hk'. rewrite find_app_none by (apply Hdis; now right).
    simpl. destruct (String.eqb_spec k k') as [-> | _]; [| reflexivity].
    now elim Hk.
Qed.

Lemma find_none_not_in (d : dict) (k : string) :
  find d k = None -> ~ In k (keys d).
Proof.
  induction d as [| [k' v'] d IH]; simpl; [tauto |].
  destruct (String.eqb_spec k' k) as [-> | Hne]; [discriminate |].
  intros H [Heq | Hin]; [congruence | now apply IH].
Qed.

(** C9 (as amended): the two exclusion-create routes answer with the
    submitted body preceded by an [id] entry holding the clock's reading
    in whole seconds, for a body that carries no [id] of its own; the
    tag-create route answers with the fixed id 1 and the submitted label,
    ["kometa"] when the body has none, and nothing else of the body. *)
Theorem create_routes_answer (cfg : config) (py : builtins) (net : network)
    (clk : clock) (req : request) (d : dict) (tr : trace) :
  require_api_key cfg (x_api_key req) (apikey req) = ret tt ->
  body req = Some (JDict d) ->
  wf_dict d ->
  (find d "id" = None ->
     handle cfg py net clk AddExclusion req tr
     = (Ret (JDict (("id", JInt (time_s clk)) :: d)), tr) /\
     handle cfg py net clk AddImportListExclusion req tr
     = (Ret (JDict (("id", JInt (time_s clk)) :: d)), tr)) /\
  handle cfg py net clk CreateTag req tr
  = (Ret (JDict [("id", JInt 1);
                 ("label", get_default d "label" (JStr "kometa"))]), tr).
Proof.
  intros Hg Hb Hwf. split.
  - intros Hid.
    assert (U : update [("id", JInt (time_s clk))] d
                = ("id", JInt (time_s clk)) :: d).
    { rewrite update_disjoint; [reflexivity | exact Hwf |].
      intros k Hk. cbn [find].
      destruct (String.eqb_spec "id" k) as [<- | _]; [| reflexivity].
      now elim (find_none_not_in d "id" Hid). }
    split; simpl; unfold add_exclusion, add_import_list_exclusion;
      rewrite Hg; unfold request_json; rewrite Hb; unfold bind, ret, lift;
      simpl; rewrite U; reflexivity.
  - simpl. unfold create_tag. rewrite Hg. unfold request_json. rewrite Hb.
    reflexivity.
Qed.

Lemma create_routes_answer_witness :
  handle Sample.radarr_open Sample.py Sample.down Sample.clk AddExclusion
    (Sample.req_body (JDict [("tmdbId", JInt 603); ("title", JStr "x")])) []
  = (Ret (JDict [("id", JInt 1700000000); ("tmdbId", JInt 603);
                 ("title", JStr "x")]), []).
Proof.
  refine (proj1 (proj1 (create_routes_answer Sample.radarr_open Sample.py
                          Sample.down Sample.clk
                          (Sample.req_body
                             (JDict [("tmdbId", JInt 603);
                                     ("title", JStr "x")]))
                          [("tmdbId", JInt 603); ("title", JStr "x")] []
                          eq_refl eq_refl _)
                   eq_refl)).
  repeat constructor; simpl; intuition discriminate.
Defined.

(** C9 (as stated) fails on the tag-create route: its id is the constant
    1, not the clock's reading, and it keeps nothing of the body but the
    label. *)
Lemma tag_create_has_fixed_id :
  ~ echoes_with_time_id Sample.radarr_open Sample.py Sample.down Sample.clk
      CreateTag
      (Sample.req_body (JDict [("label", JStr "x"); ("color", JStr "red")])).
Proof.
  intros H.
  destruct (H [("label", JStr "x"); ("color", JStr "red")] [] eq_refl)
    as (out & Hout & Hid & _).
  simpl in Hout. injection Hout as <-. discriminate Hid.
Qed.

(** ** Response codes *)

Section Codes.

Context (cfg : config) (py : builtins) (net : network) (clk : clock).

Lemma gate_decides (h q : option string) :
  require_api_key cfg h q = ret tt \/
  (require_api_key cfg h q = raise rejection /\
   SHIM_API_KEY cfg <> "" /\ or_str h q <> Some (SHIM_API_KEY cfg)).
Proof.
  destruct (String.eqb_spec (SHIM_API_KEY cfg) "") as [Hs | Hs].
  - left. apply gate_open. now left.
  - destruct (differs (or_str h q) (SHIM_API_KEY cfg)) eqn:D.
    + apply differs_true in D. right.
      split; [now apply gate_shut | now split].
    + apply differs_false in D. left. apply gate_open. now right.
Qed.









End Codes.





(** ** Concrete runs *)

(** A bare list of two movies, the second without an identifier. *)
Example mixed_batch :
  fst (handle Sample.radarr_dry Sample.py Sample.down Sample.clk MovieImport
         (Sample.req_body
            (JList [JDict [("tmdbId", JInt 5)]; JDict [("foo", JStr "bar")]]))
         [])
  = Ret (JDict
           [("imported", JInt 1); ("failed", JInt 1);
            ("results",
             JList
               [JDict [("ok", JBool true); ("tmdbId", JInt 5)];
                JDict [("ok", JBool false); ("msg", JStr "missing tmdbId");
                       ("item", JDict [("foo", JStr "bar")])]])]).
Proof. reflexivity. Qed.

(** A wrapped list is normalized to the list inside it, a mapping without
    a wrapper key to itself alone. *)
Example wrapped_list :
  movie_items
    (JDict [("movies",
             JList [JDict [("tmdbId", JInt 5)]; JDict [("tmdbId", JInt 6)]])])
  = movie_items
      (JList [JDict [("tmdbId", JInt 5)]; JDict [("tmdbId", JInt 6)]]) /\
  movie_items (JDict [("tmdbId", JInt 5)]) = [JDict [("tmdbId", JInt 5)]].
Proof. split; reflexivity. Qed.

(** A movie lookup that TMDb answers with not-found is an empty list. *)
Example lookup_not_found :
  fst (handle Sample.radarr_open Sample.py
         (Sample.always 404 "Not Found" None) Sample.clk MovieLookup
         (mkRequest None None "tmdb:27205" None) [])
  = Ret (JList []).
Proof. reflexivity. Qed.

(** A series add: the bridge resolves TVDB 81189 to TMDb 1396, which is
    the id the forwarded request carries. *)
Example series_add_end_to_end :
  handle Sample.sonarr_open Sample.py Sample.healthy Sample.clk AddSeries
    (Sample.req_body (JDict [("tvdbId", JInt 81189)])) []
  = (Ret (JDict [("id", JInt 1700000000); ("title", JStr "Unknown");
                 ("tvdbId", JInt 81189); ("monitored", JBool true);
                 ("path", JStr ""); ("added", JStr "2023-11-14T22:13:20Z")]),
     [find_call Sample.sonarr_open 81189;
      overseerr_call Sample.sonarr_open
        [("mediaType", JStr "tv"); ("mediaId", JInt 1396);
         ("userId", JInt 1); ("seasons", JStr "all")]]).
Proof. reflexivity. Qed.

(** An exclusion body that brings its own [id] keeps it. *)
Example exclusion_with_own_id :
  fst (handle Sample.radarr_open Sample.py Sample.down Sample.clk AddExclusion
         (Sample.req_body (JDict [("id", JInt 5); ("tmdbId", JInt 603)])) [])
  = Ret (JDict [("id", JInt 5); ("tmdbId", JInt 603)]).
Proof. reflexivity. Qed.

(** * Further properties of the program *)

(** ** Outbound calls: composition *)

Section Calls.

Context {A B : Type} (Q : call -> Prop).

Lemma co_ret (a : A) : calls_only Q (ret a).
Proof. intros tr. exists []. now rewrite app_nil_r. Qed.

Lemma co_raise (e : exn) : calls_only Q (@raise A e).
Proof. intros tr. exists []. now rewrite app_nil_r. Qed.

Lemma co_lift (r : res A) : calls_only Q (lift r).
Proof. intros tr. exists []. now rewrite app_nil_r. Qed.

Lemma co_bind (m : M A) (k : A -> M B) :
  calls_only Q m -> (forall a, calls_only Q (k a)) ->
  calls_only Q (bind m k).
Proof.
  intros Hm Hk tr. unfold bind.
  destruct (Hm tr) as (ext1 & E1 & F1).
  destruct (m tr) as [[a | e] tr1]; simpl in E1; subst tr1.
  - destruct (Hk a (tr ++ ext1)) as (ext2 & E2 & F2).
    exists (ext1 ++ ext2). rewrite E2, app_assoc. split; [reflexivity |].
    now apply Forall_app.
  - exists ext1. now split.
Qed.

Lemma co_try (m : M A) (h : exn -> M A) :
  calls_only Q m -> (forall e, calls_only Q (h e)) ->
  calls_only Q (try_except m h).
Proof.
  intros Hm Hh tr. unfold try_except.
  destruct (Hm tr) as (ext1 & E1 & F1).
  destruct (m tr) as [[a | e] tr1]; simpl in E1; subst tr1.
  - exists ext1. now split.
  - destruct (Hh e (tr ++ ext1)) as (ext2 & E2 & F2).
    exists (ext1 ++ ext2). rewrite E2, app_assoc. split; [reflexivity |].
    now apply Forall_app.
Qed.

End Calls.

Lemma co_send (Q : call -> Prop) (net : network) (c : call) :
  Q c -> calls_only Q (send net c).
Proof.
  intros Hc tr. exists [c]. unfold send.
  destruct (net tr c); simpl; split; try reflexivity;
    repeat constructor; exact Hc.
Qed.

Lemma co_raise_for_status (Q : call -> Prop) (r : response) :
  calls_only Q (raise_for_status r).
Proof.
  unfold raise_for_status. destruct (is_success r);
    [apply co_ret | apply co_raise].
Qed.

Lemma co_json_of (Q : call -> Prop) (r : response) :
  calls_only Q (json_of r).
Proof.
  unfold json_of. destruct (parsed r); [apply co_ret | apply co_raise].
Qed.

Lemma co_request_json (Q : call -> Prop) (req : request) :
  calls_only Q (request_json req).
Proof.
  unfold request_json. destruct (body req); [apply co_ret | apply co_raise].
Qed.

Lemma co_require_api_key (Q : call -> Prop) (cfg : config)
    (h q : option string) :
  calls_only Q (require_api_key cfg h q).
Proof.
  unfold require_api_key. destruct (_ && _); [apply co_raise | apply co_ret].
Qed.

Lemma co_weaken {A} (P Q : call -> Prop) (m : M A) :
  (forall c, P c -> Q c) -> calls_only P m -> calls_only Q m.
Proof.
  intros HPQ Hm tr. destruct (Hm tr) as (ext & E & F).
  exists ext. split; [exact E |].
  revert F. apply Forall_impl. exact HPQ.
Qed.

(** A computation that makes no call leaves the trace as it found it. *)
Lemma no_call_trace {A} (m : M A) (tr : trace) :
  calls_only no_call m -> snd (m tr) = tr.
Proof.
  intros H. destruct (H tr) as (ext & E & F).
  destruct ext as [| c ext]; [now rewrite app_nil_r in E |].
  inversion F as [| ? ? Hc _]. destruct Hc.
Qed.

(** One step of the syntax-directed proof that a computation makes only
    calls that satisfy [Q]; a [send] leaves [Q] of its call to prove. *)
Ltac co_step :=
  match goal with
  | |- calls_only _ (bind _ _) => apply co_bind; [| intro]
  | |- calls_only _ (ret _) => apply co_ret
  | |- calls_only _ (raise _) => apply co_raise
  | |- calls_only _ (lift _) => apply co_lift
  | |- calls_only _ (try_except _ _) => apply co_try; [| intro]
  | |- calls_only _ (raise_for_status _) => apply co_raise_for_status
  | |- calls_only _ (json_of _) => apply co_json_of
  | |- calls_only _ (request_json _) => apply co_request_json
  | |- calls_only _ (require_api_key _ _ _) => apply co_require_api_key
  | |- calls_only _ (send _ _) => apply co_send
  | |- calls_only _ (if (?a =? ?b)%string then _ else _) =>
      destruct (String.eqb_spec a b)
  | |- calls_only _ (if negb (?a =? ?b)%string then _ else _) =>
      destruct (String.eqb_spec a b); cbn [negb]
  | |- calls_only _ (if ?b then _ else _) => destruct b
  | |- calls_only _ (match ?x with _ => _ end) => destruct x
  end.

Section CallsOfTheProgram.

Context (cfg : config) (py : builtins) (net : network) (clk : clock).
Context (Q : call -> Prop).

Lemma co_overseerr_request (media_type : string) (n : Z) :
  Q (overseerr_call cfg (request_payload cfg media_type n)) ->
  calls_only Q (overseerr_request cfg net media_type n).
Proof. intros HQ. unfold overseerr_request. repeat co_step. exact HQ. Qed.

Lemma co_overseerr_off (media_type : string) (n : Z) :
  forwarding_off cfg ->
  calls_only Q (overseerr_request cfg net media_type n).
Proof.
  intros [H | [H | H]]; unfold overseerr_request.
  - rewrite H. repeat co_step.
  - rewrite H. cbn [String.eqb orb]. apply co_raise.
  - rewrite H. rewrite orb_true_r. apply co_raise.
Qed.

Lemma co_tmdb_from_tvdb (id : Z) :
  Q (find_call cfg id) -> calls_only Q (tmdb_from_tvdb cfg py net id).
Proof. intros HQ. unfold tmdb_from_tvdb. repeat co_step. exact HQ. Qed.

Lemma co_tmdb_off (id : Z) :
  TMDB_API_KEY cfg = "" -> calls_only Q (tmdb_from_tvdb cfg py net id).
Proof. intros H. unfold tmdb_from_tvdb. rewrite H. apply co_ret. Qed.

Lemma co_term_id (t : string) : calls_only Q (term_id py t).
Proof. unfold term_id. repeat co_step. Qed.

Lemma co_year_of (d : json) : calls_only Q (year_of py d).
Proof. unfold year_of. repeat co_step. Qed.

Hypothesis forward_movie :
  forall n, calls_only Q (overseerr_request cfg net "movie" n).
Hypothesis forward_tv :
  forall n, calls_only Q (overseerr_request cfg net "tv" n).
Hypothesis bridge :
  forall id, calls_only Q (tmdb_from_tvdb cfg py net id).
Hypothesis details :
  TMDB_API_KEY cfg <> "" ->
  forall id, Q (tv_details_call cfg id) /\ Q (movie_details_call cfg id).

Lemma co_movie_import_loop (items results : list json) :
  calls_only Q (movie_import_loop cfg py net items results).
Proof.
  revert results. induction items as [| it rest IH]; intros results; simpl.
  - apply co_ret.
  - apply co_bind; [| intro; apply IH].
    unfold movie_import_item.
    repeat first [apply forward_movie | co_step].
Qed.

Lemma co_series_import_loop (items results : list json) :
  calls_only Q (series_import_loop cfg py net items results).
Proof.
  revert results. induction items as [| it rest IH]; intros results; simpl.
  - apply co_ret.
  - apply co_bind; [| intro; apply IH].
    unfold series_import_item.
    repeat first [apply forward_tv | apply bridge | co_step].
Qed.

(** Every route makes only calls that satisfy [Q], as soon as the
    forwarder, the bridge and the two details fetches do. *)
Lemma co_handle (e : endpoint) (req : request) :
  calls_only Q (handle cfg py net clk e req).
Proof.
  destruct e; simpl;
    unfold health, status, rootfolders_alias, rootfolders,
      qualityprofiles_alias, qualityprofiles, list_tags, create_tag,
      get_exclusions, add_exclusion, movie_import, list_series,
      series_lookup, series_import, get_import_list_exclusions,
      add_import_list_exclusion, list_movies, movie_lookup, add_movie,
      add_series;
    repeat first
      [ apply forward_movie
      | apply forward_tv
      | apply bridge
      | apply co_movie_import_loop
      | apply co_series_import_loop
      | apply co_term_id
      | apply co_year_of
      | co_step ];
    now apply details.
Qed.

End CallsOfTheProgram.

(** ** What the routes send, and where *)

(** X1: whatever the route, the request and the answers of the network,
    every outbound call is one of four: the create-request POST to the
    configured Overseerr address, with the configured credential header and
    the canonical payload of a movie or a series, the TMDb find lookup, or
    one of the two TMDb details fetches.  Nothing else is ever sent. *)
Theorem every_call_is_known (cfg : config) (py : builtins) (net : network)
    (clk : clock) (e : endpoint) (req : request) :
  calls_only (known_call cfg) (handle cfg py net clk e req).
Proof.
  apply co_handle.
  - intros n. apply co_overseerr_request. left. exists "movie", n. tauto.
  - intros n. apply co_overseerr_request. left. exists "tv", n. tauto.
  - intros id. apply co_tmdb_from_tvdb. right. left. now exists id.
  - intros _ id. split.
    + right. right. left. now exists id.
    + right. right. right. now exists id.
Qed.

(** X2: while dry-run is on, or Overseerr's address or credential is
    unset, no route ever posts anything: every outbound call, on every
    route and for every request, is a GET. *)
Theorem no_post_while_forwarding_off (cfg : config) (py : builtins)
    (net : network) (clk : clock) (e : endpoint) (req : request) :
  forwarding_off cfg ->
  calls_only is_get (handle cfg py net clk e req).
Proof.
  intros Hoff. apply co_handle.
  - intros n. now apply co_overseerr_off.
  - intros n. now apply co_overseerr_off.
  - intros id. apply co_tmdb_from_tvdb. exact I.
  - intros _ id. split; exact I.
Qed.

Lemma no_post_while_forwarding_off_witness :
  calls_only is_get
    (handle Sample.sonarr_dry Sample.py Sample.healthy Sample.clk
       SeriesImport
       (Sample.req_body (JList [JDict [("tvdbId", JInt 81189)]]))).
Proof.
  apply (no_post_while_forwarding_off Sample.sonarr_dry). left. reflexivity.
Defined.

(** X3: without the TMDb credential no route ever contacts TMDb: every
    outbound call, on every route and for every request, is the POST to
    Overseerr. *)
Theorem no_tmdb_call_without_credential (cfg : config) (py : builtins)
    (net : network) (clk : clock) (e : endpoint) (req : request) :
  TMDB_API_KEY cfg = "" ->
  calls_only is_post (handle cfg py net clk e req).
Proof.
  intros Hk. apply co_handle.
  - intros n. apply co_overseerr_request. exact I.
  - intros n. apply co_overseerr_request. exact I.
  - intros id. now apply co_tmdb_off.
  - intros Hne. contradiction.
Qed.

Lemma no_tmdb_call_without_credential_witness :
  calls_only is_post
    (handle (mkConfig "sonarr" "" "http://overseerr:5055" "ovkey" 1 ""
               "all" false)
       Sample.py Sample.healthy Sample.clk SeriesLookup
       (mkRequest None None "tvdb:81189" None)).
Proof.
  apply (no_tmdb_call_without_credential
           (mkConfig "sonarr" "" "http://overseerr:5055" "ovkey" 1 ""
              "all" false)).
  reflexivity.
Defined.

Lemma quiet_route_makes_no_call (cfg : config) (py : builtins)
    (net : network) (clk : clock) (e : endpoint) (req : request) :
  In e quiet_routes ->
  calls_only no_call (handle cfg py net clk e req).
Proof.
  intros He. unfold quiet_routes in He. simpl in He.
  repeat (destruct He as [<- | He]); try contradiction; simpl;
    unfold health, status, rootfolders_alias, rootfolders,
      qualityprofiles_alias, qualityprofiles, list_tags, create_tag,
      get_exclusions, add_exclusion, get_import_list_exclusions,
      add_import_list_exclusion, list_movies, list_series;
    repeat co_step.
Qed.

Lemma other_mode_makes_no_call (cfg : config) (py : builtins)
    (net : network) (clk : clock) (e : endpoint) (req : request)
    (tr : trace) :
  in_other_mode cfg e ->
  snd (handle cfg py net clk e req tr) = tr.
Proof.
  intros Hm.
  destruct (gate_decides cfg (x_api_key req) (apikey req)) as [Hg | [Hg _]].
  - destruct Hm as [[He Hm] | [He Hm]]; apply String.eqb_neq in Hm;
      simpl in He;
      repeat (destruct He as [<- | He]); try contradiction; simpl;
      unfold movie_import, list_movies, movie_lookup, add_movie,
        series_import, list_series, series_lookup, add_series;
      rewrite Hg, Hm; reflexivity.
  - rewrite handle_rejected; [reflexivity | | exact Hg].
    destruct Hm as [[He _] | [He _]]; simpl in He;
      repeat (destruct He as [<- | He]); try contradiction; discriminate.
Qed.

(** X4: the facade, list and create routes make no outbound call and
    answer the same whatever the network would have said; so does every
    movie route outside Radarr mode and every series route outside Sonarr
    mode. *)
Theorem quiet_routes_ignore_the_network (cfg : config) (py : builtins)
    (net : network) (clk : clock) (e : endpoint) (req : request)
    (tr : trace) :
  In e quiet_routes \/ in_other_mode cfg e ->
  snd (handle cfg py net clk e req tr) = tr /\
  forall net', handle cfg py net' clk e req tr = handle cfg py net clk e req tr.
Proof.
  intros [He | Hm].
  - split.
    + apply no_call_trace. now apply quiet_route_makes_no_call.
    + intros net'. unfold quiet_routes in He. simpl in He.
      repeat (destruct He as [<- | He]); try contradiction; reflexivity.
  - split; [now apply other_mode_makes_no_call |].
    intros net'.
    destruct (gate_decides cfg (x_api_key req) (apikey req))
      as [Hg | [Hg _]].
    + destruct Hm as [[He Hm] | [He Hm]]; apply String.eqb_neq in Hm;
        simpl in He;
        repeat (destruct He as [<- | He]); try contradiction; simpl;
        unfold movie_import, list_movies, movie_lookup, add_movie,
          series_import, list_series, series_lookup, add_series;
        rewrite Hg, Hm; reflexivity.
    + rewrite !handle_rejected; try exact Hg; try reflexivity;
        destruct Hm as [[He _] | [He _]]; simpl in He;
        repeat (destruct He as [<- | He]); try contradiction; discriminate.
Qed.

Lemma quiet_routes_ignore_the_network_witness :
  snd (handle Sample.sonarr_open Sample.py Sample.healthy Sample.clk AddMovie
         (Sample.req_body (JDict [("tmdbId", JInt 603)])) []) = [] /\
  snd (handle Sample.radarr Sample.py Sample.down Sample.clk CreateTag
         (Sample.req_key None (Some "s3cret")) []) = [].
Proof.
  split.
  - apply (quiet_routes_ignore_the_network Sample.sonarr_open Sample.py
             Sample.healthy Sample.clk AddMovie).
    right. left. split; [simpl; tauto | discriminate].
  - apply (quiet_routes_ignore_the_network Sample.radarr Sample.py
             Sample.down Sample.clk CreateTag).
    left. simpl. tauto.
Defined.

(** ** How many calls *)

Lemma emits_quiet {A} (Q : call -> Prop) (n : nat) (m : M A) :
  calls_only no_call m -> emits n Q m.
Proof.
  intros H tr. exists []. rewrite app_nil_r.
  split; [now apply no_call_trace |]. split; [constructor | simpl; lia].
Qed.

Lemma emits_more {A} (Q : call -> Prop) (n n' : nat) (m : M A) :
  (n <= n')%nat -> emits n Q m -> emits n' Q m.
Proof.
  intros Hn Hm tr. destruct (Hm tr) as (ext & E & F & L).
  exists ext. repeat split; [exact E | exact F | lia].
Qed.

Section Emits.

Context {A B : Type} (Q : call -> Prop).

Lemma emits_bind (n1 n2 : nat) (m : M A) (k : A -> M B) :
  emits n1 Q m -> (forall a, emits n2 Q (k a)) ->
  emits (n1 + n2) Q (bind m k).
Proof.
  intros Hm Hk tr. unfold bind.
  destruct (Hm tr) as (ext1 & E1 & F1 & L1).
  destruct (m tr) as [[a | e] tr1]; simpl in E1; subst tr1.
  - destruct (Hk a (tr ++ ext1)) as (ext2 & E2 & F2 & L2).
    exists (ext1 ++ ext2). rewrite E2, app_assoc.
    split; [reflexivity |]. split; [now apply Forall_app |].
    rewrite length_app. lia.
  - exists ext1. repeat split; [exact F1 | lia].
Qed.

Lemma emits_bind_l (n : nat) (m : M A) (k : A -> M B) :
  calls_only no_call m -> (forall a, emits n Q (k a)) ->
  emits n Q (bind m k).
Proof.
  intros Hm Hk. apply (emits_bind 0 n); [now apply emits_quiet | exact Hk].
Qed.

Lemma emits_bind_r (n : nat) (m : M A) (k : A -> M B) :
  emits n Q m -> (forall a, calls_only no_call (k a)) ->
  emits n Q (bind m k).
Proof.
  intros Hm Hk. apply (emits_more Q (n + 0)); [lia |].
  apply emits_bind; [exact Hm |]. intros a. now apply emits_quiet.
Qed.

Lemma emits_try_r (n : nat) (m : M A) (h : exn -> M A) :
  emits n Q m -> (forall e, calls_only no_call (h e)) ->
  emits n Q (try_except m h).
Proof.
  intros Hm Hh tr. unfold try_except.
  destruct (Hm tr) as (ext1 & E1 & F1 & L1).
  destruct (m tr) as [[a | e] tr1]; simpl in E1; subst tr1.
  - exists ext1. now repeat split.
  - exists ext1. rewrite (no_call_trace _ _ (Hh e)). now repeat split.
Qed.

End Emits.

Lemma emits_send (Q : call -> Prop) (n : nat) (net : network) (c : call) :
  Q c -> emits (S n) Q (send net c).
Proof.
  intros Hc tr. exists [c]. unfold send.
  destruct (net tr c); simpl; repeat split; try (repeat constructor; exact Hc);
    lia.
Qed.

Ltac quiet :=
  repeat first [apply co_term_id | apply co_year_of | co_step].

Section Budget.

Context (cfg : config) (py : builtins) (net : network) (clk : clock).

Lemma emits_overseerr_request (media_type : string) (n : Z) :
  emits 1 any_call (overseerr_request cfg net media_type n).
Proof.
  unfold overseerr_request.
  destruct (_ || _); cbv iota; [apply emits_quiet; quiet |].
  destruct (DRY_RUN cfg); cbv iota; [apply emits_quiet; quiet |].
  apply emits_bind_r; [now apply emits_send | intro; quiet].
Qed.

Lemma emits_tmdb_from_tvdb (id : Z) :
  emits 1 any_call (tmdb_from_tvdb cfg py net id).
Proof.
  unfold tmdb_from_tvdb.
  destruct (_ =? _)%string; cbv iota; [apply emits_quiet; quiet |].
  apply emits_bind_r; [now apply emits_send | intro; quiet].
Qed.

Lemma emits_movie_import_loop (items results : list json) :
  emits (List.length items) any_call
    (movie_import_loop cfg py net items results).
Proof.
  revert results. induction items as [| it rest IH]; intros results.
  - apply emits_quiet. apply co_ret.
  - change (movie_import_loop cfg py net (it :: rest) results)
      with (bind (movie_import_item cfg py net it results)
              (fun results' => movie_import_loop cfg py net rest results')).
    apply (emits_bind any_call 1 (List.length rest)); [| exact IH].
    unfold movie_import_item.
    destruct (negb _); cbv iota; [apply emits_quiet; quiet |].
    apply emits_try_r; [| intro; quiet].
    apply emits_bind_l; [quiet | intro].
    apply emits_bind_r; [apply emits_overseerr_request | intro; quiet].
Qed.

Lemma emits_series_import_loop (items results : list json) :
  emits (2 * List.length items) any_call
    (series_import_loop cfg py net items results).
Proof.
  revert results. induction items as [| it rest IH]; intros results.
  - apply emits_quiet. apply co_ret.
  - change (series_import_loop cfg py net (it :: rest) results)
      with (bind (series_import_item cfg py net it results)
              (fun results' => series_import_loop cfg py net rest results')).
    apply (emits_more any_call (2 + 2 * List.length rest));
      [simpl List.length; lia |].
    apply emits_bind; [| exact IH].
    unfold series_import_item.
    destruct (negb _); cbv iota; [apply emits_quiet; quiet |].
    apply emits_bind_l; [quiet | intro tv].
    apply (emits_bind any_call 1 1); [apply emits_tmdb_from_tvdb |].
    intros [m |]; [| apply emits_quiet; quiet].
    apply emits_try_r; [| intro; quiet].
    apply emits_bind_r; [apply emits_overseerr_request | intro; quiet].
Qed.

Lemma bind_ret {A B} (a : A) (k : A -> M B) : bind (ret a) k = k a.
Proof. reflexivity. Qed.

Lemma bind_raise {A B} (e : exn) (k : A -> M B) : bind (raise e) k = raise e.
Proof. reflexivity. Qed.

Lemma emits_movie_import (req : request) :
  emits (call_budget MovieImport req) any_call (movie_import cfg py net req).
Proof.
  unfold movie_import, call_budget.
  apply emits_bind_l; [quiet | intro].
  destruct (negb _); cbv iota; [apply emits_quiet; quiet |].
  unfold request_json.
  destruct (body req) as [b |];
    [| rewrite bind_raise; apply emits_quiet; quiet].
  rewrite bind_ret.
  apply emits_bind_r; [apply emits_movie_import_loop | intro; quiet].
Qed.

Lemma emits_series_import (req : request) :
  emits (call_budget SeriesImport req) any_call
    (series_import cfg py net req).
Proof.
  unfold series_import, call_budget.
  apply emits_bind_l; [quiet | intro].
  destruct (negb _); cbv iota; [apply emits_quiet; quiet |].
  unfold request_json.
  destruct (body req) as [b |];
    [| rewrite bind_raise; apply emits_quiet; quiet].
  rewrite bind_ret.
  apply emits_bind_r; [apply emits_series_import_loop | intro; quiet].
Qed.

Lemma emits_movie_lookup (req : request) :
  emits 1 any_call (movie_lookup cfg py net req).
Proof.
  unfold movie_lookup.
  apply emits_bind_l; [quiet | intro].
  destruct (negb _); cbv iota; [apply emits_quiet; quiet |].
  destruct (negb _); cbv iota; [apply emits_quiet; quiet |].
  destruct (_ =? _)%string; cbv iota; [apply emits_quiet; quiet |].
  apply emits_bind_l; [quiet | intro id].
  apply emits_bind_r; [now apply emits_send | intro; quiet].
Qed.

Lemma emits_series_lookup (req : request) :
  emits 2 any_call (series_lookup cfg py net req).
Proof.
  unfold series_lookup.
  apply emits_bind_l; [quiet | intro].
  destruct (negb _); cbv iota; [apply emits_quiet; quiet |].
  destruct (negb _); cbv iota; [apply emits_quiet; quiet |].
  destruct (_ =? _)%string; cbv iota; [apply emits_quiet; quiet |].
  apply emits_bind_l; [quiet | intro id].
  apply (emits_bind any_call 1 1); [apply emits_tmdb_from_tvdb |].
  intros [m |]; [| apply emits_quiet; quiet].
  apply emits_bind_r; [now apply emits_send | intro; quiet].
Qed.

Lemma emits_add_movie (req : request) :
  emits 1 any_call (add_movie cfg py net clk req).
Proof.
  unfold add_movie.
  apply emits_bind_l; [quiet | intro].
  destruct (negb _); cbv iota; [apply emits_quiet; quiet |].
  apply emits_bind_l; [quiet | intro b].
  apply emits_bind_l; [quiet | intro d].
  destruct (negb _); cbv iota; [apply emits_quiet; quiet |].
  apply emits_bind_l; [quiet | intro n].
  apply emits_bind_r; [apply emits_overseerr_request | intro; quiet].
Qed.

Lemma emits_add_series (req : request) :
  emits 2 any_call (add_series cfg py net clk req).
Proof.
  unfold add_series.
  apply emits_bind_l; [quiet | intro].
  destruct (negb _); cbv iota; [apply emits_quiet; quiet |].
  apply emits_bind_l; [quiet | intro b].
  apply emits_bind_l; [quiet | intro d].
  destruct (negb _); cbv iota; [apply emits_quiet; quiet |].
  apply emits_bind_l; [quiet | intro n].
  apply (emits_bind any_call 1 1); [apply emits_tmdb_from_tvdb |].
  intros [m |]; [| apply emits_quiet; quiet].
  apply emits_bind_r; [apply emits_overseerr_request | intro; quiet].
Qed.

End Budget.

(** X5: no route retries or repeats a call.  A movie import makes at most
    one outbound call per item and a series import at most two, a movie
    lookup or add at most one and a series lookup or add at most two, and
    every other route none, whatever the network answers. *)
Theorem call_budget_is_kept (cfg : config) (py : builtins) (net : network)
    (clk : clock) (e : endpoint) (req : request) :
  emits (call_budget e req) any_call (handle cfg py net clk e req).
Proof.
  destruct e;
    try (apply emits_quiet; apply quiet_route_makes_no_call;
         unfold quiet_routes; simpl; tauto).
  - apply emits_movie_import.
  - apply emits_series_lookup.
  - apply emits_series_import.
  - apply emits_movie_lookup.
  - apply emits_add_movie.
  - apply emits_add_series.
Qed.

(** ** The import loops, item by item *)

Section Loops.

Context (cfg : config) (py : builtins) (net : network) (clk : clock).

Lemma movie_item_result (it : json) (results : list json) (tr : trace) :
  convertible py (movie_tmdb_id it) ->
  exists r tr',
    movie_import_item cfg py net it results tr = (Ret (results ++ [r]), tr')
    /\ result_for py "tmdbId" "tmdbId" movie_tmdb_id it r.
Proof.
  intros Hc. unfold movie_import_item, result_for.
  destruct (truthy (movie_tmdb_id it)) eqn:T; simpl.
  - destruct (Hc T) as [n Hn].
    unfold try_except, bind, lift. rewrite Hn.
    destruct (overseerr_request cfg net "movie" n tr) as [[v | e] tr'];
      eexists; eexists; (split; [reflexivity |]);
      exists n; eexists; eexists; repeat split; reflexivity.
  - eexists; eexists; split; reflexivity.
Qed.

Lemma series_item_result (it : json) (results : list json) (tr : trace) :
  bridge_never_raises cfg py net ->
  convertible py (series_tvdb_id it) ->
  exists r tr',
    series_import_item cfg py net it results tr
    = (Ret (results ++ [r]), tr')
    /\ result_for py "tvdbId" "tvdbId" series_tvdb_id it r.
Proof.
  intros Hb Hc. unfold series_import_item, result_for.
  destruct (truthy (series_tvdb_id it)) eqn:T; simpl.
  - destruct (Hc T) as [n Hn].
    unfold bind at 1. unfold lift at 1. rewrite Hn.
    unfold bind at 1.
    pose proof (Hb n tr) as Hbn.
    destruct (tmdb_from_tvdb cfg py net n tr) as [[[m |] | e] tr1].
    + unfold try_except, bind, lift.
      destruct (overseerr_request cfg net "tv" m tr1) as [[v | e] tr2];
        eexists; eexists; (split; [reflexivity |]);
        exists n; eexists; eexists; repeat split; reflexivity.
    + unfold bind, lift. eexists; eexists; (split; [reflexivity |]).
      exists n; eexists; eexists; repeat split; reflexivity.
    + now elim (Hbn e).
  - eexists; eexists; split; reflexivity.
Qed.

Lemma movie_loop_results (items results : list json) (tr : trace) :
  Forall (fun it => convertible py (movie_tmdb_id it)) items ->
  exists out tr',
    movie_import_loop cfg py net items results tr
    = (Ret (results ++ out), tr') /\
    Forall2 (result_for py "tmdbId" "tmdbId" movie_tmdb_id) items out.
Proof.
  intros H. revert results tr.
  induction H as [| it rest Hit Hrest IH]; intros results tr.
  - exists [], tr. simpl. rewrite app_nil_r. split; [reflexivity | constructor].
  - destruct (movie_item_result it results tr Hit) as (r & tr1 & E & R).
    change (movie_import_loop cfg py net (it :: rest) results)
      with (bind (movie_import_item cfg py net it results)
              (fun results' => movie_import_loop cfg py net rest results')).
    unfold bind. rewrite E.
    destruct (IH (results ++ [r]) tr1) as (out & tr2 & E2 & F).
    exists (r :: out), tr2. split.
    + rewrite E2. now rewrite <- app_assoc.
    + now constructor.
Qed.

Lemma series_loop_results (items results : list json) (tr : trace) :
  bridge_never_raises cfg py net ->
  Forall (fun it => convertible py (series_tvdb_id it)) items ->
  exists out tr',
    series_import_loop cfg py net items results tr
    = (Ret (results ++ out), tr') /\
    Forall2 (result_for py "tvdbId" "tvdbId" series_tvdb_id) items out.
Proof.
  intros Hb H. revert results tr.
  induction H as [| it rest Hit Hrest IH]; intros results tr.
  - exists [], tr. simpl. rewrite app_nil_r. split; [reflexivity | constructor].
  - destruct (series_item_result it results tr Hb Hit) as (r & tr1 & E & R).
    change (series_import_loop cfg py net (it :: rest) results)
      with (bind (series_import_item cfg py net it results)
              (fun results' => series_import_loop cfg py net rest results')).
    unfold bind. rewrite E.
    destruct (IH (results ++ [r]) tr1) as (out & tr2 & E2 & F).
    exists (r :: out), tr2. split.
    + rewrite E2. now rewrite <- app_assoc.
    + now constructor.
Qed.

End Loops.

(** X6: the results of an import follow its items.  When [int()] accepts
    every identifier found (and, for series, the bridge does not raise),
    the loop keeps the results it was given and appends exactly one
    result per item, in the order of the items: the "missing" record
    holding the item itself where no truthy identifier is found, and
    otherwise a record with a boolean [ok] and the item's own identifier
    as an integer. *)
Theorem results_follow_items (cfg : config) (py : builtins) (net : network)
    (items results : list json) (tr : trace) :
  (Forall (fun it => convertible py (movie_tmdb_id it)) items ->
   exists out tr',
     movie_import_loop cfg py net items results tr
     = (Ret (results ++ out), tr') /\
     Forall2 (result_for py "tmdbId" "tmdbId" movie_tmdb_id) items out) /\
  (bridge_never_raises cfg py net ->
   Forall (fun it => convertible py (series_tvdb_id it)) items ->
   exists out tr',
     series_import_loop cfg py net items results tr
     = (Ret (results ++ out), tr') /\
     Forall2 (result_for py "tvdbId" "tvdbId" series_tvdb_id) items out).
Proof.
  split.
  - apply movie_loop_results.
  - apply series_loop_results.
Qed.

Lemma results_follow_items_witness :
  exists out tr',
    movie_import_loop Sample.radarr_open Sample.py Sample.healthy
      [JDict [("tmdbId", JStr "603")]; JNull; JDict [("tmdb_id", JInt 5)]]
      [] []
    = (Ret ([] ++ out), tr') /\
    Forall2 (result_for Sample.py "tmdbId" "tmdbId" movie_tmdb_id)
      [JDict [("tmdbId", JStr "603")]; JNull; JDict [("tmdb_id", JInt 5)]]
      out.
Proof.
  apply (proj1 (results_follow_items Sample.radarr_open Sample.py
                  Sample.healthy
                  [JDict [("tmdbId", JStr "603")]; JNull;
                   JDict [("tmdb_id", JInt 5)]]
                  [] [])).
  repeat (apply Forall_cons;
          [first [ intros H; discriminate H
                 | intros _; eexists; reflexivity ] |]).
  apply Forall_nil.
Defined.

Section LiveAndDry.

Context (cfg : config) (py : builtins) (net : network) (clk : clock).

Lemma forwarder_trace_off (media_type : string) (n : Z) (tr : trace) :
  forwarding_off cfg ->
  snd (overseerr_request cfg net media_type n tr) = tr.
Proof.
  intros H. apply no_call_trace. now apply co_overseerr_off.
Qed.

Lemma movie_item_forwards (it : json) (results : list json) (tr : trace) :
  overseerr_configured cfg -> DRY_RUN cfg = false ->
  convertible py (movie_tmdb_id it) ->
  snd (movie_import_item cfg py net it results tr)
  = tr ++ movie_forwards cfg py [it].
Proof.
  intros Hc Hd Hi. unfold movie_import_item, movie_forwards. simpl flat_map.
  destruct (truthy (movie_tmdb_id it)) eqn:T; cbn [negb]; cbv beta iota.
  - destruct (Hi T) as [n Hn]. rewrite Hn. rewrite app_nil_r.
    unfold try_except, bind, lift. cbv beta iota.
    pose proof (forwarder_sends cfg net "movie" n tr Hc Hd) as Hs.
    destruct (overseerr_request cfg net "movie" n tr) as [[v | e] tr'];
      simpl in Hs; subst tr'; reflexivity.
  - simpl. now rewrite app_nil_r.
Qed.

Lemma movie_loop_forwards (items results : list json) (tr : trace) :
  overseerr_configured cfg -> DRY_RUN cfg = false ->
  Forall (fun it => convertible py (movie_tmdb_id it)) items ->
  snd (movie_import_loop cfg py net items results tr)
  = tr ++ movie_forwards cfg py items.
Proof.
  intros Hc Hd H. revert results tr.
  induction H as [| it rest Hit Hrest IH]; intros results tr.
  - simpl. now rewrite app_nil_r.
  - change (movie_import_loop cfg py net (it :: rest) results)
      with (bind (movie_import_item cfg py net it results)
              (fun results' => movie_import_loop cfg py net rest results')).
    pose proof (movie_item_forwards it results tr Hc Hd Hit) as Ht.
    destruct (movie_import_item_returns cfg py net it results tr Hit)
      as (r & tr1 & E).
    unfold bind. rewrite E in Ht |- *. simpl in Ht. subst tr1.
    rewrite IH, <- app_assoc. f_equal.
    unfold movie_forwards. cbn [flat_map]. now rewrite app_nil_r.
Qed.

(** In dry-run mode the forwarder's answer is the echo, on every trace. *)
Lemma forwarder_dry (media_type : string) (n : Z) :
  overseerr_configured cfg -> DRY_RUN cfg = true ->
  overseerr_request cfg net media_type n
  = ret (dry_run_echo (request_payload cfg media_type n)).
Proof.
  intros Hc Hd. unfold overseerr_request.
  now rewrite (configured_test cfg Hc), Hd.
Qed.

Lemma movie_loop_dry (items results : list json) (tr : trace) :
  overseerr_configured cfg -> DRY_RUN cfg = true ->
  Forall (fun it => convertible py (movie_tmdb_id it)) items ->
  movie_import_loop cfg py net items results tr
  = (Ret (results ++ map (movie_imported py) items), tr).
Proof.
  intros Hc Hd H. revert results.
  induction H as [| it rest Hit Hrest IH]; intros results.
  - simpl. now rewrite app_nil_r.
  - change (movie_import_loop cfg py net (it :: rest) results)
      with (bind (movie_import_item cfg py net it results)
              (fun results' => movie_import_loop cfg py net rest results')).
    assert (E : movie_import_item cfg py net it results tr
                = (Ret (results ++ [movie_imported py it]), tr)).
    { unfold movie_import_item, movie_imported.
      destruct (truthy (movie_tmdb_id it)) eqn:T; [| reflexivity].
      destruct (Hit T) as [n Hn].
      cbn [negb]. cbv beta iota. rewrite Hn.
      unfold try_except, bind, lift. rewrite forwarder_dry by assumption.
      reflexivity. }
    unfold bind. rewrite E, IH. simpl map. now rewrite <- app_assoc.
Qed.

Lemma imported_are_identified (items : list json) :
  Forall (fun it => convertible py (movie_tmdb_id it)) items ->
  count result_ok (map (movie_imported py) items)
  = Z.of_nat (List.length (identified movie_tmdb_id items)).
Proof.
  unfold count, identified. intros H.
  induction H as [| it rest Hit Hrest IH]; [reflexivity |].
  simpl map. simpl filter.
  assert (E : result_ok (movie_imported py it) = truthy (movie_tmdb_id it)).
  { unfold movie_imported.
    destruct (truthy (movie_tmdb_id it)) eqn:T; [| reflexivity].
    destruct (Hit T) as [n Hn]. now rewrite Hn. }
  rewrite E. destruct (truthy (movie_tmdb_id it)); simpl List.length; lia.
Qed.

Lemma bridge_off (id : Z) :
  TMDB_API_KEY cfg = "" -> tmdb_from_tvdb cfg py net id = ret None.
Proof. intros H. unfold tmdb_from_tvdb. now rewrite H. Qed.

Lemma series_loop_unbridged (items results : list json) (tr : trace) :
  TMDB_API_KEY cfg = "" ->
  Forall (fun it => convertible py (series_tvdb_id it)) items ->
  series_import_loop cfg py net items results tr
  = (Ret (results ++ map (series_unbridged py) items), tr).
Proof.
  intros Hk H. revert results.
  induction H as [| it rest Hit Hrest IH]; intros results.
  - simpl. now rewrite app_nil_r.
  - change (series_import_loop cfg py net (it :: rest) results)
      with (bind (series_import_item cfg py net it results)
              (fun results' => series_import_loop cfg py net rest results')).
    assert (E : series_import_item cfg py net it results tr
                = (Ret (results ++ [series_unbridged py it]), tr)).
    { unfold series_import_item, series_unbridged.
      destruct (truthy (series_tvdb_id it)) eqn:T; [| reflexivity].
      destruct (Hit T) as [n Hn].
      cbn [negb]. cbv beta iota. rewrite Hn.
      unfold bind, lift. rewrite bridge_off by assumption.
      reflexivity. }
    unfold bind. rewrite E, IH. simpl map. now rewrite <- app_assoc.
Qed.

Lemma unbridged_are_failures (items : list json) :
  Forall (fun it => convertible py (series_tvdb_id it)) items ->
  count result_ok (map (series_unbridged py) items) = 0.
Proof.
  unfold count. intros H.
  induction H as [| it rest Hit Hrest IH]; [reflexivity |].
  simpl map. simpl filter.
  assert (E : result_ok (series_unbridged py it) = false).
  { unfold series_unbridged.
    destruct (truthy (series_tvdb_id it)) eqn:T; [| reflexivity].
    destruct (Hit T) as [n Hn]. now rewrite Hn. }
  now rewrite E.
Qed.

(** Past the gate, in Radarr mode, the import route is its loop. *)
Lemma movie_import_runs_loop (req : request) (b : json) (tr : trace) :
  require_api_key cfg (x_api_key req) (apikey req) = ret tt ->
  MODE cfg = "radarr" ->
  body req = Some b ->
  handle cfg py net clk MovieImport req tr
  = bind (movie_import_loop cfg py net (movie_items b) [])
      (fun results => ret (import_summary results)) tr.
Proof.
  intros Hg Hm Hb. simpl. unfold movie_import. rewrite Hg, Hm.
  unfold request_json. rewrite Hb. reflexivity.
Qed.

Lemma series_import_runs_loop (req : request) (b : json) (tr : trace) :
  require_api_key cfg (x_api_key req) (apikey req) = ret tt ->
  MODE cfg = "sonarr" ->
  body req = Some b ->
  handle cfg py net clk SeriesImport req tr
  = bind (series_import_loop cfg py net (series_items b) [])
      (fun results => ret (import_summary results)) tr.
Proof.
  intros Hg Hm Hb. simpl. unfold series_import. rewrite Hg, Hm.
  unfold request_json. rewrite Hb. reflexivity.
Qed.

End LiveAndDry.

(** X7: past the gate and in Radarr mode, with Overseerr configured and
    dry-run off, and when [int()] accepts every identifier the batch
    holds, a movie import forwards every identified item exactly once, in
    the order of the batch, whatever Overseerr answers along the way: the
    calls it makes are the create-request POSTs of the items that hold a
    truthy identifier, one each and nothing else. *)
Theorem live_import_forwards_each_item_once (cfg : config) (py : builtins)
    (net : network) (clk : clock) (req : request) (b : json) (tr : trace) :
  require_api_key cfg (x_api_key req) (apikey req) = ret tt ->
  MODE cfg = "radarr" ->
  body req = Some b ->
  overseerr_configured cfg -> DRY_RUN cfg = false ->
  Forall (fun it => convertible py (movie_tmdb_id it)) (movie_items b) ->
  snd (handle cfg py net clk MovieImport req tr)
  = tr ++ movie_forwards cfg py (movie_items b).
Proof.
  intros Hg Hm Hb Hc Hd Hi.
  rewrite (movie_import_runs_loop cfg py net clk req b tr Hg Hm Hb).
  pose proof (movie_loop_forwards cfg py net (movie_items b) [] tr Hc Hd Hi)
    as Ht.
  destruct (movie_import_loop_returns cfg py net (movie_items b) [] tr Hi)
    as (out & tr' & E & _).
  unfold bind. rewrite E in Ht |- *. exact Ht.
Qed.

Lemma live_import_forwards_each_item_once_witness :
  snd (handle Sample.radarr_open Sample.py Sample.tmdb_broken Sample.clk
         MovieImport
         (Sample.req_body
            (JDict [("movies",
                     JList [JDict [("tmdbId", JInt 603)];
                            JDict [("foo", JStr "bar")];
                            JDict [("movie",
                                    JDict [("tmdb_id", JStr "27205")])]])]))
         [])
  = [overseerr_call Sample.radarr_open
       (request_payload Sample.radarr_open "movie" 603);
     overseerr_call Sample.radarr_open
       (request_payload Sample.radarr_open "movie" 27205)].
Proof.
  refine (live_import_forwards_each_item_once Sample.radarr_open Sample.py
            Sample.tmdb_broken Sample.clk
            (Sample.req_body
               (JDict [("movies",
                     JList [JDict [("tmdbId", JInt 603)];
                            JDict [("foo", JStr "bar")];
                            JDict [("movie",
                                    JDict [("tmdb_id", JStr "27205")])]])]))
            (JDict [("movies",
                     JList [JDict [("tmdbId", JInt 603)];
                            JDict [("foo", JStr "bar")];
                            JDict [("movie",
                                    JDict [("tmdb_id", JStr "27205")])]])])
            [] eq_refl eq_refl eq_refl _ eq_refl _).
  - split; discriminate.
  - repeat (apply Forall_cons;
            [first [ intros H; discriminate H
                   | intros _; eexists; reflexivity ] |]).
    apply Forall_nil.
Defined.

Section Answers.

Context (cfg : config) (py : builtins) (net : network) (clk : clock).

(** A turn that returns has appended one result. *)
Lemma movie_item_appends (it : json) (results res : list json)
    (tr tr' : trace) :
  movie_import_item cfg py net it results tr = (Ret res, tr') ->
  exists r, res = results ++ [r].
Proof.
  unfold movie_import_item.
  destruct (negb (truthy (movie_tmdb_id it))).
  - intros H. injection H as <- _. eexists; reflexivity.
  - unfold try_except, bind, lift.
    destruct (py_int py (movie_tmdb_id it)) as [n | e]; [| discriminate].
    destruct (overseerr_request cfg net "movie" n tr) as [[v | e] tr1];
      intros H; injection H as <- _; eexists; reflexivity.
Qed.

Lemma series_item_appends (it : json) (results res : list json)
    (tr tr' : trace) :
  series_import_item cfg py net it results tr = (Ret res, tr') ->
  exists r, res = results ++ [r].
Proof.
  unfold series_import_item.
  destruct (negb (truthy (series_tvdb_id it))).
  - intros H. injection H as <- _. eexists; reflexivity.
  - unfold try_except, bind, lift.
    destruct (py_int py (series_tvdb_id it)) as [n | e]; [| discriminate].
    destruct (tmdb_from_tvdb cfg py net n tr) as [[[m |] | e] tr1];
      [| | discriminate].
    + destruct (overseerr_request cfg net "tv" m tr1) as [[v | e] tr2];
        intros H; injection H as <- _; eexists; reflexivity.
    + intros H; injection H as <- _; eexists; reflexivity.
Qed.

(** A loop that returns has appended one result per item. *)
Lemma movie_loop_appends (items results res : list json) (tr tr' : trace) :
  movie_import_loop cfg py net items results tr = (Ret res, tr') ->
  exists out,
    res = results ++ out /\ List.length out = List.length items.
Proof.
  revert results tr. induction items as [| it rest IH]; intros results tr.
  - simpl. intros H. injection H as <- _. exists []. now rewrite app_nil_r.
  - change (movie_import_loop cfg py net (it :: rest) results)
      with (bind (movie_import_item cfg py net it results)
              (fun results' => movie_import_loop cfg py net rest results')).
    unfold bind.
    destruct (movie_import_item cfg py net it results tr)
      as [[res1 | e] tr1] eqn:E; [| discriminate].
    destruct (movie_item_appends it results res1 tr tr1 E) as [r ->].
    intros H. destruct (IH _ _ H) as (out & -> & L).
    exists (r :: out). rewrite <- app_assoc. simpl. now rewrite L.
Qed.

Lemma series_loop_appends (items results res : list json) (tr tr' : trace) :
  series_import_loop cfg py net items results tr = (Ret res, tr') ->
  exists out,
    res = results ++ out /\ List.length out = List.length items.
Proof.
  revert results tr. induction items as [| it rest IH]; intros results tr.
  - simpl. intros H. injection H as <- _. exists []. now rewrite app_nil_r.
  - change (series_import_loop cfg py net (it :: rest) results)
      with (bind (series_import_item cfg py net it results)
              (fun results' => series_import_loop cfg py net rest results')).
    unfold bind.
    destruct (series_import_item cfg py net it results tr)
      as [[res1 | e] tr1] eqn:E; [| discriminate].
    destruct (series_item_appends it results res1 tr tr1 E) as [r ->].
    intros H. destruct (IH _ _ H) as (out & -> & L).
    exists (r :: out). rewrite <- app_assoc. simpl. now rewrite L.
Qed.

Lemma summary_counts (out : list json) (n : nat) :
  List.length out = n ->
  0 <= count result_ok out /\
  0 <= count (fun r => negb (result_ok r)) out /\
  count result_ok out + count (fun r => negb (result_ok r)) out
  = Z.of_nat n.
Proof.
  intros <-. rewrite counts_add_up. unfold count. repeat split; lia.
Qed.

Lemma movie_import_returned (req : request) (v : json) (tr tr' : trace) :
  handle cfg py net clk MovieImport req tr = (Ret v, tr') ->
  exists b out,
    body req = Some b /\ v = import_summary out /\
    List.length out = List.length (movie_items b).
Proof.
  simpl. unfold movie_import.
  destruct (gate_decides cfg (x_api_key req) (apikey req)) as [Hg | [Hg _]];
    rewrite Hg; [| discriminate].
  rewrite bind_ret.
  destruct (negb (MODE cfg =? "radarr")%string); [discriminate |].
  unfold request_json.
  destruct (body req) as [b |]; [| discriminate].
  rewrite bind_ret. unfold bind.
  destruct (movie_import_loop cfg py net (movie_items b) [] tr)
    as [[res | e] tr1] eqn:E; [| discriminate].
  intros H. injection H as <- _.
  destruct (movie_loop_appends _ _ _ _ _ E) as (out & -> & L).
  exists b, out. now repeat split.
Qed.

Lemma series_import_returned (req : request) (v : json) (tr tr' : trace) :
  handle cfg py net clk SeriesImport req tr = (Ret v, tr') ->
  exists b out,
    body req = Some b /\ v = import_summary out /\
    List.length out = List.length (series_items b).
Proof.
  simpl. unfold series_import.
  destruct (gate_decides cfg (x_api_key req) (apikey req)) as [Hg | [Hg _]];
    rewrite Hg; [| discriminate].
  rewrite bind_ret.
  destruct (negb (MODE cfg =? "sonarr")%string); [discriminate |].
  unfold request_json.
  destruct (body req) as [b |]; [| discriminate].
  rewrite bind_ret. unfold bind.
  destruct (series_import_loop cfg py net (series_items b) [] tr)
    as [[res | e] tr1] eqn:E; [| discriminate].
  intros H. injection H as <- _.
  destruct (series_loop_appends _ _ _ _ _ E) as (out & -> & L).
  exists b, out. now repeat split.
Qed.

End Answers.

(** X8: the two counts of an import's answer cover the batch.  Whenever a
    movie import or a series import returns its summary, whatever the
    batch and whatever the network answered on the way, the summary holds
    one result per item of the batch, and [imported] and [failed] are
    non-negative and add up to the number of items. *)
Theorem counts_cover_the_batch (cfg : config) (py : builtins)
    (net : network) (clk : clock) (req : request) (v : json)
    (tr tr' : trace) :
  (handle cfg py net clk MovieImport req tr = (Ret v, tr') ->
   exists b imported failed out,
     body req = Some b /\
     v = JDict [("imported", JInt imported); ("failed", JInt failed);
                ("results", JList out)] /\
     List.length out = List.length (movie_items b) /\
     0 <= imported /\ 0 <= failed /\
     imported + failed = Z.of_nat (List.length (movie_items b))) /\
  (handle cfg py net clk SeriesImport req tr = (Ret v, tr') ->
   exists b imported failed out,
     body req = Some b /\
     v = JDict [("imported", JInt imported); ("failed", JInt failed);
                ("results", JList out)] /\
     List.length out = List.length (series_items b) /\
     0 <= imported /\ 0 <= failed /\
     imported + failed = Z.of_nat (List.length (series_items b))).
Proof.
  split; intros H.
  - destruct (movie_import_returned cfg py net clk req v tr tr' H)
      as (b & out & Hb & -> & L).
    exists b, (count result_ok out),
      (count (fun r => negb (result_ok r)) out), out.
    destruct (summary_counts out _ L) as (P1 & P2 & P3).
    now repeat split.
  - destruct (series_import_returned cfg py net clk req v tr tr' H)
      as (b & out & Hb & -> & L).
    exists b, (count result_ok out),
      (count (fun r => negb (result_ok r)) out), out.
    destruct (summary_counts out _ L) as (P1 & P2 & P3).
    now repeat split.
Qed.

Lemma counts_cover_the_batch_witness :
  exists b imported failed out,
    body (Sample.req_body
            (JList [JDict [("tvdbId", JInt 81189)]; JBool true; JList []]))
    = Some b /\
    JDict [("imported", JInt 1); ("failed", JInt 2);
           ("results",
            JList [JDict [("ok", JBool true); ("tvdbId", JInt 81189);
                          ("tmdbId", JInt 1396)];
                   missing "tvdbId" (JBool true);
                   missing "tvdbId" (JList [])])]
    = JDict [("imported", JInt imported); ("failed", JInt failed);
             ("results", JList out)] /\
    List.length out = List.length (series_items b) /\
    0 <= imported /\ 0 <= failed /\
    imported + failed = Z.of_nat (List.length (series_items b)).
Proof.
  refine (proj2 (counts_cover_the_batch Sample.sonarr_open Sample.py
                   Sample.healthy Sample.clk
                   (Sample.req_body
                      (JList [JDict [("tvdbId", JInt 81189)]; JBool true;
                              JList []]))
                   _ [] _) eq_refl).
Defined.

(** X9: past the gate and in Radarr mode, with dry-run on and Overseerr
    configured, and when [int()] accepts every identifier the batch
    holds, a movie import touches no network and imports exactly the items
    that hold an identifier: its answer is determined by the batch alone,
    item by item, and its [imported] count is the number of items with a
    truthy identifier. *)
Theorem dry_run_import (cfg : config) (py : builtins) (net : network)
    (clk : clock) (req : request) (b : json) (tr : trace) :
  require_api_key cfg (x_api_key req) (apikey req) = ret tt ->
  MODE cfg = "radarr" ->
  body req = Some b ->
  overseerr_configured cfg -> DRY_RUN cfg = true ->
  Forall (fun it => convertible py (movie_tmdb_id it)) (movie_items b) ->
  handle cfg py net clk MovieImport req tr
  = (Ret (import_summary (map (movie_imported py) (movie_items b))), tr) /\
  count result_ok (map (movie_imported py) (movie_items b))
  = Z.of_nat (List.length (identified movie_tmdb_id (movie_items b))).
Proof.
  intros Hg Hm Hb Hc Hd Hi. split.
  - rewrite (movie_import_runs_loop cfg py net clk req b tr Hg Hm Hb).
    unfold bind.
    now rewrite (movie_loop_dry cfg py net (movie_items b) [] tr Hc Hd Hi).
  - now apply imported_are_identified.
Qed.

Lemma dry_run_import_witness :
  handle Sample.radarr_dry Sample.py Sample.down Sample.clk MovieImport
    (Sample.req_body
       (JList [JDict [("tmdbId", JInt 5)]; JDict [("foo", JStr "bar")]]))
    []
  = (Ret (import_summary
            [JDict [("ok", JBool true); ("tmdbId", JInt 5)];
             missing "tmdbId" (JDict [("foo", JStr "bar")])]), []).
Proof.
  refine (proj1 (dry_run_import Sample.radarr_dry Sample.py Sample.down
                   Sample.clk
                   (Sample.req_body
                      (JList [JDict [("tmdbId", JInt 5)]; JDict [("foo", JStr "bar")]]))
                   (JList [JDict [("tmdbId", JInt 5)]; JDict [("foo", JStr "bar")]])
                   [] eq_refl eq_refl eq_refl _ eq_refl _)).
  - split; discriminate.
  - repeat (apply Forall_cons;
            [first [ intros H; discriminate H
                   | intros _; eexists; reflexivity ] |]).
    apply Forall_nil.
Defined.

(** X10: past the gate and in Sonarr mode, without the TMDb credential
    the shim can request nothing.  A series import whose identifiers
    [int()] all accepts makes no call and reports every identified item as
    "tvdb->tmdb conversion failed", so that [imported] is 0.  A series add
    with a truthy identifier makes no call either: it is answered 400 when
    [int()] accepts the identifier, and raises what [int()] raises,
    answered 500, when it does not. *)
Theorem no_series_without_tmdb_credential (cfg : config) (py : builtins)
    (net : network) (clk : clock) (req : request) (tr : trace) :
  require_api_key cfg (x_api_key req) (apikey req) = ret tt ->
  MODE cfg = "sonarr" ->
  TMDB_API_KEY cfg = "" ->
  (forall b,
     body req = Some b ->
     Forall (fun it => convertible py (series_tvdb_id it)) (series_items b) ->
     handle cfg py net clk SeriesImport req tr
     = (Ret (import_summary (map (series_unbridged py) (series_items b))),
        tr) /\
     count result_ok (map (series_unbridged py) (series_items b)) = 0) /\
  (forall d,
     body req = Some (JDict d) ->
     truthy (add_id "tvdbId" "tvdb_id" d) = true ->
     handle cfg py net clk AddSeries req tr
     = match py_int py (add_id "tvdbId" "tvdb_id" d) with
       | Ret _ =>
           (Raise (HTTPException 400
                     "Could not convert tvdbId -> tmdbId (set TMDB_API_KEY)"),
            tr)
       | Raise e => (Raise e, tr)
       end /\
     status_of (fst (handle cfg py net clk AddSeries req tr))
     = match py_int py (add_id "tvdbId" "tvdb_id" d) with
       | Ret _ => 400
       | Raise _ => 500
       end).
Proof.
  intros Hg Hm Hk. split.
  - intros b Hb Hi. split.
    + rewrite (series_import_runs_loop cfg py net clk req b tr Hg Hm Hb).
      unfold bind.
      now rewrite (series_loop_unbridged cfg py net (series_items b) [] tr
                     Hk Hi).
    + now apply unbridged_are_failures.
  - intros d Hb Ht. unfold add_id in Ht |- *.
    assert (E : handle cfg py net clk AddSeries req tr
                = match py_int py (py_or (get d "tvdbId") (get d "tvdb_id"))
                  with
                  | Ret _ =>
                      (Raise (HTTPException 400
                         "Could not convert tvdbId -> tmdbId (set TMDB_API_KEY)"),
                       tr)
                  | Raise e => (Raise e, tr)
                  end).
    { simpl. unfold add_series. rewrite Hg, Hm.
      unfold request_json. rewrite Hb.
      unfold bind, ret, lift. cbn -[tmdb_from_tvdb py_int py_or].
      rewrite Ht. cbn -[tmdb_from_tvdb py_int py_or].
      destruct (py_int py (py_or (get d "tvdbId") (get d "tvdb_id")))
        as [n | e]; [| reflexivity].
      now rewrite (bridge_off cfg py net n Hk). }
    split; [exact E |]. rewrite E.
    destruct (py_int py (py_or (get d "tvdbId") (get d "tvdb_id")))
      as [n | e] eqn:P; [reflexivity |].
    apply py_int_plain in P. destruct e; simpl in P; try contradiction;
      reflexivity.
Qed.

Lemma no_series_without_tmdb_credential_witness :
  handle (mkConfig "sonarr" "" "http://overseerr:5055" "ovkey" 1 "" "all"
            false)
    Sample.py Sample.healthy Sample.clk AddSeries
    (Sample.req_body (JDict [("tvdbId", JInt 81189)])) []
  = (Raise (HTTPException 400
              "Could not convert tvdbId -> tmdbId (set TMDB_API_KEY)"), []).
Proof.
  exact (proj1 (proj2 (no_series_without_tmdb_credential
                  (mkConfig "sonarr" "" "http://overseerr:5055" "ovkey" 1 ""
                     "all" false)
                  Sample.py Sample.healthy Sample.clk
                  (Sample.req_body (JDict [("tvdbId", JInt 81189)])) []
                  eq_refl eq_refl eq_refl)
           [("tvdbId", JInt 81189)] eq_refl eq_refl)).
Defined.

(** ** Merging the body into an answer *)

Lemma find_set (d : dict) (k k' : string) (v : json) :
  find (set d k v) k' = if (k =? k')%string then Some v else find d k'.
Proof.
  induction d as [| [k0 v0] d IH]; cbn [set find].
  - reflexivity.
  - destruct (String.eqb_spec k0 k) as [-> | Hne]; cbn [find].
    + destruct (k =? k')%string; reflexivity.
    + rewrite IH.
      destruct (String.eqb_spec k0 k') as [<- | Hne'].
      * apply String.eqb_neq in Hne. rewrite String.eqb_sym in Hne.
        now rewrite Hne.
      * reflexivity.
Qed.

(** What a key holds after [{**d, **more}]: the value [more] gives it,
    and the value [d] gives it when [more] has none. *)
Lemma find_update (d more : dict) (k : string) :
  wf_dict more ->
  find (update d more) k
  = match find more k with
    | Some v => Some v
    | None => find d k
    end.
Proof.
  unfold update, wf_dict. revert d.
  induction more as [| [k0 v0] more IH]; intros d Hnd; [reflexivity |].
  simpl in Hnd. inversion Hnd as [| ? ? Hk Hnd']; subst.
  cbn [fold_left fst snd find]. rewrite IH by exact Hnd'.
  rewrite find_set.
  destruct (String.eqb_spec k0 k) as [-> | Hne]; [| reflexivity].
  now rewrite (find_absent more k Hk).
Qed.

(** X11: what an exclusion-create route answers, key by key.  For a body
    that is a mapping, the answer holds under every key what the body
    holds there, and under [id], when the body has none, the clock's
    reading: an [id] the body brings is kept, not replaced.  For a body
    that is not a mapping the route raises [TypeError], and the call is
    answered 500. *)
Theorem exclusion_answer_by_key (cfg : config) (py : builtins)
    (net : network) (clk : clock) (e : endpoint) (req : request)
    (tr : trace) :
  e = AddExclusion \/ e = AddImportListExclusion ->
  require_api_key cfg (x_api_key req) (apikey req) = ret tt ->
  (forall d,
     body req = Some (JDict d) -> wf_dict d ->
     exists out,
       handle cfg py net clk e req tr = (Ret (JDict out), tr) /\
       forall k,
         find out k
         = match find d k with
           | Some v => Some v
           | None => if (k =? "id")%string then Some (JInt (time_s clk))
                     else None
           end) /\
  (forall v,
     body req = Some v -> is_dict v = false ->
     handle cfg py net clk e req tr = (Raise TypeError, tr)).
Proof.
  intros He Hg. split.
  - intros d Hb Hwf.
    exists (update [("id", JInt (time_s clk))] d). split.
    + destruct He as [-> | ->]; simpl;
        unfold add_exclusion, add_import_list_exclusion;
        rewrite Hg; unfold request_json; rewrite Hb; reflexivity.
    + intros k. rewrite find_update by exact Hwf.
      destruct (find d k); [reflexivity |].
      cbn [find]. rewrite String.eqb_sym. reflexivity.
  - intros v Hb Hv.
    destruct He as [-> | ->]; simpl;
      unfold add_exclusion, add_import_list_exclusion;
      rewrite Hg; unfold request_json; rewrite Hb;
      destruct v; try discriminate Hv; reflexivity.
Qed.

Lemma exclusion_answer_by_key_witness :
  handle Sample.radarr_open Sample.py Sample.down Sample.clk
    AddImportListExclusion
    (Sample.req_body (JList [JInt 1])) []
  = (Raise TypeError, []).
Proof.
  exact (proj2 (exclusion_answer_by_key Sample.radarr_open Sample.py
                  Sample.down Sample.clk AddImportListExclusion
                  (Sample.req_body (JList [JInt 1])) []
                  (or_intror eq_refl) eq_refl)
           (JList [JInt 1]) eq_refl eq_refl).
Defined.

(** ** Single-item adds, end to end *)

Section Adds.

Context (cfg : config) (py : builtins) (net : network) (clk : clock).

Lemma bridge_names (n m : Z) (tr : trace) (r : response) :
  TMDB_API_KEY cfg <> "" ->
  net tr (find_call cfg n) = Reply r ->
  find_reply_names py r m ->
  tmdb_from_tvdb cfg py net n tr = (Ret (Some m), tr ++ [find_call cfg n]).
Proof.
  intros Hk Hn (Hs & d & first & rest & id & Hp & Ht & Hi & Hm).
  pose proof (bridge_match cfg py net n tr r d first rest id m
                Hk Hn Hs Hp Ht Hi Hm) as Hf.
  pose proof (bridge_one_lookup cfg py net n tr Hk) as Hl.
  destruct (tmdb_from_tvdb cfg py net n tr) as [res tr1].
  simpl in Hf, Hl. now subst.
Qed.


Lemma forwarder_refused (media_type : string) (n : Z) (tr : trace)
    (r : response) :
  overseerr_configured cfg -> DRY_RUN cfg = false ->
  net tr (overseerr_call cfg (request_payload cfg media_type n)) = Reply r ->
  ~ 200 <= status_code r < 300 ->
  overseerr_request cfg net media_type n tr
  = (Raise (HTTPException 502
              ("Overseerr error " ++ str_of_Z (status_code r)
                 ++ ": " ++ text r)%string),
     tr ++ [overseerr_call cfg (request_payload cfg media_type n)]).
Proof.
  intros Hc Hd Hn Hs.
  pose proof (forwarder_bad_gateway cfg net media_type n tr r Hc Hd Hn Hs)
    as Hf.
  pose proof (forwarder_sends cfg net media_type n tr Hc Hd) as Hl.
  destruct (overseerr_request cfg net media_type n tr) as [res tr1].
  simpl in Hf, Hl. now subst.
Qed.



End Adds.





(** ** Lookup terms *)

Lemma lower_ascii_colon (c : ascii) :
  ":"%char = lower_ascii c -> c = ":"%char.
Proof.
  destruct c as [[] [] [] [] [] [] [] []]; vm_compute; intros H;
    try reflexivity; discriminate H.
Qed.

Lemma lowers_to_letter (c x : ascii) :
  x = lower_ascii c -> x <> ":"%char -> Ascii.eqb c ":" = false.
Proof.
  intros H Hx. apply Ascii.eqb_neq. intros ->. apply Hx. rewrite H.
  reflexivity.
Qed.

Lemma split_after_prefix (a b c d : ascii) (term : string) :
  a <> ":"%char -> b <> ":"%char -> c <> ":"%char -> d <> ":"%char ->
  startswith (lower term)
    (String a (String b (String c (String d (String ":" EmptyString)))))
  = true ->
  exists head rest,
    term = (head ++ String ":" rest)%string /\
    String.length head = 4%nat /\
    lower head = String a (String b (String c (String d EmptyString))) /\
    split1 ":" term = (head, Some rest).
Proof.
  intros Ha Hb Hc Hd H. unfold startswith in H.
  destruct term as [| c0 [| c1 [| c2 [| c3 [| c4 rest]]]]];
    cbn [lower prefix] in H; try discriminate H;
    repeat match type of H with
           | match ascii_dec ?x ?y with _ => _ end = true =>
               destruct (ascii_dec x y); [| discriminate H]
           end; try discriminate H.
  pose proof (lowers_to_letter c0 a ltac:(assumption) Ha) as N0.
  pose proof (lowers_to_letter c1 b ltac:(assumption) Hb) as N1.
  pose proof (lowers_to_letter c2 c ltac:(assumption) Hc) as N2.
  pose proof (lowers_to_letter c3 d ltac:(assumption) Hd) as N3.
  assert (E4 : c4 = ":"%char) by now apply lower_ascii_colon.
  subst c4.
  exists (String c0 (String c1 (String c2 (String c3 EmptyString)))), rest.
  repeat split.
  - cbn [lower]. congruence.
  - cbn [split1]. rewrite N0, N1, N2, N3. reflexivity.
Qed.

(** X14: once a lookup has accepted the prefix of its term, reading the
    identifier cannot raise [IndexError]: the term is four characters
    that lower-case to the namespace name, a colon, and a rest, and the
    identifier is [int()] of that rest, whatever else the rest holds.  The
    prefix is accepted in any mix of upper and lower case. *)
Theorem term_id_after_prefix (py : builtins) (term p : string) :
  p = "tmdb" \/ p = "tvdb" ->
  startswith (lower term) (p ++ ":")%string = true ->
  exists head rest,
    term = (head ++ String ":" rest)%string /\
    lower head = p /\
    term_id py term
    = match int_of_str py rest with
      | Some z => ret z
      | None => raise ValueError
      end.
Proof.
  intros Hp H.
  assert (S : exists head rest,
             term = (head ++ String ":" rest)%string /\
             String.length head = 4%nat /\
             lower head = p /\
             split1 ":" term = (head, Some rest)).
  { destruct Hp as [-> | ->];
      apply split_after_prefix; try discriminate; exact H. }
  destruct S as (head & rest & E & _ & L & Sp).
  exists head, rest. repeat split; try assumption.
  unfold term_id. rewrite Sp. reflexivity.
Qed.

Lemma term_id_after_prefix_witness :
  exists head rest,
    "TmDb:603" = (head ++ String ":" rest)%string /\
    lower head = "tmdb" /\
    term_id Sample.py "TmDb:603"
    = match int_of_str Sample.py rest with
      | Some z => ret z
      | None => raise ValueError
      end.
Proof.
  apply (term_id_after_prefix Sample.py "TmDb:603" "tmdb").
  - now left.
  - reflexivity.
Defined.

(** ** Lookups *)

Section Lookups.

Context (cfg : config) (py : builtins) (net : network) (clk : clock).

(** Without a date the year is 0. *)
Lemma year_of_nothing (d : dict) (k : string) :
  truthy (get d k) = false ->
  year_of py (py_or (get d k) (JStr "")) = ret 0.
Proof.
  intros H. rewrite (py_or_r _ _ H). reflexivity.
Qed.

(** With a date the year is [int()] of what precedes its first dash. *)
Lemma year_of_date (d : dict) (k date : string) (y : Z) :
  get d k = JStr date -> date <> "" ->
  int_of_str py (fst (split1 "-" date)) = Some y ->
  year_of py (py_or (get d k) (JStr "")) = ret y.
Proof.
  intros Hd Hne Hy.
  assert (T : truthy (JStr date) = true).
  { simpl. apply String.eqb_neq in Hne. now rewrite Hne. }
  rewrite Hd, (py_or_l _ _ T). unfold year_of. rewrite T.
  unfold bind, lift, as_str. cbv beta iota. rewrite Hy. reflexivity.
Qed.

Lemma movie_lookup_runs (req : request) (id : Z) :
  lookup_accepts cfg py req "radarr" "tmdb:" id ->
  handle cfg py net clk MovieLookup req
  = (r <- send net (movie_details_call cfg id) ;;
     if status_code r =? 404 then ret (JList [])
     else
       raise_for_status r ;;;
       m <- json_of r ;;
       d <- lift (as_dict m) ;;
       year <- year_of py (py_or (get d "release_date") (JStr "")) ;;
       ret (JList [movie_record py d id year])).
Proof.
  intros (Hg & Hm & Hp & Hk & Ht). simpl. unfold movie_lookup.
  apply String.eqb_neq in Hk.
  rewrite Hg, Hm, Hp, Hk, Ht. reflexivity.
Qed.

Lemma series_lookup_runs (req : request) (id : Z) :
  lookup_accepts cfg py req "sonarr" "tvdb:" id ->
  handle cfg py net clk SeriesLookup req
  = (tmdb <- tmdb_from_tvdb cfg py net id ;;
     match tmdb with
     | None => ret (JList [])
     | Some tmdb_id =>
         r <- send net (tv_details_call cfg tmdb_id) ;;
         if status_code r =? 404 then ret (JList [])
         else
           raise_for_status r ;;;
           s <- json_of r ;;
           d <- lift (as_dict s) ;;
           year <- year_of py (py_or (get d "first_air_date") (JStr "")) ;;
           ret (JList [series_record py d id year])
     end).
Proof.
  intros (Hg & Hm & Hp & Hk & Ht). simpl. unfold series_lookup.
  apply String.eqb_neq in Hk.
  rewrite Hg, Hm, Hp, Hk, Ht. reflexivity.
Qed.

Lemma bind_returns {A B} (m : M A) (k : A -> M B) (a : A)
    (tr tr1 : trace) :
  m tr = (Ret a, tr1) -> bind m k tr = k a tr1.
Proof. intros H. unfold bind. now rewrite H. Qed.

Lemma send_reply {B} (c : call) (tr : trace) (r : response)
    (k : response -> M B) :
  net tr c = Reply r -> bind (send net c) k tr = k r (tr ++ [c]).
Proof. intros Hn. unfold bind, send. now rewrite Hn. Qed.

(** What a lookup makes of the details TMDb sends. *)
Lemma details_outcome (c : call) (tr : trace) (r : response)
    (k : dict -> Z -> json) (date : string) :
  net tr c = Reply r ->
  let run :=
    (r <- send net c ;;
     if status_code r =? 404 then ret (JList [])
     else
       raise_for_status r ;;;
       m <- json_of r ;;
       d <- lift (as_dict m) ;;
       year <- year_of py (py_or (get d date) (JStr "")) ;;
       ret (JList [k d year])) tr in
  (status_code r = 404 -> run = (Ret (JList []), tr ++ [c])) /\
  (is_success r = false -> status_code r <> 404 ->
   run = (Raise (HTTPStatusError (status_code r)), tr ++ [c])) /\
  (forall d y,
     is_success r = true -> parsed r = Some (JDict d) ->
     year_of py (py_or (get d date) (JStr "")) = ret y ->
     run = (Ret (JList [k d y]), tr ++ [c])).
Proof.
  intros Hn. cbv zeta. rewrite (send_reply c tr r _ Hn).
  split; [| split].
  - intros H. rewrite H. reflexivity.
  - intros Hs H4. apply Z.eqb_neq in H4. rewrite H4.
    unfold bind, raise_for_status. rewrite Hs. reflexivity.
  - intros d y Hs Hp Hy.
    assert (H4 : (status_code r =? 404) = false).
    { apply Z.eqb_neq. unfold is_success in Hs.
      apply andb_true_iff in Hs as [_ Hs]. apply Z.ltb_lt in Hs. lia. }
    rewrite H4. unfold raise_for_status, json_of. rewrite Hs, Hp.
    rewrite !bind_ret. unfold lift, as_dict.
    change (bind (fun tr0 : trace => (Ret d, tr0)) ?k) with (bind (ret d) k).
    rewrite bind_ret, Hy, bind_ret. reflexivity.
Qed.

End Lookups.

Section LookupDates.

Context (py : builtins) (net : network).

(** A date that is a non-empty string [int()] rejects raises
    [ValueError]. *)
Lemma year_of_bad_date (d : dict) (k date : string) :
  get d k = JStr date -> date <> "" ->
  int_of_str py (fst (split1 "-" date)) = None ->
  year_of py (py_or (get d k) (JStr "")) = raise ValueError.
Proof.
  intros Hd Hne Hy.
  assert (T : truthy (JStr date) = true).
  { simpl. apply String.eqb_neq in Hne. now rewrite Hne. }
  rewrite Hd, (py_or_l _ _ T). unfold year_of. rewrite T.
  unfold bind, lift, as_str. cbv beta iota. rewrite Hy. reflexivity.
Qed.

(** A truthy date that is not a string has no [split]. *)
Lemma year_of_not_a_date (d : dict) (k : string) :
  truthy (get d k) = true ->
  (forall date, get d k <> JStr date) ->
  year_of py (py_or (get d k) (JStr "")) = raise AttributeError.
Proof.
  intros T Hs. rewrite (py_or_l _ _ T). unfold year_of. rewrite T.
  destruct (get d k) as [| b | z | m e | s | l | d']; try reflexivity.
  now elim (Hs s).
Qed.

(** On a 2xx answer with a dict body, a lookup is left with reading the
    year. *)
Lemma details_reads_year (c : call) (tr : trace) (r : response) (d : dict)
    (k : dict -> Z -> json) (date : string) :
  net tr c = Reply r ->
  is_success r = true -> parsed r = Some (JDict d) ->
  (r <- send net c ;;
   if status_code r =? 404 then ret (JList [])
   else
     raise_for_status r ;;;
     m <- json_of r ;;
     d <- lift (as_dict m) ;;
     year <- year_of py (py_or (get d date) (JStr "")) ;;
     ret (JList [k d year])) tr
  = (year <- year_of py (py_or (get d date) (JStr "")) ;;
     ret (JList [k d year])) (tr ++ [c]).
Proof.
  intros Hn Hs Hp. rewrite (send_reply net c tr r _ Hn).
  assert (H4 : (status_code r =? 404) = false).
  { apply Z.eqb_neq. unfold is_success in Hs.
    apply andb_true_iff in Hs as [_ Hs]. apply Z.ltb_lt in Hs. lia. }
  rewrite H4. unfold raise_for_status, json_of. rewrite Hs, Hp.
  rewrite !bind_ret. unfold lift, as_dict.
  change (bind (fun tr0 : trace => (Ret d, tr0)) ?k) with (bind (ret d) k).
  now rewrite bind_ret.
Qed.

(** What becomes of the lookup for each shape of the date. *)
Lemma year_outcomes (c : call) (tr : trace) (r : response) (d : dict)
    (k : dict -> Z -> json) (date : string) :
  net tr c = Reply r ->
  is_success r = true -> parsed r = Some (JDict d) ->
  let run :=
    (r <- send net c ;;
     if status_code r =? 404 then ret (JList [])
     else
       raise_for_status r ;;;
       m <- json_of r ;;
       d <- lift (as_dict m) ;;
       year <- year_of py (py_or (get d date) (JStr "")) ;;
       ret (JList [k d year])) tr in
  (truthy (get d date) = false ->
   run = (Ret (JList [k d 0]), tr ++ [c])) /\
  (forall text, get d date = JStr text -> text <> "" ->
     run = match int_of_str py (fst (split1 "-" text)) with
           | Some y => (Ret (JList [k d y]), tr ++ [c])
           | None => (Raise ValueError, tr ++ [c])
           end) /\
  (truthy (get d date) = true ->
   (forall text, get d date <> JStr text) ->
   run = (Raise AttributeError, tr ++ [c])).
Proof.
  intros Hn Hs Hp. cbv zeta.
  rewrite (details_reads_year c tr r d k date Hn Hs Hp).
  split; [| split].
  - intros T. now rewrite (year_of_nothing py d date T), bind_ret.
  - intros text Hd Hne.
    destruct (int_of_str py (fst (split1 "-" text))) as [y |] eqn:Hy.
    + now rewrite (year_of_date py d date text y Hd Hne Hy), bind_ret.
    + now rewrite (year_of_bad_date d date text Hd Hne Hy), bind_raise.
  - intros T Hx. now rewrite (year_of_not_a_date d date T Hx), bind_raise.
Qed.

End LookupDates.

(** X15: what an accepted movie lookup answers.  It fetches the details
    of the searched id, in one call.  A not-found answer gives the empty
    list, not an error; any other non-2xx answer is raised and the call is
    answered 500.  On a 2xx answer with a dict body the outcome turns on
    the release date: when it is absent or falsy the answer is exactly one
    record with year 0; when it is a non-empty string the year is [int()]
    of what precedes its first dash, and the lookup raises [ValueError]
    when [int()] rejects that; when it is truthy and not a string the
    lookup raises [AttributeError].  The record carries the searched id,
    the slug built from it and the title (the original title when there
    is none, "Unknown" when there is neither). *)
Theorem movie_lookup_answer (cfg : config) (py : builtins) (net : network)
    (clk : clock) (req : request) (id : Z) (r : response) (tr : trace) :
  lookup_accepts cfg py req "radarr" "tmdb:" id ->
  net tr (movie_details_call cfg id) = Reply r ->
  let answer := handle cfg py net clk MovieLookup req tr in
  let calls := tr ++ [movie_details_call cfg id] in
  (status_code r = 404 -> answer = (Ret (JList []), calls)) /\
  (is_success r = false -> status_code r <> 404 ->
   answer = (Raise (HTTPStatusError (status_code r)), calls) /\
   status_of (fst answer) = 500) /\
  (forall d,
     is_success r = true -> parsed r = Some (JDict d) ->
     (truthy (get d "release_date") = false ->
      answer = (Ret (JList [movie_record py d id 0]), calls)) /\
     (forall date, get d "release_date" = JStr date -> date <> "" ->
        answer = match int_of_str py (fst (split1 "-" date)) with
                 | Some y => (Ret (JList [movie_record py d id y]), calls)
                 | None => (Raise ValueError, calls)
                 end) /\
     (truthy (get d "release_date") = true ->
      (forall date, get d "release_date" <> JStr date) ->
      answer = (Raise AttributeError, calls))).
Proof.
  intros Ha Hn. cbv zeta.
  rewrite (movie_lookup_runs cfg py net clk req id Ha).
  destruct (details_outcome py net (movie_details_call cfg id) tr r
              (fun d y => movie_record py d id y) "release_date" Hn)
    as (H404 & Hbad & _).
  split; [exact H404 |]. split.
  - intros Hs H4. rewrite (Hbad Hs H4). split; reflexivity.
  - intros d Hs Hp.
    exact (year_outcomes py net (movie_details_call cfg id) tr r d
             (fun d y => movie_record py d id y) "release_date" Hn Hs Hp).
Qed.

Lemma movie_lookup_answer_witness :
  handle Sample.radarr_open Sample.py
    (Sample.always 200 "{...}"
       (Some (JDict [("original_title", JStr "Matrix");
                     ("release_date", JStr "TBA")])))
    Sample.clk MovieLookup (mkRequest None None "TMDB:603" None) []
  = (Raise ValueError, [movie_details_call Sample.radarr_open 603]).
Proof.
  refine (proj1 (proj2 (proj2 (proj2 (movie_lookup_answer Sample.radarr_open
                                 Sample.py
                                 (Sample.always 200 "{...}"
                                    (Some (JDict [("original_title",
                                                   JStr "Matrix");
                                                  ("release_date",
                                                   JStr "TBA")])))
                                 Sample.clk
                                 (mkRequest None None "TMDB:603" None) 603
                                 (mkResponse 200 "{...}"
                                    (Some (JDict [("original_title",
                                                   JStr "Matrix");
                                                  ("release_date",
                                                   JStr "TBA")])))
                                 [] _ eq_refl))
                   [("original_title", JStr "Matrix");
                    ("release_date", JStr "TBA")] eq_refl eq_refl))
            "TBA" eq_refl _).
  - repeat split. discriminate.
  - discriminate.
Defined.

(** X16: what an accepted series lookup answers.  It asks the bridge
    first.  When TMDb's find answer holds no match, the answer is the
    empty list and the find lookup is the only call.  When the find
    answer names [m] first, the details are fetched for the TMDb id [m]:
    a not-found answer gives the empty list; on a 2xx answer with a dict
    body the outcome turns on the first air date: when it is absent or
    falsy the answer is exactly one record with year 0; when it is a
    non-empty string the year is [int()] of what precedes its first dash,
    and the lookup raises [ValueError] when [int()] rejects that; when it
    is truthy and not a string the lookup raises [AttributeError].  The
    record carries the searched TVDB id and the slug built from it, not
    [m]. *)
Theorem series_lookup_answer (cfg : config) (py : builtins) (net : network)
    (clk : clock) (req : request) (id : Z) (r1 : response) (tr : trace) :
  lookup_accepts cfg py req "sonarr" "tvdb:" id ->
  net tr (find_call cfg id) = Reply r1 ->
  let answer := handle cfg py net clk SeriesLookup req tr in
  (forall d,
     is_success r1 = true -> parsed r1 = Some (JDict d) ->
     truthy (get d "tv_results") = false ->
     answer = (Ret (JList []), tr ++ [find_call cfg id])) /\
  (forall m r2,
     find_reply_names py r1 m ->
     net (tr ++ [find_call cfg id]) (tv_details_call cfg m) = Reply r2 ->
     let calls := tr ++ [find_call cfg id; tv_details_call cfg m] in
     (status_code r2 = 404 -> answer = (Ret (JList []), calls)) /\
     (forall d,
        is_success r2 = true -> parsed r2 = Some (JDict d) ->
        (truthy (get d "first_air_date") = false ->
         answer = (Ret (JList [series_record py d id 0]), calls)) /\
        (forall date, get d "first_air_date" = JStr date -> date <> "" ->
           answer = match int_of_str py (fst (split1 "-" date)) with
                    | Some y =>
                        (Ret (JList [series_record py d id y]), calls)
                    | None => (Raise ValueError, calls)
                    end) /\
        (truthy (get d "first_air_date") = true ->
         (forall date, get d "first_air_date" <> JStr date) ->
         answer = (Raise AttributeError, calls)))).
Proof.
  intros Ha Hn1. cbv zeta.
  rewrite (series_lookup_runs cfg py net clk req id Ha).
  destruct Ha as (_ & _ & _ & Hk & _).
  split.
  - intros d Hs Hp Ht.
    pose proof (bridge_no_match cfg py net id tr r1 d Hk Hn1 Hs Hp Ht) as Hf.
    pose proof (bridge_one_lookup cfg py net id tr Hk) as Hl.
    assert (E : tmdb_from_tvdb cfg py net id tr
                = (Ret None, tr ++ [find_call cfg id])).
    { destruct (tmdb_from_tvdb cfg py net id tr) as [res tr1].
      simpl in Hf, Hl. now subst. }
    now rewrite (bind_returns _ _ _ _ _ E).
  - intros m r2 Hr1 Hn2.
    rewrite (bind_returns _ _ _ _ _
               (bridge_names cfg py net id m tr r1 Hk Hn1 Hr1)).
    replace (tr ++ [find_call cfg id; tv_details_call cfg m])
      with ((tr ++ [find_call cfg id]) ++ [tv_details_call cfg m])
      by (now rewrite <- app_assoc).
    destruct (details_outcome py net (tv_details_call cfg m)
                (tr ++ [find_call cfg id]) r2
                (fun d y => series_record py d id y) "first_air_date" Hn2)
      as (H404 & _ & _).
    split; [exact H404 |].
    intros d Hs Hp.
    exact (year_outcomes py net (tv_details_call cfg m)
             (tr ++ [find_call cfg id]) r2 d
             (fun d y => series_record py d id y) "first_air_date"
             Hn2 Hs Hp).
Qed.

Lemma series_lookup_answer_witness :
  handle Sample.sonarr_open Sample.py
    (Sample.always 200 "{...}" (Some (JDict [("tv_results", JList [])])))
    Sample.clk SeriesLookup (mkRequest None None "tvdb:81189" None) []
  = (Ret (JList []), [find_call Sample.sonarr_open 81189]).
Proof.
  refine (proj1 (series_lookup_answer Sample.sonarr_open Sample.py
                   (Sample.always 200 "{...}"
                      (Some (JDict [("tv_results", JList [])])))
                   Sample.clk (mkRequest None None "tvdb:81189" None) 81189
                   (mkResponse 200 "{...}"
                      (Some (JDict [("tv_results", JList [])])))
                   [] _ eq_refl)
            [("tv_results", JList [])] eq_refl eq_refl eq_refl).
  repeat split. discriminate.
Defined.

(** ** The loops, one turn at a time *)



(** ** The forwarder, outcome by outcome *)

(** X18: what the live forwarder makes of each answer to its one POST.
    No answer raises the transport error; a 2xx answer with an empty text
    gives the synthetic [{"ok": true}]; a 2xx answer with a text gives the
    decoded text, and raises [JSONDecodeError] when the text does not
    decode, although the request has been sent; any other status raises a
    502 whose detail holds the status and the raw text. *)
Theorem forwarder_outcomes (cfg : config) (net : network)
    (media_type : string) (n : Z) (tr : trace) :
  overseerr_configured cfg -> DRY_RUN cfg = false ->
  let post := overseerr_call cfg (request_payload cfg media_type n) in
  let answer := overseerr_request cfg net media_type n tr in
  (forall msg, net tr post = NoResponse msg ->
     answer = (Raise (TransportError msg), tr ++ [post])) /\
  (forall r, net tr post = Reply r ->
     (200 <= status_code r < 300 -> text r = "" ->
      answer = (Ret (JDict [("ok", JBool true)]), tr ++ [post])) /\
     (forall v, 200 <= status_code r < 300 -> text r <> "" ->
        parsed r = Some v -> answer = (Ret v, tr ++ [post])) /\
     (200 <= status_code r < 300 -> text r <> "" -> parsed r = None ->
      answer = (Raise JSONDecodeError, tr ++ [post])) /\
     (~ 200 <= status_code r < 300 ->
      answer
      = (Raise (HTTPException 502
                  ("Overseerr error " ++ str_of_Z (status_code r)
                     ++ ": " ++ text r)%string), tr ++ [post]))).
Proof.
  intros Hc Hd. cbv zeta. split.
  - intros msg Hn. unfold overseerr_request, bind, send.
    now rewrite (configured_test cfg Hc), Hd, Hn.
  - intros r Hn.
    pose proof (forwarder_sends cfg net media_type n tr Hc Hd) as Hl.
    pose proof (forwarder_success cfg net media_type n tr r Hc Hd Hn) as Hok.
    pose proof (forwarder_refused cfg net media_type n tr r Hc Hd Hn) as Hbad.
    destruct (overseerr_request cfg net media_type n tr) as [res tr1].
    simpl in Hl, Hok. subst tr1.
    split; [| split; [| split]].
    + intros Hs Ht. rewrite (Hok Hs), Ht. reflexivity.
    + intros v Hs Ht Hp. rewrite (Hok Hs), Hp.
      apply String.eqb_neq in Ht. now rewrite Ht.
    + intros Hs Ht Hp. rewrite (Hok Hs), Hp.
      apply String.eqb_neq in Ht. now rewrite Ht.
    + exact Hbad.
Qed.

Lemma forwarder_outcomes_witness :
  overseerr_request Sample.radarr_open
    (Sample.always 200 "<html>" None) "movie" 603 []
  = (Raise JSONDecodeError,
     [overseerr_call Sample.radarr_open
        (request_payload Sample.radarr_open "movie" 603)]).
Proof.
  refine (proj1 (proj2 (proj2 (proj2 (forwarder_outcomes Sample.radarr_open
                                        (Sample.always 200 "<html>" None)
                                        "movie" 603 [] _ eq_refl)
                                 (mkResponse 200 "<html>" None) eq_refl)))
            _ _ eq_refl).
  - split; discriminate.
  - simpl. lia.
  - discriminate.
Defined.

(** ** Bodies at the edge *)

(** X19: what an import makes of a body that holds no batch.  An empty
    list is an empty batch: the answer counts nothing and the result list
    is empty.  Any decoded body that is neither a list nor a mapping
    ([null], a number, a string, a boolean) is a batch of one, and so is
    the empty mapping: the answer reports that one item as "missing", with
    the body itself as the item.  No call is made in either case. *)
Theorem import_of_no_batch (cfg : config) (py : builtins) (net : network)
    (clk : clock) (req : request) (v : json) (tr : trace) :
  require_api_key cfg (x_api_key req) (apikey req) = ret tt ->
  body req = Some v ->
  let movie := handle cfg py net clk MovieImport req tr in
  let series := handle cfg py net clk SeriesImport req tr in
  (MODE cfg = "radarr" ->
   (v = JList [] -> movie = (Ret (import_summary []), tr)) /\
   (v = JDict [] \/ (is_list v = false /\ is_dict v = false) ->
    movie = (Ret (import_summary [missing "tmdbId" v]), tr))) /\
  (MODE cfg = "sonarr" ->
   (v = JList [] -> series = (Ret (import_summary []), tr)) /\
   (v = JDict [] \/ (is_list v = false /\ is_dict v = false) ->
    series = (Ret (import_summary [missing "tvdbId" v]), tr))).
Proof.
  intros Hg Hb. cbv zeta. split; intros Hm.
  - rewrite (movie_import_runs_loop cfg py net clk req v tr Hg Hm Hb).
    split.
    + intros ->. reflexivity.
    + intros [-> | [Hl Hd]]; [reflexivity |].
      destruct v; try discriminate; reflexivity.
  - rewrite (series_import_runs_loop cfg py net clk req v tr Hg Hm Hb).
    split.
    + intros ->. reflexivity.
    + intros [-> | [Hl Hd]]; [reflexivity |].
      destruct v; try discriminate; reflexivity.
Qed.

Lemma import_of_no_batch_witness :
  handle Sample.sonarr_open Sample.py Sample.healthy Sample.clk SeriesImport
    (Sample.req_body JNull) []
  = (Ret (JDict [("imported", JInt 0); ("failed", JInt 1);
                 ("results", JList [missing "tvdbId" JNull])]), []).
Proof.
  refine (proj2 (proj2 (import_of_no_batch Sample.sonarr_open Sample.py
                          Sample.healthy Sample.clk (Sample.req_body JNull)
                          JNull [] eq_refl eq_refl)
                   eq_refl)
            (or_intror (conj eq_refl eq_refl))).
Defined.

(** X20: what the body-reading routes make of a body they cannot use.
    Past the gate and in the mode the route needs, a body that does not
    decode raises [JSONDecodeError] on every such route, and a decoded
    body that is not a mapping raises [AttributeError] on tag-create and
    on the two single-item adds; the call is answered 500 and nothing is
    sent. *)
Theorem unusable_body (cfg : config) (py : builtins) (net : network)
    (clk : clock) (e : endpoint) (req : request) (tr : trace) :
  require_api_key cfg (x_api_key req) (apikey req) = ret tt ->
  (reads_body cfg e -> body req = None ->
   handle cfg py net clk e req tr = (Raise JSONDecodeError, tr)) /\
  (needs_dict cfg e ->
   forall v, body req = Some v -> is_dict v = false ->
   handle cfg py net clk e req tr = (Raise AttributeError, tr)).
Proof.
  intros Hg. split.
  - intros Hr Hb.
    destruct Hr as [He | [[He Hm] | [He Hm]]]; simpl in He;
      repeat (destruct He as [<- | He]); try contradiction; simpl;
      unfold create_tag, add_exclusion, add_import_list_exclusion,
        movie_import, add_movie, series_import, add_series;
      rewrite Hg; try rewrite Hm; unfold request_json; rewrite Hb;
      reflexivity.
  - intros Hd v Hb Hv.
    destruct Hd as [-> | [[-> Hm] | [-> Hm]]]; simpl;
      unfold create_tag, add_movie, add_series;
      rewrite Hg; try rewrite Hm; unfold request_json; rewrite Hb;
      destruct v; try discriminate Hv; reflexivity.
Qed.

Lemma unusable_body_witness :
  handle Sample.radarr_open Sample.py Sample.healthy Sample.clk AddMovie
    (Sample.req_body (JList [JDict [("tmdbId", JInt 603)]])) []
  = (Raise AttributeError, []).
Proof.
  exact (proj2 (unusable_body Sample.radarr_open Sample.py Sample.healthy
                  Sample.clk AddMovie
                  (Sample.req_body (JList [JDict [("tmdbId", JInt 603)]])) []
                  eq_refl)
           (or_intror (or_introl (conj eq_refl eq_refl)))
           (JList [JDict [("tmdbId", JInt 603)]]) eq_refl eq_refl).
Defined.

(** ** The canonical payload *)

(** X21: whatever the media type, the identifier and the configuration,
    the payload of a request is a well-formed mapping: no key occurs
    twice, [mediaType], [mediaId] and [userId] hold the media type, the
    identifier and the configured user, and the only other key it can
    hold is [seasons]. *)
Theorem payload_is_canonical (cfg : config) (media_type : string) (n : Z) :
  let payload := request_payload cfg media_type n in
  wf_dict payload /\
  find payload "mediaType" = Some (JStr media_type) /\
  find payload "mediaId" = Some (JInt n) /\
  find payload "userId" = Some (JInt (OVERSEERR_USER_ID cfg)) /\
  (forall k, In k (keys payload) ->
     In k ["mediaType"; "mediaId"; "userId"; "seasons"]).
Proof.
  cbv zeta. unfold request_payload, wf_dict.
  destruct (media_type =? "tv")%string;
    [destruct (DEFAULT_TV_SEASONS cfg =? "all")%string;
       [| destruct (DEFAULT_TV_SEASONS cfg =? "first")%string] |];
    (split; [| split; [| split; [| split]]];
     [ cbn [set keys map fst String.eqb Ascii.eqb Bool.eqb];
       repeat constructor; cbn [In]; intuition discriminate
     | reflexivity | reflexivity | reflexivity
     | cbn [set keys map fst String.eqb Ascii.eqb Bool.eqb In];
       intros k Hk; tauto ]).
Qed.
